(** * finance-service: payment lifecycle and unified expense ledger

    A shallow embedding of the service's storage model (app/models.py),
    its event consumers (app/consumers.py), its routes
    (app/routes/payments.py, app/routes/expenses.py,
    app/routes/positions.py), its two services
    (app/services/payment_cycle.py, app/services/expense_service.py), the
    seeding of the positions (app/database.py) and the startup
    (app/main.py), followed by the properties that are proved about them.

    Tables are lists of rows, a SQLAlchemy session is a pair of a committed
    and a pending database, the clock is an argument, and exceptions are
    values. The widths of the columns count where the code can exceed
    them: a text longer than its VARCHAR column and a key outside the
    32-bit range make the database or its driver raise. *)

From Stdlib Require Import ZArith QArith Permutation.
From stdpp Require Import base decidable option list strings gmap sorting.

Local Open Scope Z_scope.

(** ** Dates, times and the clock *)

Record date := Date { year : Z; month : Z; day : Z }.

(** A [datetime] is a calendar date and the microseconds since midnight. *)
Record datetime := DateTime { dt_date : date; dt_micros : Z }.

(** One reading of the clock: [datetime.utcnow()] and [date.today()]. *)
Record Clock := mkClock { utcnow : datetime; today : date }.

(** [date] comparison, as Python orders dates. *)
Definition date_ltb (a b : date) : bool :=
  (year a <? year b)
  || ((year a =? year b)
      && ((month a <? month b) || ((month a =? month b) && (day a <? day b)))).

Definition date_eqb (a b : date) : bool :=
  (year a =? year b) && (month a =? month b) && (day a =? day b).

Definition date_leb (a b : date) : bool := date_ltb a b || date_eqb a b.

#[global] Instance date_eq_dec : EqDecision date.
Proof. solve_decision. Defined.

(** ** Rows (app/models.py)

    Money is a Python float in the source; the service only copies amounts
    and compares them with zero, so they are rationals here. *)

Record Position := mkPosition {
  pos_id : Z;
  pos_name : string;
  pos_description : option string;
  base_salary : Q }.

Record ManualExpense := mkManualExpense {
  me_id : Z;
  me_date : date;
  me_category : string;
  me_description : option string;
  me_value : Q;
  me_responsible : string;
  me_created_at : datetime }.

Record EmployeePaymentStatus := mkEmployeePaymentStatus {
  eps_id : Z;
  employee_id : string;
  position_name : option string;
  paid : bool;
  last_payment : option datetime;
  eps_created_at : datetime;
  eps_updated_at : datetime }.

Record PaymentCycleConfig := mkPaymentCycleConfig {
  cfg_id : Z;
  reset_day : Z;
  last_reset_date : option date;
  cfg_created_at : datetime;
  cfg_updated_at : datetime }.

Record Expense := mkExpense {
  exp_id : Z;
  description : string;
  amount : Q;
  expense_date : date;
  expense_type : string;
  reference_id : option Z;
  exp_created_at : datetime }.

(** ** The database: five tables and the serial counters of their keys *)

Record DB := mkDB {
  positions : list Position;
  manual_expenses : list ManualExpense;
  employee_payment_status : list EmployeePaymentStatus;
  payment_cycle_config : list PaymentCycleConfig;
  expenses : list Expense;
  manual_expenses_seq : Z;
  employee_payment_status_seq : Z;
  payment_cycle_config_seq : Z;
  expenses_seq : Z }.

Definition empty_db : DB := mkDB [] [] [] [] [] 1 1 1 1.

Definition set_manual_expenses (rows : list ManualExpense) (seq : Z) (d : DB) : DB :=
  mkDB (positions d) rows (employee_payment_status d) (payment_cycle_config d)
       (expenses d) seq (employee_payment_status_seq d)
       (payment_cycle_config_seq d) (expenses_seq d).

Definition set_employee_payment_status
    (rows : list EmployeePaymentStatus) (seq : Z) (d : DB) : DB :=
  mkDB (positions d) (manual_expenses d) rows (payment_cycle_config d)
       (expenses d) (manual_expenses_seq d) seq
       (payment_cycle_config_seq d) (expenses_seq d).

Definition set_payment_cycle_config
    (rows : list PaymentCycleConfig) (seq : Z) (d : DB) : DB :=
  mkDB (positions d) (manual_expenses d) (employee_payment_status d) rows
       (expenses d) (manual_expenses_seq d) (employee_payment_status_seq d)
       seq (expenses_seq d).

Definition set_expenses (rows : list Expense) (seq : Z) (d : DB) : DB :=
  mkDB (positions d) (manual_expenses d) (employee_payment_status d)
       (payment_cycle_config d) rows (manual_expenses_seq d)
       (employee_payment_status_seq d) (payment_cycle_config_seq d) seq.

(** ** Outbound messages (the dictionaries handed to [publish_message]) *)

Inductive Message :=
| EmployeePaid (id : string) (amount : Q) (position : option string)
               (month year : Z) (paid_at : datetime)
| EmployeeStatusChanged (id : string) (active : bool)
| EmployeeDismissed (id : string) (dismissed_at : datetime)
                    (position : option string)
| ExpenseRegistered (amount : Q) (category : string)
                    (description : option string) (date_ : date)
                    (responsible : string)
| ExpenseDeleted (id : Z) (deleted_at : datetime).

Definition Publication : Type := string * Message.

(** ** Exceptions and results *)

Inductive exn :=
| JSONDecodeError
| ValidationError
| MultipleResultsFound
| DBAPIError
| HTTPException (status_code : Z) (detail : string).

Inductive res (A : Type) :=
| Ok (a : A)
| Raise (e : exn).
Arguments Ok {A} a.
Arguments Raise {A} e.

(** ** Sessions

    [committed] is what the database holds, [pending] what the open session
    sees (its own uncommitted writes included), [outbox] the calls made to
    [publish_message]. *)

Record Session := mkSession {
  committed : DB;
  pending : DB;
  outbox : list Publication }.

Definition M (A : Type) : Type := Session -> res A * Session.

Definition ret {A} (a : A) : M A := fun s => (Ok a, s).

Definition bind {A B} (m : M A) (k : A -> M B) : M B :=
  fun s => match m s with
           | (Ok a, s') => k a s'
           | (Raise e, s') => (Raise e, s')
           end.

Notation "'do' x <- m ; k" := (bind m (fun x => k))
  (at level 10, x name, m at level 100, k at level 200).

Definition raise {A} (e : exn) : M A := fun s => (Raise e, s).

Definition lift {A} (r : res A) : M A := fun s => (r, s).

(** [except Exception as e: handler e] around [m]. *)
Definition try_except {A} (m : M A) (handler : exn -> M A) : M A :=
  fun s => match m s with
           | (Ok a, s') => (Ok a, s')
           | (Raise e, s') => handler e s'
           end.

(** Read the database as the session sees it. *)
Definition query {A} (f : DB -> A) : M A := fun s => (Ok (f (pending s)), s).

(** Write to the session (flushed, not yet committed). *)
Definition modify (f : DB -> DB) : M unit :=
  fun s => (Ok tt, mkSession (committed s) (f (pending s)) (outbox s)).

(** [await db.commit()] *)
Definition commit : M unit :=
  fun s => (Ok tt, mkSession (pending s) (pending s) (outbox s)).

(** Leaving a session discards what was not committed. *)
Definition close (s : Session) : Session :=
  mkSession (committed s) (committed s) (outbox s).

(** [async with async_session_maker() as session: m], also the session that
    [get_db_session] hands to a route. *)
Definition async_session {A} (m : M A) : M A :=
  fun s => let '(r, s') := m (close s) in (r, close s').

(** app/messaging.py [publish_message]: it catches its own failures, so a
    call never raises; the call is recorded. *)
Definition publish_message (queue_name : string) (message : Message) : M unit :=
  fun s => (Ok tt, mkSession (committed s) (pending s)
                             (outbox s ++ [(queue_name, message)])).

(** The world between two requests: the database and what was published. *)
Record World := mkWorld { data : DB; sent : list Publication }.

Definition run {A} (m : M A) (w : World) : res A * World :=
  let '(r, s) := async_session m (mkSession (data w) (data w) (sent w)) in
  (r, mkWorld (committed s) (outbox s)).

(** ** Query helpers *)

(** [result.scalar_one_or_none()] *)
Definition scalar_one_or_none {A} (rows : list A) : res (option A) :=
  match rows with
  | [] => Ok None
  | [x] => Ok (Some x)
  | _ => Raise MultipleResultsFound
  end.

(** Python truth value of an [Optional[str]]: [None] and [""] are false. *)
Definition truthy (s : option string) : bool :=
  match s with
  | Some (String _ _) => true
  | _ => false
  end.

(** [len(s)] of a Python [str] held as UTF-8: the bytes that do not continue
    a code point. *)
Fixpoint str_len (s : string) : Z :=
  match s with
  | EmptyString => 0
  | String c s' =>
      (if Z.land (Z.of_N (Ascii.N_of_ascii c)) 192 =? 128 then 0 else 1)
      + str_len s'
  end.
Arguments str_len : simpl never.

(** A [String(n)] column (app/models.py) is a VARCHAR(n): it takes a string
    of at most [n] characters, and the database refuses a longer one. *)
Definition varchar (n : Z) (s : string) : bool := str_len s <=? n.

(** An [Integer] column, and a parameter compared with one, holds a signed
    32-bit number; the driver refuses any other. *)
Definition int32 (n : Z) : bool := (- 2 ^ 31 <=? n) && (n <? 2 ^ 31).

(** [select(..).where(key == k)] on an [Integer] key: the rows whose key is
    [k]. A stored key is within the column's range, so a parameter that
    matches a row is; one outside the range matches no row, and the driver
    raises on it. *)
Definition where_key {A} (key : A -> Z) (k : Z) (rows : list A) : res (list A) :=
  match filter (fun r => key r = k) rows with
  | [] => if int32 k then Ok [] else Raise DBAPIError
  | found => Ok found
  end.

(** [select(EmployeePaymentStatus).where(employee_id == eid)] followed by
    [scalar_one_or_none()]. *)
Definition select_status (eid : string) : M (option EmployeePaymentStatus) :=
  do rows <- query (fun d => filter (fun r => employee_id r = eid)
                                    (employee_payment_status d));
  lift (scalar_one_or_none rows).

(** The ORM writes a changed object back by primary key. The callers pass
    an [f] that changes no text column, or check the new text against the
    width of its column first. *)
Definition update_status (pk : Z) (f : EmployeePaymentStatus -> EmployeePaymentStatus)
    : M unit :=
  modify (fun d =>
    set_employee_payment_status
      (map (fun r => if decide (eps_id r = pk) then f r else r)
           (employee_payment_status d))
      (employee_payment_status_seq d) d).

(** ** Event consumers (app/consumers.py) *)

(** A decoded JSON value; the consumers never look inside arrays or nested
    objects. *)
Inductive json :=
| JNull
| JBool (b : bool)
| JNum (n : Z)
| JStr (s : string)
| JArr
| JObj.

(** A message body: either its JSON text decodes to an object, or
    [json.loads] (or the keyword expansion of a value that is no object)
    raises. *)
Inductive Body :=
| Malformed
| Object (data : gmap string json).

Definition json_loads (body : Body) : M (gmap string json) :=
  match body with
  | Malformed => raise JSONDecodeError
  | Object data => ret data
  end.

(** [if 'employeeId' in data and 'id' not in data: data['id'] = data['employeeId']] *)
Definition normalize_id (data : gmap string json) : gmap string json :=
  match data !! "employeeId", data !! "id" with
  | Some v, None => <["id" := v]> data
  | _, _ => data
  end.

(** The fields of the event schemas (app/schemas.py) that the consumers
    read. *)
Record EmployeeRegistered := mkEmployeeRegistered {
  er_id : string;
  er_role : string }.

Record EmployeeDeleted := mkEmployeeDeleted { ed_id : string }.

Record EmployeeRoleChanged := mkEmployeeRoleChanged {
  rc_id : string;
  rc_role : string }.

(** [session.add(EmployeePaymentStatus(employee_id=.., position_name=..,
    paid=False, last_payment=None))]; the key comes from the serial counter
    and both timestamps default to [datetime.utcnow]. The columns are
    [employee_id: String(50)] and [position_name: String(100)]: the INSERT
    of a longer value is refused when the session is flushed by the commit
    that follows, which raises. *)
Definition add_status (clk : Clock) (eid role : string) : M unit :=
  if varchar 50 eid && varchar 100 role then
    modify (fun d =>
      set_employee_payment_status
        (employee_payment_status d
         ++ [mkEmployeePaymentStatus (employee_payment_status_seq d) eid
               (Some role) false None (utcnow clk) (utcnow clk)])
        (employee_payment_status_seq d + 1) d)
  else raise DBAPIError.

(** [delete(EmployeePaymentStatus).where(employee_id == eid)] *)
Definition delete_status (eid : string) : M unit :=
  modify (fun d =>
    set_employee_payment_status
      (filter (fun r => employee_id r <> eid) (employee_payment_status d))
      (employee_payment_status_seq d) d).

Definition set_position_name (role : string) (now : datetime)
    (r : EmployeePaymentStatus) : EmployeePaymentStatus :=
  mkEmployeePaymentStatus (eps_id r) (employee_id r) (Some role) (paid r)
    (last_payment r) (eps_created_at r) now.

Section Consumers.

(** The pydantic constructors of [EmployeeRegistered], [EmployeeDeleted]
    and [EmployeeRoleChanged], applied to the keys of the payload: each
    either builds the event or raises a validation error. *)
Variable validate_registered : gmap string json -> res EmployeeRegistered.
Variable validate_deleted : gmap string json -> res EmployeeDeleted.
Variable validate_role_changed : gmap string json -> res EmployeeRoleChanged.

Definition process_employee_registered (clk : Clock) (body : Body) : M unit :=
  try_except
    (do data <- json_loads body;
     do employee_data <- lift (validate_registered (normalize_id data));
     async_session
       (do existing <- select_status (er_id employee_data);
        match existing with
        | None =>
            do _ <- add_status clk (er_id employee_data) (er_role employee_data);
            commit
        | Some _ => ret tt
        end))
    (fun _ => ret tt).

Definition process_employee_deleted (body : Body) : M unit :=
  try_except
    (do data <- json_loads body;
     do employee_data <- lift (validate_deleted (normalize_id data));
     async_session
       (do _ <- delete_status (ed_id employee_data);
        commit))
    (fun _ => ret tt).

Definition process_employee_role_changed (clk : Clock) (body : Body) : M unit :=
  try_except
    (do data <- json_loads body;
     do employee_data <- lift (validate_role_changed (normalize_id data));
     async_session
       (do employee_status <- select_status (rc_id employee_data);
        match employee_status with
        | Some r =>
            (* position_name is a String(100): the UPDATE of a longer role
               is refused at the commit, which raises *)
            if varchar 100 (rc_role employee_data) then
              do _ <- update_status (eps_id r)
                        (set_position_name (rc_role employee_data) (utcnow clk));
              commit
            else raise DBAPIError
        | None => ret tt
        end))
    (fun _ => ret tt).

End Consumers.

(** ** Payment routes (app/routes/payments.py) *)

Record PaymentConfirmation := mkPaymentConfirmation { pc_employee_id : string }.

(** The salary lookup that [confirm_payment] and [initialize_demo_payments]
    both spell out: 0.0 unless the position name is set and names a
    position. *)
Definition resolve_salary (name : option string) : M Q :=
  if truthy name then
    do rows <- query (fun d => filter (fun p => Some (pos_name p) = name)
                                      (positions d));
    do position <- lift (scalar_one_or_none rows);
    match position with
    | Some p => ret (base_salary p)
    | None => ret 0%Q
    end
  else ret 0%Q.

Definition mark_paid (now : datetime) (r : EmployeePaymentStatus)
    : EmployeePaymentStatus :=
  mkEmployeePaymentStatus (eps_id r) (employee_id r) (position_name r) true
    (Some now) (eps_created_at r) now.

Definition mark_unpaid (now : datetime) (r : EmployeePaymentStatus)
    : EmployeePaymentStatus :=
  mkEmployeePaymentStatus (eps_id r) (employee_id r) (position_name r) false
    (last_payment r) (eps_created_at r) now.

Definition confirm_payment (clk : Clock) (employee_id_ : string)
    (payment_data : PaymentConfirmation) : M EmployeePaymentStatus :=
  if decide (pc_employee_id payment_data <> employee_id_) then
    raise (HTTPException 400 "Employee ID mismatch")
  else
    do found <- select_status employee_id_;
    match found with
    | None => raise (HTTPException 404 "Employee payment status not found")
    | Some payment_status =>
        do salary_amount <- resolve_salary (position_name payment_status);
        do _ <- update_status (eps_id payment_status) (mark_paid (utcnow clk));
        do _ <- commit;
        let payment_status := mark_paid (utcnow clk) payment_status in
        do _ <- publish_message "employee-paid-queue"
                  (EmployeePaid employee_id_ salary_amount
                     (position_name payment_status)
                     (month (dt_date (utcnow clk))) (year (dt_date (utcnow clk)))
                     (utcnow clk));
        do _ <- publish_message "analytics-employee-status-changed-queue"
                  (EmployeeStatusChanged employee_id_ true);
        do _ <- publish_message "user-employee-status-changed-queue"
                  (EmployeeStatusChanged employee_id_ true);
        ret payment_status
    end.

Definition dismiss_employee (clk : Clock) (employee_id_ : string) : M unit :=
  do found <- select_status employee_id_;
  match found with
  | None => raise (HTTPException 404 "Employee not found")
  | Some payment_status =>
      do _ <- update_status (eps_id payment_status) (mark_unpaid (utcnow clk));
      do _ <- commit;
      do _ <- publish_message "analytics-employee-status-changed-queue"
                (EmployeeStatusChanged employee_id_ false);
      do _ <- publish_message "user-employee-status-changed-queue"
                (EmployeeStatusChanged employee_id_ false);
      publish_message "employee-dismissed-queue"
        (EmployeeDismissed employee_id_ (utcnow clk)
           (position_name payment_status))
  end.

(** ** Payment cycle service (app/services/payment_cycle.py) *)

(** [random.sample(population, k)]: [k] picks without replacement; the
    generator's draws are the list [rng], the [i]-th draw taken modulo what
    is left of the population. *)
Fixpoint random_sample {A} (rng : list nat) (population : list A) (k : nat)
    : list A :=
  match k with
  | O => []
  | S k' =>
      let i := (hd O rng `mod` length population)%nat in
      match population !! i with
      | Some x => x :: random_sample (tl rng) (delete i population) k'
      | None => []
      end
  end.

(** [for x in xs: acc = body acc x] *)
Fixpoint fold_for {A S} (xs : list A) (acc : S) (body : S -> A -> M S) : M S :=
  match xs with
  | [] => ret acc
  | x :: xs' => do acc' <- body acc x; fold_for xs' acc' body
  end.

Definition update_config_row (pk : Z) (f : PaymentCycleConfig -> PaymentCycleConfig)
    : M unit :=
  modify (fun d =>
    set_payment_cycle_config
      (map (fun c => if decide (cfg_id c = pk) then f c else c)
           (payment_cycle_config d))
      (payment_cycle_config_seq d) d).

Definition set_reset_day (reset_day_ : Z) (now : datetime)
    (c : PaymentCycleConfig) : PaymentCycleConfig :=
  mkPaymentCycleConfig (cfg_id c) reset_day_ (last_reset_date c)
    (cfg_created_at c) now.

Definition set_last_reset_date (d : date) (now : datetime)
    (c : PaymentCycleConfig) : PaymentCycleConfig :=
  mkPaymentCycleConfig (cfg_id c) (reset_day c) (Some d) (cfg_created_at c) now.

(** The calendar of Python's [date]: leap years, month lengths, and the
    years 1 to 9999. *)
Definition is_leap (y : Z) : bool :=
  ((y mod 4 =? 0) && negb (y mod 100 =? 0)) || (y mod 400 =? 0).

Definition days_in_month (y m : Z) : Z :=
  if m =? 2 then (if is_leap y then 29 else 28)
  else if (m =? 4) || (m =? 6) || (m =? 9) || (m =? 11) then 30
  else 31.

Definition valid_date (d : date) : bool :=
  (1 <=? year d) && (year d <=? 9999)
  && (1 <=? month d) && (month d <=? 12)
  && (1 <=? day d) && (day d <=? days_in_month (year d) (month d)).

(** The constructor [date(year, month, day)]: the date, or [None] where
    Python raises ValueError. *)
Definition new_date (y m d : Z) : option date :=
  if valid_date (Date y m d) then Some (Date y m d) else None.

Module PaymentCycleService.

Definition get_or_create_config (clk : Clock) : M PaymentCycleConfig :=
  do rows <- query payment_cycle_config;
  do found <- lift (scalar_one_or_none rows);
  match found with
  | Some config => ret config
  | None =>
      do pk <- query payment_cycle_config_seq;
      let config := mkPaymentCycleConfig pk 10 None (utcnow clk) (utcnow clk) in
      do _ <- modify (fun d =>
                set_payment_cycle_config (payment_cycle_config d ++ [config])
                  (payment_cycle_config_seq d + 1) d);
      do _ <- commit;
      ret config
  end.

Definition update_config (clk : Clock) (reset_day_ : Z) : M PaymentCycleConfig :=
  do config <- get_or_create_config clk;
  do _ <- update_config_row (cfg_id config) (set_reset_day reset_day_ (utcnow clk));
  do _ <- commit;
  ret (set_reset_day reset_day_ (utcnow clk) config).

Definition should_reset_payments (clk : Clock) : M bool :=
  do config <- get_or_create_config clk;
  let today_ := today clk in
  match last_reset_date config with
  | None =>
      if reset_day config <=? day today_ then ret true else ret false
  | Some last =>
      if negb (year last =? year today_) || negb (month last =? month today_)
      then (if reset_day config <=? day today_ then ret true else ret false)
      else ret false
  end.

Definition reset_all_payment_status (clk : Clock) : M Z :=
  do employees_to_reset <-
     query (fun d => filter (fun r => paid r = true) (employee_payment_status d));
  let count := Z.of_nat (length employees_to_reset) in
  do _ <- modify (fun d =>
            set_employee_payment_status
              (map (fun r => if decide (paid r = true)
                             then mark_unpaid (utcnow clk) r else r)
                   (employee_payment_status d))
              (employee_payment_status_seq d) d);
  do config <- get_or_create_config clk;
  do _ <- update_config_row (cfg_id config)
            (set_last_reset_date (today clk) (utcnow clk));
  do _ <- commit;
  ret count.

Definition check_and_auto_reset (clk : Clock) : M (option Z) :=
  do due <- should_reset_payments clk;
  if due then
    do count <- reset_all_payment_status clk;
    ret (Some count)
  else ret None.

(** [get_next_reset_date]; the answer is [None] where the [date]
    constructor raises ValueError. *)
Definition get_next_reset_date (clk : Clock) : M (option date) :=
  do config <- get_or_create_config clk;
  let today_ := today clk in
  if day today_ <? reset_day config then
    ret (new_date (year today_) (month today_) (reset_day config))
  else if month today_ =? 12 then
    ret (new_date (year today_ + 1) 1 (reset_day config))
  else
    ret (new_date (year today_) (month today_ + 1) (reset_day config)).

(** The body of the loop of [initialize_demo_payments]: pay one of the
    selected employees. *)
Definition demo_payment (clk : Clock) (paid_count : Z)
    (employee : EmployeePaymentStatus) : M Z :=
  do salary_amount <- resolve_salary (position_name employee);
  do _ <- update_status (eps_id employee) (mark_paid (utcnow clk));
  do _ <- publish_message "employee-paid-queue"
            (EmployeePaid (employee_id employee) salary_amount
               (position_name employee)
               (month (dt_date (utcnow clk))) (year (dt_date (utcnow clk)))
               (utcnow clk));
  ret (paid_count + 1).

Definition initialize_demo_payments (clk : Clock) (rng : list nat) : M Z :=
  do unpaid_employees <-
     query (fun d => filter (fun r => paid r = false) (employee_payment_status d));
  match unpaid_employees with
  | [] => ret 0
  | _ =>
      let total_employees := Z.of_nat (length unpaid_employees) in
      let employees_to_pay := Z.max 1 (total_employees / 2) in
      let selected_employees :=
        random_sample rng unpaid_employees (Z.to_nat employees_to_pay) in
      do paid_count <- fold_for selected_employees 0 (demo_payment clk);
      do _ <- commit;
      ret paid_count
  end.

End PaymentCycleService.

(** ** Expense service (app/services/expense_service.py) *)

Record ExpenseCreate := mkExpenseCreate {
  ec_description : string;
  ec_amount : Q;
  ec_expense_date : date;
  ec_expense_type : string;
  ec_reference_id : option Z }.

(** The field constraints of [ExpenseBase] (app/schemas.py):
    [description] at most 255 characters, [amount] above zero,
    [expense_type] at most 50 characters. *)
Definition valid_ExpenseCreate (e : ExpenseCreate) : bool :=
  (str_len (ec_description e) <=? 255)
  && negb (Qle_bool (ec_amount e) 0)
  && (str_len (ec_expense_type e) <=? 50).

(** The validating constructor [ExpenseCreate(...)]. *)
Definition new_ExpenseCreate (description_ : string) (amount_ : Q)
    (expense_date_ : date) (expense_type_ : string) (reference_id_ : option Z)
    : M ExpenseCreate :=
  let e := mkExpenseCreate description_ amount_ expense_date_ expense_type_
             reference_id_ in
  if valid_ExpenseCreate e then ret e else raise ValidationError.

(** What the database does with [ORDER BY expense_date DESC]: the rows come
    back rearranged so that dates never increase. *)
Definition date_desc (a b : Expense) : Prop :=
  date_leb (expense_date b) (expense_date a) = true.

Definition order_by_contract (order_by : list Expense -> list Expense) : Prop :=
  forall rows, order_by rows ≡ₚ rows /\ StronglySorted date_desc (order_by rows).

(** A row count that the database takes for LIMIT or OFFSET: it rejects a
    negative one, and the driver one beyond [max_count], the largest value
    of the integer type that the statement gives the parameter. *)
Definition count_ok (max_count n : Z) : bool := (0 <=? n) && (n <=? max_count).

(** [LIMIT l OFFSET o] on an ordered result: skip [o] rows, keep [l]. *)
Definition limit_offset {A} (max_count : Z) (limit offset : option Z)
    (rows : list A) : res (list A) :=
  match offset, limit with
  | Some o, _ => if negb (count_ok max_count o) then Raise DBAPIError else
      match limit with
      | Some l => if negb (count_ok max_count l) then Raise DBAPIError
                  else Ok (take (Z.to_nat l) (drop (Z.to_nat o) rows))
      | None => Ok (drop (Z.to_nat o) rows)
      end
  | None, Some l => if negb (count_ok max_count l) then Raise DBAPIError
                    else Ok (take (Z.to_nat l) rows)
  | None, None => Ok rows
  end.

(** Python truth value of an [Optional[int]]: [None] and [0] are false. *)
Definition truthy_int (n : option Z) : bool :=
  match n with
  | Some n => negb (n =? 0)
  | None => false
  end.

(** The description that [create_manual_expense_entry] gives the ledger
    entry of a manual expense. *)
Definition manual_entry_description (manual_expense : ManualExpense) : string :=
  (("Gasto Manual - " ++ me_category manual_expense)
   ++ (if truthy (me_description manual_expense)
       then ": " ++ default "" (me_description manual_expense)
       else ""))%string.

Arguments manual_entry_description : simpl never.

(** The rows of [seed_demo_expenses]: description, amount, date, type and
    reference. *)
Definition demo_expenses : list ExpenseCreate :=
  [mkExpenseCreate "Compra de Halteres - Set Completo" 2500%Q (Date 2025 8 1)
     "equipment" None;
   mkExpenseCreate "Manutenção Esteira Ergométrica" 350%Q (Date 2025 8 2)
     "maintenance" None;
   mkExpenseCreate "Conta de Energia Elétrica" (2401 # 2)%Q (Date 2025 8 3)
     "utilities" None;
   mkExpenseCreate "Produtos de Limpeza e Higiene" 180%Q (Date 2025 8 3)
     "cleaning" None;
   mkExpenseCreate "Pagamento Funcionário - Personal Trainer João" 3500%Q
     (Date 2025 8 1) "employee_payment" (Some 1001);
   mkExpenseCreate "Pagamento Funcionário - Recepcionista Maria" 2200%Q
     (Date 2025 8 1) "employee_payment" (Some 1002);
   mkExpenseCreate "Pagamento Funcionário - Instrutor Carlos" 2800%Q
     (Date 2025 8 1) "employee_payment" (Some 1003);
   mkExpenseCreate "Estoque Suplementos - Whey Protein" 1500%Q (Date 2025 8 4)
     "inventory" None;
   mkExpenseCreate "Marketing Digital - Redes Sociais" 800%Q (Date 2025 8 5)
     "marketing" None;
   mkExpenseCreate "Toalhas e Uniformes - Reposição" 450%Q (Date 2025 8 5)
     "supplies" None;
   mkExpenseCreate "Sistema de Som - Upgrade" 1200%Q (Date 2025 8 6)
     "equipment" None;
   mkExpenseCreate "Água Mineral - Estoque Mensal" 320%Q (Date 2025 8 6)
     "supplies" None].

Module ExpenseService.

Definition create_expense (clk : Clock) (expense_data : ExpenseCreate) : M Expense :=
  do pk <- query expenses_seq;
  let expense :=
    mkExpense pk (ec_description expense_data) (ec_amount expense_data)
      (ec_expense_date expense_data) (ec_expense_type expense_data)
      (ec_reference_id expense_data) (utcnow clk) in
  do _ <- modify (fun d => set_expenses (expenses d ++ [expense])
                                        (expenses_seq d + 1) d);
  do _ <- commit;
  ret expense.

Definition create_manual_expense_entry (clk : Clock)
    (manual_expense : ManualExpense) : M Expense :=
  do expense_data <-
     new_ExpenseCreate (manual_entry_description manual_expense)
       (me_value manual_expense) (me_date manual_expense) "manual"
       (Some (me_id manual_expense));
  create_expense clk expense_data.

Definition create_employee_payment_entry (clk : Clock) (employee_id_ : string)
    (amount_ : Q) (position_name_ : option string) (payment_date : option date)
    : M Expense :=
  let payment_date := default (today clk) payment_date in
  do payment_status <- select_status employee_id_;
  let description_ :=
    (("Pagamento Funcionário - " ++ employee_id_)
     ++ (if truthy position_name_
         then " (" ++ default "" position_name_ ++ ")"
         else ""))%string in
  do expense_data <-
     new_ExpenseCreate description_ amount_ payment_date "employee_payment"
       (eps_id <$> payment_status);
  create_expense clk expense_data.

(** [select(Expense).where(expense_type == t, reference_id == r)], then
    delete the single match if there is one. *)
Definition delete_expense_by_reference (expense_type_ : string)
    (reference_id_ : Z) : M bool :=
  do rows <- query (fun d =>
               filter (fun e => expense_type e = expense_type_
                                /\ reference_id e = Some reference_id_)
                      (expenses d));
  do found <- lift (scalar_one_or_none rows);
  match found with
  | Some expense =>
      do _ <- modify (fun d =>
                set_expenses
                  (filter (fun e => exp_id e <> exp_id expense) (expenses d))
                  (expenses_seq d) d);
      do _ <- commit;
      ret true
  | None => ret false
  end.

(** [seed_demo_expenses]: the twelve rows are built as ORM objects, so no
    schema validates them. *)
Definition seed_demo_expenses (clk : Clock) : M Z :=
  do existing_expenses <- query expenses;
  if (10 <=? length existing_expenses)%nat then ret 0
  else
    do created_count <-
       fold_for demo_expenses 0 (fun created_count expense_data =>
         do _ <- modify (fun d =>
                   set_expenses
                     (expenses d
                      ++ [mkExpense (expenses_seq d) (ec_description expense_data)
                            (ec_amount expense_data) (ec_expense_date expense_data)
                            (ec_expense_type expense_data)
                            (ec_reference_id expense_data) (utcnow clk)])
                     (expenses_seq d + 1) d);
         ret (created_count + 1));
    do _ <- commit;
    ret created_count.

Section Listing.

Variable order_by_expense_date_desc : list Expense -> list Expense.

(** The largest LIMIT or OFFSET that the driver passes on: that of a 32-bit
    or of a 64-bit integer, by the type the statement gives the
    parameter. *)
Variable max_count : Z.

Definition get_all_expenses (limit offset : option Z) : M (list Expense) :=
  let limit_clause := if truthy_int limit then limit else None in
  let offset_clause := if truthy_int offset then offset else None in
  do rows <- query expenses;
  lift (limit_offset max_count limit_clause offset_clause
          (order_by_expense_date_desc rows)).

End Listing.

End ExpenseService.

(** ** Expense routes (app/routes/expenses.py) *)

Record ManualExpenseCreate := mkManualExpenseCreate {
  mc_date : date;
  mc_category : string;
  mc_description : option string;
  mc_value : Q;
  mc_responsible : string }.

(** The field constraints of [ManualExpenseBase] (app/schemas.py), which
    the framework checks on the request body before the route runs. *)
Definition valid_ManualExpenseCreate (e : ManualExpenseCreate) : bool :=
  (str_len (mc_category e) <=? 100)
  && negb (Qle_bool (mc_value e) 0)
  && (str_len (mc_responsible e) <=? 100).

Definition create_manual_expense (clk : Clock) (expense_data : ManualExpenseCreate)
    : M ManualExpense :=
  if negb (valid_ManualExpenseCreate expense_data) then
    raise (HTTPException 422 "Unprocessable Entity")
  else
    do pk <- query manual_expenses_seq;
    let new_expense :=
      mkManualExpense pk (mc_date expense_data) (mc_category expense_data)
        (mc_description expense_data) (mc_value expense_data)
        (mc_responsible expense_data) (utcnow clk) in
    do _ <- modify (fun d =>
              set_manual_expenses (manual_expenses d ++ [new_expense])
                (manual_expenses_seq d + 1) d);
    do _ <- commit;
    do _ <- ExpenseService.create_manual_expense_entry clk new_expense;
    do _ <- publish_message "finance.expense.registered"
              (ExpenseRegistered (me_value new_expense) (me_category new_expense)
                 (me_description new_expense) (me_date new_expense)
                 (me_responsible new_expense));
    ret new_expense.

Definition delete_manual_expense (clk : Clock) (expense_id : Z) : M unit :=
  do selected <- query (fun d => where_key me_id expense_id (manual_expenses d));
  do rows <- lift selected;
  do found <- lift (scalar_one_or_none rows);
  match found with
  | None => raise (HTTPException 404 "Manual expense not found")
  | Some expense =>
      do _ <- ExpenseService.delete_expense_by_reference "manual" expense_id;
      do _ <- modify (fun d =>
                set_manual_expenses
                  (filter (fun e => me_id e <> me_id expense) (manual_expenses d))
                  (manual_expenses_seq d) d);
      do _ <- commit;
      publish_message "finance.expense.deleted"
        (ExpenseDeleted expense_id (utcnow clk))
  end.

Section ListingRoute.

Variable order_by_expense_date_desc : list Expense -> list Expense.
Variable max_count : Z.

(** [GET /expenses/]: the framework supplies [limit = 50] and
    [offset = 0] when the caller gives none. *)
Definition get_all_expenses (limit offset : Z) : M (list Expense) :=
  ExpenseService.get_all_expenses order_by_expense_date_desc max_count
    (Some limit) (Some offset).

End ListingRoute.

(** ** The configuration route (app/routes/payments.py) *)

Record PaymentCycleConfigUpdate := mkPaymentCycleConfigUpdate { pu_reset_day : Z }.

(** The field constraint of [PaymentCycleConfigBase] (app/schemas.py), which
    the framework checks on the request body before the route runs. *)
Definition valid_PaymentCycleConfigUpdate (c : PaymentCycleConfigUpdate) : bool :=
  (1 <=? pu_reset_day c) && (pu_reset_day c <=? 31).

Definition update_payment_cycle_config (clk : Clock)
    (config_data : PaymentCycleConfigUpdate) : M PaymentCycleConfig :=
  if negb (valid_PaymentCycleConfigUpdate config_data) then
    raise (HTTPException 422 "Unprocessable Entity")
  else if (pu_reset_day config_data <? 1) || (31 <? pu_reset_day config_data) then
    raise (HTTPException 400 "Reset day must be between 1 and 31")
  else PaymentCycleService.update_config clk (pu_reset_day config_data).

(** ** Position routes (app/routes/positions.py) *)

Record PositionCreate := mkPositionCreate {
  pn_name : string;
  pn_description : option string;
  pn_base_salary : Q }.

(** The field constraints of [PositionBase] (app/schemas.py): [name] at
    most 100 characters, [base_salary] not below zero. *)
Definition valid_PositionCreate (p : PositionCreate) : bool :=
  (str_len (pn_name p) <=? 100) && Qle_bool 0 (pn_base_salary p).

(** The positions table keeps no serial counter in [DB]: the key that the
    database hands to a new row is the argument [pk]. *)
Definition set_positions (rows : list Position) (d : DB) : DB :=
  mkDB rows (manual_expenses d) (employee_payment_status d)
       (payment_cycle_config d) (expenses d) (manual_expenses_seq d)
       (employee_payment_status_seq d) (payment_cycle_config_seq d)
       (expenses_seq d).

Definition create_position (pk : Z) (position_data : PositionCreate) : M Position :=
  if negb (valid_PositionCreate position_data) then
    raise (HTTPException 422 "Unprocessable Entity")
  else
    do rows <- query (fun d => filter (fun p => pos_name p = pn_name position_data)
                                      (positions d));
    do existing_position <- lift (scalar_one_or_none rows);
    match existing_position with
    | Some _ => raise (HTTPException 400 "Position with this name already exists")
    | None =>
        let new_position :=
          mkPosition pk (pn_name position_data) (pn_description position_data)
            (pn_base_salary position_data) in
        do _ <- modify (fun d => set_positions (positions d ++ [new_position]) d);
        do _ <- commit;
        ret new_position
    end.

Definition update_position (position_id : Z) (position_data : PositionCreate)
    : M Position :=
  if negb (valid_PositionCreate position_data) then
    raise (HTTPException 422 "Unprocessable Entity")
  else
    do selected <- query (fun d => where_key pos_id position_id (positions d));
    do rows <- lift selected;
    do found <- lift (scalar_one_or_none rows);
    match found with
    | None => raise (HTTPException 404 "Position not found")
    | Some position =>
        do _ <- (if decide (pn_name position_data <> pos_name position) then
                   do rows <- query (fun d =>
                                filter (fun p => pos_name p = pn_name position_data)
                                       (positions d));
                   do existing_position <- lift (scalar_one_or_none rows);
                   match existing_position with
                   | Some _ =>
                       raise (HTTPException 400
                                "Position with this name already exists")
                   | None => ret tt
                   end
                 else ret tt);
        let updated :=
          mkPosition (pos_id position) (pn_name position_data)
            (pn_description position_data) (pn_base_salary position_data) in
        (* the UPDATE writes a new version of the row, which an unordered
           read then returns after the rows that were left alone *)
        do _ <- modify (fun d =>
                  set_positions
                    (filter (fun p => pos_id p <> pos_id position) (positions d)
                     ++ [updated]) d);
        do _ <- commit;
        ret updated
    end.

Definition delete_position (position_id : Z) : M unit :=
  do selected <- query (fun d => where_key pos_id position_id (positions d));
  do rows <- lift selected;
  do found <- lift (scalar_one_or_none rows);
  match found with
  | None => raise (HTTPException 404 "Position not found")
  | Some position =>
      do _ <- modify (fun d =>
                set_positions
                  (filter (fun p => pos_id p <> pos_id position) (positions d)) d);
      commit
  end.

(** ** Seeding the positions (app/database.py) *)

Definition initial_positions : list PositionCreate :=
  [mkPositionCreate "MANAGER" (Some "Gerente/Proprietário da academia") 0%Q;
   mkPositionCreate "PERSONAL_TRAINER" (Some "Personal Trainer especializado") 3500%Q;
   mkPositionCreate "RECEPTIONIST" (Some "Recepcionista da academia") 1800%Q;
   mkPositionCreate "CLEANER" (Some "Funcionário de limpeza") 1400%Q].

(** [await session.rollback()] *)
Definition rollback : M unit := fun s => (Ok tt, close s).

(** [seed_initial_positions]; [keys name] is the key that the database
    hands to the position of that name if it is inserted. *)
Definition seed_initial_positions (keys : string -> Z) : M unit :=
  async_session
    (try_except
       (do _ <- fold_for initial_positions tt (fun _ position_data =>
                  do rows <- query (fun d =>
                               filter (fun p => pos_name p = pn_name position_data)
                                      (positions d));
                  do existing_position <- lift (scalar_one_or_none rows);
                  match existing_position with
                  | None =>
                      modify (fun d =>
                        set_positions
                          (positions d
                           ++ [mkPosition (keys (pn_name position_data))
                                 (pn_name position_data)
                                 (pn_description position_data)
                                 (pn_base_salary position_data)]) d)
                  | Some _ => ret tt
                  end);
        commit)
       (fun _ => rollback)).

(** ** Startup (app/main.py) *)

(** The payment steps of [lifespan]: the dated reset, the demo payments
    and the demo expenses, in one session, with every exception caught. *)
Definition lifespan_startup (clk : Clock) (rng : list nat) : M unit :=
  try_except
    (async_session
       (do reset_count <- PaymentCycleService.check_and_auto_reset clk;
        do demo_payments <- PaymentCycleService.initialize_demo_payments clk rng;
        do demo_expenses_ <- ExpenseService.seed_demo_expenses clk;
        ret tt))
    (fun _ => ret tt).

(** ** Definitions used to state the properties *)

(** *** Sessions and operations *)

(** [m] keeps the database invariant [I]: if the committed database and
    the session's view both satisfy it before [m], they do after. *)
Definition keeps {A} (I : DB -> Prop) (m : M A) : Prop :=
  forall s,
    I (committed s) -> I (pending s) ->
    I (committed (snd (m s))) /\ I (pending (snd (m s))).

(** The entry points of the service that write to the database: the three
    consumers, payment confirmation and dismissal, the reset that the
    manual-reset route runs, the dated reset and the demo initialization
    that run at startup (app/main.py), the configuration update and the
    manual-expense routes. *)
Inductive Operation :=
| OnEmployeeRegistered (clk : Clock) (body : Body)
| OnEmployeeDeleted (body : Body)
| OnEmployeeRoleChanged (clk : Clock) (body : Body)
| ConfirmPayment (clk : Clock) (employee_id_ : string)
                 (payment_data : PaymentConfirmation)
| DismissEmployee (clk : Clock) (employee_id_ : string)
| ManualReset (clk : Clock)
| CheckAutoReset (clk : Clock)
| InitializeDemoPayments (clk : Clock) (rng : list nat)
| UpdateConfig (clk : Clock) (reset_day_ : Z)
| CreateManualExpense (clk : Clock) (expense_data : ManualExpenseCreate)
| DeleteManualExpense (clk : Clock) (expense_id : Z).

Section Perform.

Variable validate_registered : gmap string json -> res EmployeeRegistered.
Variable validate_deleted : gmap string json -> res EmployeeDeleted.
Variable validate_role_changed : gmap string json -> res EmployeeRoleChanged.

(** The world after one operation. *)
Definition perform (op : Operation) (w : World) : World :=
  match op with
  | OnEmployeeRegistered clk body =>
      snd (run (process_employee_registered validate_registered clk body) w)
  | OnEmployeeDeleted body =>
      snd (run (process_employee_deleted validate_deleted body) w)
  | OnEmployeeRoleChanged clk body =>
      snd (run (process_employee_role_changed validate_role_changed clk body) w)
  | ConfirmPayment clk employee_id_ payment_data =>
      snd (run (confirm_payment clk employee_id_ payment_data) w)
  | DismissEmployee clk employee_id_ =>
      snd (run (dismiss_employee clk employee_id_) w)
  | ManualReset clk =>
      snd (run (PaymentCycleService.reset_all_payment_status clk) w)
  | CheckAutoReset clk =>
      snd (run (PaymentCycleService.check_and_auto_reset clk) w)
  | InitializeDemoPayments clk rng =>
      snd (run (PaymentCycleService.initialize_demo_payments clk rng) w)
  | UpdateConfig clk reset_day_ =>
      snd (run (PaymentCycleService.update_config clk reset_day_) w)
  | CreateManualExpense clk expense_data =>
      snd (run (create_manual_expense clk expense_data) w)
  | DeleteManualExpense clk expense_id =>
      snd (run (delete_manual_expense clk expense_id) w)
  end.

End Perform.

(** *** The payment cycle *)

(** At most one configuration row: [get_or_create_config] inserts only
    into an empty table. *)
Definition config_singleton (d : DB) : Prop :=
  (length (payment_cycle_config d) <= 1)%nat.

(** The configuration that [get_or_create_config] answers with: the stored
    row, or the default one it is about to insert. *)
Definition current_config (clk : Clock) (d : DB) : PaymentCycleConfig :=
  match payment_cycle_config d with
  | config :: _ => config
  | [] => mkPaymentCycleConfig (payment_cycle_config_seq d) 10 None
            (utcnow clk) (utcnow clk)
  end.

(** The reset condition in the words of the specification: the reset day has
    come, and no reset happened yet in the current (year, month). *)
Definition should_reset_spec (config : PaymentCycleConfig) (today_ : date) : bool :=
  (reset_day config <=? day today_)
  && match last_reset_date config with
     | None => true
     | Some last =>
         negb ((year last =? year today_) && (month last =? month today_))
     end.

(** The session once [get_or_create_config] has run: the default row is
    inserted and committed when the table was empty. *)
Definition ensure_config (clk : Clock) (s : Session) : Session :=
  match payment_cycle_config (pending s) with
  | [] =>
      let d := set_payment_cycle_config
                 [mkPaymentCycleConfig (payment_cycle_config_seq (pending s)) 10
                    None (utcnow clk) (utcnow clk)]
                 (payment_cycle_config_seq (pending s) + 1) (pending s) in
      mkSession d d (outbox s)
  | _ => s
  end.

(** What a reset leaves of a database whose configuration row is [config]. *)
Definition reset_db (clk : Clock) (config : PaymentCycleConfig) (d : DB) : DB :=
  set_payment_cycle_config
    [set_last_reset_date (today clk) (utcnow clk) config]
    (payment_cycle_config_seq d)
    (set_employee_payment_status
       (map (fun r => if decide (paid r = true)
                      then mark_unpaid (utcnow clk) r else r)
            (employee_payment_status d))
       (employee_payment_status_seq d) d).

(** *** PaymentStatus rows *)

(** The invariant of a PaymentStatus row, and of the whole table. *)
Definition status_ok (r : EmployeePaymentStatus) : Prop :=
  paid r = true -> last_payment r <> None.

Definition payment_invariant (d : DB) : Prop :=
  Forall status_ok (employee_payment_status d).

(** The keys of the PaymentStatus rows are distinct and were handed out by
    the serial counter. *)
Definition status_keys_issued (d : DB) : Prop :=
  NoDup (map eps_id (employee_payment_status d))
  /\ Forall (fun r => eps_id r < employee_payment_status_seq d)
            (employee_payment_status d).

(** The salary that a position lookup resolves to when position names are
    unique: the base salary of the named position, 0 when the name is
    unset, empty or names no position. *)
Definition salary_of (positions_ : list Position) (name : option string) : Q :=
  if truthy name then
    match filter (fun p => Some (pos_name p) = name) positions_ with
    | [p] => base_salary p
    | _ => 0%Q
    end
  else 0%Q.

(** The message that the demo initialization publishes for an employee. *)
Definition demo_paid_message (clk : Clock) (positions_ : list Position)
    (employee : EmployeePaymentStatus) : Publication :=
  ("employee-paid-queue",
   EmployeePaid (employee_id employee)
     (salary_of positions_ (position_name employee)) (position_name employee)
     (month (dt_date (utcnow clk))) (year (dt_date (utcnow clk))) (utcnow clk)).

(** The rows once the selected employees are paid. *)
Definition pay_selected (now : datetime) (selected rows : list EmployeePaymentStatus)
    : list EmployeePaymentStatus :=
  map (fun r => if decide (eps_id r ∈ map eps_id selected)
                then mark_paid now r else r) rows.

(** Half of [n] rounded up and at least one, the head count that the
    specification gives the demo initialization. *)
Definition half_rounded_up (n : Z) : Z := Z.max 1 ((n + 1) / 2).

(** *** Manual expenses and the ledger *)

(** The rows that [create_manual_expense] builds on a database [d]: the
    manual expense, and the ledger entry that refers to it. *)
Definition manual_row (clk : Clock) (expense_data : ManualExpenseCreate) (d : DB)
    : ManualExpense :=
  mkManualExpense (manual_expenses_seq d) (mc_date expense_data)
    (mc_category expense_data) (mc_description expense_data)
    (mc_value expense_data) (mc_responsible expense_data) (utcnow clk).

Definition ledger_row (clk : Clock) (manual_expense : ManualExpense) (d : DB)
    : Expense :=
  mkExpense (expenses_seq d) (manual_entry_description manual_expense)
    (me_value manual_expense) (me_date manual_expense) "manual"
    (Some (me_id manual_expense)) (utcnow clk).

(** The ledger entries that refer to the manual expense [expense_id]. *)
Definition manual_entries (expense_id : Z) (d : DB) : list Expense :=
  filter (fun e => expense_type e = "manual" /\ reference_id e = Some expense_id)
         (expenses d).

(** No manual ledger entry refers to a key that the manual-expense table
    has yet to hand out. *)
Definition manual_refs_issued (d : DB) : Prop :=
  forall e r,
    e ∈ expenses d -> expense_type e = "manual" -> reference_id e = Some r ->
    r < manual_expenses_seq d.

#[global] Instance date_desc_dec (a b : Expense) : Decision (date_desc a b).
Proof. unfold date_desc. apply _. Defined.




(** The ledger table holds its rows in the order of their insertion: the
    keys ascend, and the serial counter is past them all. *)
Definition ledger_in_insertion_order (d : DB) : Prop :=
  StronglySorted (fun a b => exp_id a < exp_id b) (expenses d)
  /\ Forall (fun e => exp_id e < expenses_seq d) (expenses d).

(** The keys of the manual expenses were handed out by their serial
    counter. *)
Definition manual_keys_issued (d : DB) : Prop :=
  Forall (fun e => me_id e < manual_expenses_seq d) (manual_expenses d).

(** What the serial counters guarantee of the two tables of expenses. *)
Definition ledger_keys_issued (d : DB) : Prop :=
  manual_refs_issued d /\ manual_keys_issued d /\ ledger_in_insertion_order d.

(** The bijection between live manual expenses and their ledger rows: for
    every key there are as many manual ledger entries referring to it as
    manual expenses holding it, and at most one. *)
Definition ledger_bijection (d : DB) : Prop :=
  forall expense_id,
    length (manual_entries expense_id d)
    = length (filter (fun e => me_id e = expense_id) (manual_expenses d))
    /\ (length (manual_entries expense_id d) <= 1)%nat.

(** ** Instances used in the examples *)

Definition has_str (data : gmap string json) (key : string) : bool :=
  match data !! key with Some (JStr _) => true | _ => false end.

Definition has_list (data : gmap string json) (key : string) : bool :=
  match data !! key with Some JArr => true | _ => false end.

Definition has_bool (data : gmap string json) (key : string) : bool :=
  match data !! key with Some (JBool _) => true | _ => false end.

(** A validator for [EmployeeRegistered] (app/schemas.py): each required
    field must be there with the JSON type that the schema names. *)
Definition example_validate_registered (data : gmap string json)
    : res EmployeeRegistered :=
  match data !! "id", data !! "role" with
  | Some (JStr i), Some (JStr r) =>
      if has_str data "name" && has_str data "cpf" && has_str data "email"
         && has_str data "phone" && has_list data "birthDate"
         && has_list data "hireDate" && has_list data "registrationDate"
         && has_bool data "active"
      then Ok (mkEmployeeRegistered i r)
      else Raise ValidationError
  | _, _ => Raise ValidationError
  end.

(** A validator for [EmployeeRoleChanged] and one for [EmployeeDeleted]:
    a string under [id], and for the former one under [role]. *)

Definition example_validate_role_changed (data : gmap string json)
    : res EmployeeRoleChanged :=
  match data !! "id", data !! "role" with
  | Some (JStr i), Some (JStr r) => Ok (mkEmployeeRoleChanged i r)
  | _, _ => Raise ValidationError
  end.

Definition example_validate_deleted (data : gmap string json)
    : res EmployeeDeleted :=
  match data !! "id" with
  | Some (JStr i) => Ok (mkEmployeeDeleted i)
  | _ => Raise ValidationError
  end.

Definition example_date : date := Date 2025 3 10.

Definition example_clock : Clock :=
  mkClock (DateTime example_date 43200000000) example_date.

(** Two positions, an unpaid trainer and a receptionist paid last month. *)
Definition example_db : DB :=
  mkDB [mkPosition 1 "PERSONAL_TRAINER" None 3500%Q;
        mkPosition 2 "RECEPTIONIST" None 1800%Q]
       []
       [mkEmployeePaymentStatus 1 "E1" (Some "PERSONAL_TRAINER") false None
          (DateTime (Date 2025 3 1) 0) (DateTime (Date 2025 3 1) 0);
        mkEmployeePaymentStatus 2 "E3" (Some "RECEPTIONIST") true
          (Some (DateTime (Date 2025 2 20) 0))
          (DateTime (Date 2025 2 1) 0) (DateTime (Date 2025 2 20) 0)]
       [] [] 1 3 1 1.

Definition example_world : World := mkWorld example_db [].

(** The payload of a role change for an employee nobody registered, its
    identity under the legacy key. *)
Definition example_role_changed_payload : gmap string json :=
  <["employeeId" := JStr "E9"]> (<["role" := JStr "RECEPTIONIST"]> ∅).

(** The payload of a registration as a cleaner, its identity under the
    legacy key. *)
Definition registered_payload (eid : string) : gmap string json :=
  <["employeeId" := JStr eid]>
    (<["name" := JStr "Ana Souza"]>
       (<["cpf" := JStr "52998224725"]>
          (<["email" := JStr "ana@example.org"]>
             (<["phone" := JStr "11999990000"]>
                (<["birthDate" := JArr]>
                   (<["hireDate" := JArr]>
                      (<["role" := JStr "CLEANER"]>
                         (<["registrationDate" := JArr]>
                            (<["active" := JBool true]> ∅))))))))).

Definition example_registered_payload : gmap string json :=
  registered_payload "E2".


(** Three unpaid employees, one of them without a position. *)
Definition example_unpaid_world : World :=
  mkWorld
    (mkDB [mkPosition 1 "PERSONAL_TRAINER" None 3500%Q;
           mkPosition 2 "RECEPTIONIST" None 1800%Q]
          []
          [mkEmployeePaymentStatus 1 "E1" (Some "PERSONAL_TRAINER") false None
             (DateTime (Date 2025 3 1) 0) (DateTime (Date 2025 3 1) 0);
           mkEmployeePaymentStatus 2 "E2" (Some "RECEPTIONIST") false None
             (DateTime (Date 2025 3 1) 0) (DateTime (Date 2025 3 1) 0);
           mkEmployeePaymentStatus 3 "E3" None false None
             (DateTime (Date 2025 3 1) 0) (DateTime (Date 2025 3 1) 0)]
          [] [] 1 4 1 1)
    [].

Definition example_expense : ManualExpenseCreate :=
  mkManualExpenseCreate example_date "water" (Some "march") 120%Q "ana".

(** A manual expense whose description runs to 300 characters; the schema
    of the request puts no bound on it. *)
Definition example_long_expense : ManualExpenseCreate :=
  mkManualExpenseCreate example_date "rent" (Some (String.concat "" (replicate 300 "x")))
    900%Q "ana".

(** Two manual expenses entered one after the other for the same day. *)
Definition example_ledger_world : World :=
  snd (run (create_manual_expense example_clock
              (mkManualExpenseCreate example_date "rent" None 900%Q "ana"))
         (snd (run (create_manual_expense example_clock example_expense)
                 (mkWorld empty_db [])))).

(** An [ORDER BY expense_date DESC]: a merge sort by date. *)
Definition example_order_by (rows : list Expense) : list Expense :=
  merge_sort date_desc rows.

(** *** Messages that a consumer drops *)

(** The body does not decode, or its payload does not validate. *)
Definition rejected {E} (validate : gmap string json -> res E) (body : Body) : Prop :=
  match body with
  | Malformed => True
  | Object payload => exists e, validate (normalize_id payload) = Raise e
  end.

(** *** Demo expenses *)

(** The ledger rows that [seed_demo_expenses] builds from a list of demo
    rows, the first of them under the key [pk]. *)
Fixpoint seeded_rows (clk : Clock) (pk : Z) (l : list ExpenseCreate) : list Expense :=
  match l with
  | [] => []
  | e :: l' =>
      mkExpense pk (ec_description e) (ec_amount e) (ec_expense_date e)
        (ec_expense_type e) (ec_reference_id e) (utcnow clk)
      :: seeded_rows clk (pk + 1) l'
  end.

(** * Properties *)

Lemma world_eta (w : World) : mkWorld (data w) (sent w) = w.
Proof. by destruct w. Qed.

Lemma db_eta_status (d : DB) :
  set_employee_payment_status (employee_payment_status d)
    (employee_payment_status_seq d) d = d.
Proof. by destruct d. Qed.

(** Unfold the monad and the session operations. *)
Ltac unfold_M :=
  unfold run, async_session, try_except, bind, ret, raise, lift, query, modify,
    commit, close, publish_message in *; simpl in *.

(** ** Steps of the monad *)

Lemma bind_ok {A B} (m : M A) (k : A -> M B) (s s' : Session) (a : A) :
  m s = (Ok a, s') -> bind m k s = k a s'.
Proof. intros H. unfold bind. by rewrite H. Qed.

(** ** Facts about lists *)

Lemma filter_none {A} (P : A -> Prop) `{forall x, Decision (P x)} (l : list A) :
  (forall x, x ∈ l -> ~ P x) -> filter P l = [].
Proof.
  induction l as [|x l IH]; intros Hl; [done|].
  rewrite filter_cons_False by (apply Hl; left).
  apply IH. intros y Hy. apply Hl. by right.
Qed.

Lemma filter_all {A} (P : A -> Prop) `{forall x, Decision (P x)} (l : list A) :
  (forall x, x ∈ l -> P x) -> filter P l = l.
Proof.
  induction l as [|x l IH]; intros Hl; [done|].
  rewrite filter_cons_True by (apply Hl; left).
  f_equal. apply IH. intros y Hy. apply Hl. by right.
Qed.

Lemma filter_swap {A} (P Q : A -> Prop)
    `{forall x, Decision (P x)} `{forall x, Decision (Q x)} (l : list A) :
  filter P (filter Q l) = filter Q (filter P l).
Proof.
  rewrite !list_filter_filter. apply list_filter_iff. intros x. tauto.
Qed.

Lemma selected_are_counted_once {A} (f : A -> Z) (selected l : list A) :
  NoDup (map f l) ->
  selected ⊆+ l ->
  length (filter (fun x => f x ∈ map f selected) l) = length selected.
Proof.
  intros Hnodup Hsub.
  destruct (submseteq_Permutation _ _ Hsub) as [rest Hrest].
  rewrite Hrest in Hnodup |- *.
  rewrite fmap_app in Hnodup. apply NoDup_app in Hnodup as (_ & Hdisjoint & _).
  rewrite filter_app, length_app.
  rewrite (filter_all _ selected), (filter_none _ rest); [simpl; lia| |].
  - intros x Hx Hin. apply (Hdisjoint (f x) Hin).
    apply list_elem_of_fmap. eauto.
  - intros x Hx. apply list_elem_of_fmap. eauto.
Qed.

Lemma NoDup_fmap_eq {A B} (f : A -> B) (l : list A) (x y : A) :
  NoDup (map f l) -> x ∈ l -> y ∈ l -> f x = f y -> x = y.
Proof.
  induction l as [|a l IH]; intros Hnodup Hx Hy Hxy;
    [by apply elem_of_nil in Hx|].
  simpl in Hnodup. apply NoDup_cons in Hnodup as [Ha Hl].
  apply elem_of_cons in Hx as [->|Hx]; apply elem_of_cons in Hy as [->|Hy];
    try done.
  - exfalso. apply Ha. rewrite Hxy. apply list_elem_of_fmap. eauto.
  - exfalso. apply Ha. rewrite <- Hxy. apply list_elem_of_fmap. eauto.
  - auto.
Qed.

Lemma key_matches {A} (key : A -> Z) (P : A -> Prop) `{forall x, Decision (P x)}
    (rows : list A) (r : A) :
  NoDup (map key rows) ->
  filter P rows = [r] ->
  forall x, x ∈ rows -> (key x = key r <-> P x).
Proof.
  intros Hkeys Hrow x Hx.
  assert (Hr : r ∈ filter P rows) by (rewrite Hrow; left).
  apply list_elem_of_filter in Hr as [HPr Hr].
  split.
  - intros Hkey. by rewrite (NoDup_fmap_eq key rows x r Hkeys Hx Hr Hkey).
  - intros HPx.
    assert (Hin : x ∈ filter P rows) by by apply list_elem_of_filter.
    rewrite Hrow in Hin. by apply list_elem_of_singleton in Hin as ->.
Qed.

Lemma filter_ext_in {A} (P Q : A -> Prop)
    `{forall x, Decision (P x)} `{forall x, Decision (Q x)} (l : list A) :
  (forall x, x ∈ l -> (P x <-> Q x)) -> filter P l = filter Q l.
Proof.
  induction l as [|a l IH]; intros Hl; [done|].
  rewrite !filter_cons.
  assert (Ha : P a <-> Q a) by (apply Hl; left).
  rewrite IH by (intros x Hx; apply Hl; by right).
  destruct (decide (P a)), (decide (Q a)); tauto.
Qed.

Lemma StronglySorted_filter {A} (R : relation A) (P : A -> Prop)
    `{forall x, Decision (P x)} (l : list A) :
  StronglySorted R l -> StronglySorted R (filter P l).
Proof.
  induction 1 as [|x l Hl IH Hx]; [constructor|].
  rewrite filter_cons. case_decide; [|done].
  constructor; [done|].
  apply Forall_forall. intros y [_ Hy]%list_elem_of_filter.
  by eapply Forall_forall in Hx.
Qed.



(** ** Out-of-order role changes *)

(** C7: a role change for an employee id without a PaymentStatus row
    returns normally and leaves the world as it was: no row is created. *)
Theorem role_changed_before_registered_is_dropped
    (validate : gmap string json -> res EmployeeRoleChanged)
    (clk : Clock) (payload : gmap string json) (ev : EmployeeRoleChanged)
    (w : World) :
  validate (normalize_id payload) = Ok ev ->
  filter (fun r => employee_id r = rc_id ev) (employee_payment_status (data w)) = [] ->
  run (process_employee_role_changed validate clk (Object payload)) w = (Ok tt, w).
Proof.
  intros Hev Hnone.
  unfold process_employee_role_changed, select_status, json_loads.
  unfold_M. rewrite Hev. simpl. rewrite Hnone. simpl.
  by rewrite world_eta.
Qed.

Lemma role_changed_before_registered_is_dropped_witness :
  run (process_employee_role_changed example_validate_role_changed example_clock
         (Object example_role_changed_payload)) example_world
  = (Ok tt, example_world).
Proof.
  apply (role_changed_before_registered_is_dropped
           example_validate_role_changed example_clock
           example_role_changed_payload (mkEmployeeRoleChanged "E9" "RECEPTIONIST")).
  - vm_compute. reflexivity.
  - vm_compute. reflexivity.
Defined.

(** ** Duplicate registrations *)

(** What one delivery of a registration leaves behind. *)
Lemma process_employee_registered_cases
    (validate : gmap string json -> res EmployeeRegistered)
    (clk : Clock) (body : Body) (w : World) :
  run (process_employee_registered validate clk body) w =
  match body with
  | Malformed => (Ok tt, w)
  | Object payload =>
      match validate (normalize_id payload) with
      | Raise _ => (Ok tt, w)
      | Ok ev =>
          match filter (fun r => employee_id r = er_id ev)
                       (employee_payment_status (data w)) with
          | [] =>
              if varchar 50 (er_id ev) && varchar 100 (er_role ev) then
                (Ok tt,
                 mkWorld
                   (set_employee_payment_status
                      (employee_payment_status (data w)
                       ++ [mkEmployeePaymentStatus
                             (employee_payment_status_seq (data w)) (er_id ev)
                             (Some (er_role ev)) false None (utcnow clk)
                             (utcnow clk)])
                      (employee_payment_status_seq (data w) + 1) (data w))
                   (sent w))
              else (Ok tt, w)
          | _ => (Ok tt, w)
          end
      end
  end.
Proof.
  unfold process_employee_registered, select_status, json_loads, add_status.
  destruct body as [|payload]; unfold_M; [by rewrite world_eta|].
  destruct (validate (normalize_id payload)) as [ev|e]; simpl;
    [|by rewrite world_eta].
  destruct (filter _ (employee_payment_status (data w))) as [|r [|r' rows]];
    simpl; rewrite ?world_eta; try done.
  destruct (varchar 50 (er_id ev) && varchar 100 (er_role ev)); simpl;
    by rewrite ?world_eta.
Qed.




(** ** The payment cycle reset *)

Lemma get_or_create_config_run (clk : Clock) (s : Session) :
  (length (payment_cycle_config (pending s)) <= 1)%nat ->
  PaymentCycleService.get_or_create_config clk s
  = (Ok (current_config clk (pending s)), ensure_config clk s).
Proof.
  intros Hone.
  unfold PaymentCycleService.get_or_create_config, current_config, ensure_config.
  unfold_M.
  destruct (payment_cycle_config (pending s)) as [|c [|c' cs]] eqn:E; simpl in *;
    [by rewrite E|done|lia].
Qed.

Lemma should_reset_payments_run (clk : Clock) (s : Session) :
  (length (payment_cycle_config (pending s)) <= 1)%nat ->
  PaymentCycleService.should_reset_payments clk s
  = (Ok (should_reset_spec (current_config clk (pending s)) (today clk)),
     ensure_config clk s).
Proof.
  intros Hone. unfold PaymentCycleService.should_reset_payments.
  rewrite (bind_ok _ _ _ _ _ (get_or_create_config_run clk s Hone)).
  unfold should_reset_spec.
  destruct (last_reset_date (current_config clk (pending s))) as [last|].
  - destruct (year last =? year (today clk)), (month last =? month (today clk)),
      (reset_day (current_config clk (pending s)) <=? day (today clk)); done.
  - destruct (reset_day (current_config clk (pending s)) <=? day (today clk)); done.
Qed.

Lemma reset_all_payment_status_run (clk : Clock) (s : Session)
    (config : PaymentCycleConfig) :
  payment_cycle_config (pending s) = [config] ->
  PaymentCycleService.reset_all_payment_status clk s
  = (Ok (Z.of_nat (length (filter (fun r => paid r = true)
                                  (employee_payment_status (pending s))))),
     mkSession (reset_db clk config (pending s)) (reset_db clk config (pending s))
       (outbox s)).
Proof.
  intros Hcfg.
  unfold PaymentCycleService.reset_all_payment_status,
    PaymentCycleService.get_or_create_config, update_config_row, reset_db.
  unfold_M. rewrite Hcfg. simpl. rewrite !Hcfg. simpl. by rewrite decide_True.
Qed.

Lemma reset_leaves_no_row_paid (now : datetime) (rows : list EmployeePaymentStatus) :
  Forall (fun r => paid r = false)
    (map (fun r => if decide (paid r = true) then mark_unpaid now r else r) rows).
Proof.
  apply Forall_forall. intros r Hr.
  apply list_elem_of_fmap in Hr as (r0 & -> & _).
  case_decide; [done|]. by destruct (paid r0).
Qed.

(** C3: on a database with at most one configuration row, which is what
    [get_or_create_config] maintains, [check_and_auto_reset] resets
    exactly when the condition of the specification holds. A reset answers the
    number of paid rows, turns every paid row unpaid, leaves the other rows
    alone and stamps the configuration with today, after which a check on
    any day of the same month is a no-op; without a reset it answers [None],
    which is not the answer of a reset of zero rows, and changes no row. *)
Theorem check_and_auto_reset_exact (clk : Clock) (w : World) :
  config_singleton (data w) ->
  let config := current_config clk (data w) in
  let result := run (PaymentCycleService.check_and_auto_reset clk) w in
  let rows := employee_payment_status (data w) in
  let rows' := employee_payment_status (data (snd result)) in
  if should_reset_spec config (today clk) then
    fst result = Ok (Some (Z.of_nat (length (filter (fun r => paid r = true) rows))))
    /\ rows' = map (fun r => if decide (paid r = true)
                             then mark_unpaid (utcnow clk) r else r) rows
    /\ Forall (fun r => paid r = false) rows'
    /\ payment_cycle_config (data (snd result))
       = [set_last_reset_date (today clk) (utcnow clk) config]
    /\ (forall clk',
          year (today clk') = year (today clk) ->
          month (today clk') = month (today clk) ->
          run (PaymentCycleService.check_and_auto_reset clk') (snd result)
          = (Ok None, snd result))
  else
    fst result = Ok None
    /\ fst result <> Ok (Some 0)
    /\ rows' = rows
    /\ payment_cycle_config (data (snd result)) = [config].
Proof.
  intros Hone config result rows rows'. subst config result rows rows'.
  unfold config_singleton in Hone.
  destruct w as [d out]. simpl in *.
  unfold run, async_session, close. simpl.
  unfold PaymentCycleService.check_and_auto_reset.
  set (s := mkSession d d out).
  rewrite (bind_ok _ _ _ _ _ (should_reset_payments_run clk s Hone)). simpl.
  assert (Hcfg : payment_cycle_config (pending (ensure_config clk s))
                 = [current_config clk d]).
  { unfold ensure_config, current_config. simpl.
    destruct (payment_cycle_config d) as [|c [|c' cs]] eqn:E; simpl in *;
      [by rewrite ?E|by rewrite ?E|lia]. }
  assert (Hrows : employee_payment_status (pending (ensure_config clk s))
                  = employee_payment_status d).
  { unfold ensure_config. simpl. by destruct (payment_cycle_config d). }
  assert (Hcommitted : committed (ensure_config clk s) = pending (ensure_config clk s)).
  { unfold ensure_config. simpl. by destruct (payment_cycle_config d). }
  destruct (should_reset_spec (current_config clk d) (today clk)) eqn:Hdue.
  - rewrite (bind_ok _ _ _ _ _ (reset_all_payment_status_run clk _ _ Hcfg)).
    unfold ret. simpl. rewrite Hrows.
    split; [done|]. split; [done|].
    split; [apply reset_leaves_no_row_paid|]. split; [done|].
    intros clk' Hy Hm.
    unfold run, async_session, close. simpl.
    set (s1 := mkSession _ _ _).
    assert (Hone1 : (length (payment_cycle_config (pending s1)) <= 1)%nat)
      by (simpl; lia).
    rewrite (bind_ok _ _ _ _ _ (should_reset_payments_run clk' s1 Hone1)).
    unfold should_reset_spec, current_config, ensure_config. simpl.
    rewrite Hy, Hm, !Z.eqb_refl, andb_false_r. done.
  - unfold ret. simpl. rewrite Hcommitted, Hrows, Hcfg. done.
Qed.

Lemma check_and_auto_reset_exact_witness :
  fst (run (PaymentCycleService.check_and_auto_reset example_clock) example_world)
  = Ok (Some 1)
  /\ Forall (fun r => paid r = false)
       (employee_payment_status
          (data (snd (run (PaymentCycleService.check_and_auto_reset example_clock)
                        example_world)))).
Proof.
  assert (Hone : config_singleton (data example_world))
    by (unfold config_singleton; simpl; lia).
  pose proof (check_and_auto_reset_exact example_clock example_world Hone) as H.
  cbv zeta in H.
  replace (should_reset_spec (current_config example_clock (data example_world))
             (today example_clock)) with true in H by (vm_compute; reflexivity).
  destruct H as (Hcount & _ & Hunpaid & _).
  split; [exact Hcount|exact Hunpaid].
Defined.

(** ** Invariants of sessions *)

Section Keeps.

Context (I : DB -> Prop).

Lemma keeps_ret {A} (a : A) : keeps I (ret a).
Proof. by intros s. Qed.

Lemma keeps_raise {A} (e : exn) : keeps I (raise (A:=A) e).
Proof. by intros s. Qed.

Lemma keeps_lift {A} (r : res A) : keeps I (lift r).
Proof. by intros s. Qed.

Lemma keeps_query {A} (f : DB -> A) : keeps I (query f).
Proof. by intros s. Qed.

Lemma keeps_commit : keeps I commit.
Proof. by intros s. Qed.

Lemma keeps_publish_message (queue_name : string) (message : Message) :
  keeps I (publish_message queue_name message).
Proof. by intros s. Qed.

Lemma keeps_modify (f : DB -> DB) :
  (forall d, I d -> I (f d)) -> keeps I (modify f).
Proof. intros Hf s Hc Hp. simpl. auto. Qed.

Lemma keeps_bind {A B} (m : M A) (k : A -> M B) :
  keeps I m -> (forall a, keeps I (k a)) -> keeps I (bind m k).
Proof.
  intros Hm Hk s Hc Hp. unfold bind.
  destruct (Hm s Hc Hp) as [Hc' Hp'].
  destruct (m s) as [[a|e] s']; simpl in *; [by apply Hk|done].
Qed.

Lemma keeps_try_except {A} (m : M A) (handler : exn -> M A) :
  keeps I m -> (forall e, keeps I (handler e)) -> keeps I (try_except m handler).
Proof.
  intros Hm Hh s Hc Hp. unfold try_except.
  destruct (Hm s Hc Hp) as [Hc' Hp'].
  destruct (m s) as [[a|e] s']; simpl in *; [done|by apply Hh].
Qed.

Lemma keeps_async_session {A} (m : M A) : keeps I m -> keeps I (async_session m).
Proof.
  intros Hm s Hc Hp. unfold async_session.
  destruct (Hm (close s) Hc Hc) as [Hc' Hp'].
  destruct (m (close s)) as [r s']; simpl in *. done.
Qed.

Lemma keeps_fold_for {A S} (xs : list A) (acc : S) (body : S -> A -> M S) :
  (forall acc x, keeps I (body acc x)) -> keeps I (fold_for xs acc body).
Proof.
  intros Hbody. revert acc.
  induction xs as [|x xs IH]; intros acc; simpl.
  - apply keeps_ret.
  - apply keeps_bind; [apply Hbody|]. intros acc'. apply IH.
Qed.

Lemma keeps_run {A} (m : M A) (w : World) :
  keeps I m -> I (data w) -> I (data (snd (run m w))).
Proof.
  intros Hm Hw. unfold run.
  destruct (keeps_async_session m Hm (mkSession (data w) (data w) (sent w)) Hw Hw)
    as [Hc _].
  destruct (async_session m _) as [r s']. done.
Qed.

End Keeps.

(** One step of an invariant proof: the monad's own operations, then case
    analysis on what the code branches on. *)
Ltac keeps_step :=
  lazymatch goal with
  | |- keeps _ (ret _) => apply keeps_ret
  | |- keeps _ (raise _) => apply keeps_raise
  | |- keeps _ (lift _) => apply keeps_lift
  | |- keeps _ (query _) => apply keeps_query
  | |- keeps _ commit => apply keeps_commit
  | |- keeps _ (publish_message _ _) => apply keeps_publish_message
  | |- keeps _ (bind _ _) => apply keeps_bind; [|intros ?]
  | |- keeps _ (try_except _ _) => apply keeps_try_except; [|intros ?]
  | |- keeps _ (async_session _) => apply keeps_async_session
  | |- keeps _ (fold_for _ _ _) => apply keeps_fold_for; intros ? ?
  | |- keeps _ (modify _) => apply keeps_modify; intros ? ?
  | |- keeps _ (match ?x with _ => _ end) => destruct x
  | |- keeps _ (let _ := _ in _) => cbv zeta
  end.

Ltac keeps_auto :=
  unfold select_status, resolve_salary, json_loads, add_status, delete_status,
    update_status, update_config_row, new_ExpenseCreate;
  repeat keeps_step.

(** Unfold the entry points down to the operations of the session, the
    configuration lookup apart. *)
Ltac unfold_entry_points :=
  unfold process_employee_registered, process_employee_deleted,
    process_employee_role_changed, confirm_payment, dismiss_employee,
    PaymentCycleService.initialize_demo_payments,
    PaymentCycleService.demo_payment,
    PaymentCycleService.check_and_auto_reset,
    PaymentCycleService.should_reset_payments,
    PaymentCycleService.reset_all_payment_status,
    PaymentCycleService.update_config,
    create_manual_expense, delete_manual_expense,
    ExpenseService.create_manual_expense_entry,
    ExpenseService.create_expense,
    ExpenseService.delete_expense_by_reference.

(** ** Paid implies a payment date *)

Lemma status_ok_update (P : EmployeePaymentStatus -> Prop)
    `{forall r, Decision (P r)}
    (f : EmployeePaymentStatus -> EmployeePaymentStatus)
    (rows : list EmployeePaymentStatus) :
  (forall r, status_ok r -> status_ok (f r)) ->
  Forall status_ok rows ->
  Forall status_ok (map (fun r => if decide (P r) then f r else r) rows).
Proof.
  intros Hf Hrows. apply Forall_fmap. eapply Forall_impl; [exact Hrows|].
  intros r Hr. simpl. case_decide; auto.
Qed.

Lemma status_ok_mark_paid (now : datetime) (r : EmployeePaymentStatus) :
  status_ok (mark_paid now r).
Proof. by intros _. Qed.

Lemma status_ok_mark_unpaid (now : datetime) (r : EmployeePaymentStatus) :
  status_ok (mark_unpaid now r).
Proof. by intros ?. Qed.

Lemma status_ok_set_position_name (role : string) (now : datetime)
    (r : EmployeePaymentStatus) :
  status_ok r -> status_ok (set_position_name role now r).
Proof. by intros ?. Qed.

#[local] Hint Resolve status_ok_mark_paid status_ok_mark_unpaid
  status_ok_set_position_name : core.

(** C5: every operation of the service, the six that write PaymentStatus
    rows among them, takes a database in which each paid row has a last
    payment date to a database of the same kind. *)
Theorem paid_implies_last_payment_is_preserved
    (validate_registered : gmap string json -> res EmployeeRegistered)
    (validate_deleted : gmap string json -> res EmployeeDeleted)
    (validate_role_changed : gmap string json -> res EmployeeRoleChanged)
    (op : Operation) (w : World) :
  payment_invariant (data w) ->
  payment_invariant
    (data (perform validate_registered validate_deleted validate_role_changed op w)).
Proof.
  intros Hw.
  destruct op; simpl; (apply keeps_run; [|done]);
    unfold_entry_points; unfold PaymentCycleService.get_or_create_config;
    keeps_auto;
    unfold payment_invariant in *; simpl;
    try done;
    try (apply status_ok_update; by auto).
  - apply Forall_app. split; [done|]. by apply Forall_singleton.
  - apply Forall_forall. intros r [_ Hr]%list_elem_of_filter.
    by eapply Forall_forall in Hr.
Qed.

Lemma paid_implies_last_payment_is_preserved_witness :
  payment_invariant
    (data (perform example_validate_registered example_validate_deleted
             example_validate_role_changed
             (ConfirmPayment example_clock "E1" (mkPaymentConfirmation "E1"))
             example_world)).
Proof.
  apply paid_implies_last_payment_is_preserved.
  unfold payment_invariant. simpl. repeat constructor; by intros ?.
Defined.

(** ** Schema invariants *)

Lemma get_or_create_config_keeps_singleton (clk : Clock) :
  keeps config_singleton (PaymentCycleService.get_or_create_config clk).
Proof.
  intros s Hc Hp. rewrite get_or_create_config_run by done.
  unfold ensure_config, config_singleton in *. simpl.
  destruct (payment_cycle_config (pending s)) eqn:E; simpl in *;
    [lia|rewrite E; simpl; auto].
Qed.

Lemma config_singleton_is_kept
    (validate_registered : gmap string json -> res EmployeeRegistered)
    (validate_deleted : gmap string json -> res EmployeeDeleted)
    (validate_role_changed : gmap string json -> res EmployeeRoleChanged)
    (op : Operation) (w : World) :
  config_singleton (data w) ->
  config_singleton
    (data (perform validate_registered validate_deleted validate_role_changed op w)).
Proof.
  intros Hw.
  destruct op; simpl; (apply keeps_run; [|done]); unfold_entry_points;
    keeps_auto;
    repeat first [apply get_or_create_config_keeps_singleton | keeps_step];
    unfold config_singleton in *; simpl; rewrite ?length_map; done.
Qed.

Lemma status_keys_issued_update (d : DB)
    (g : EmployeePaymentStatus -> EmployeePaymentStatus) :
  (forall r, eps_id (g r) = eps_id r) ->
  status_keys_issued d ->
  status_keys_issued
    (set_employee_payment_status (map g (employee_payment_status d))
       (employee_payment_status_seq d) d).
Proof.
  intros Hg [Hnodup Hissued]. unfold status_keys_issued. simpl. split.
  - rewrite <- list_fmap_compose.
    by rewrite (list_fmap_ext (eps_id ∘ g) eps_id _ (fun _ r _ => Hg r)).
  - apply Forall_fmap. eapply Forall_impl; [exact Hissued|].
    intros r Hr. simpl. by rewrite Hg.
Qed.

Lemma status_keys_issued_is_kept
    (validate_registered : gmap string json -> res EmployeeRegistered)
    (validate_deleted : gmap string json -> res EmployeeDeleted)
    (validate_role_changed : gmap string json -> res EmployeeRoleChanged)
    (op : Operation) (w : World) :
  status_keys_issued (data w) ->
  status_keys_issued
    (data (perform validate_registered validate_deleted validate_role_changed op w)).
Proof.
  intros Hw.
  destruct op; simpl; (apply keeps_run; [|done]); unfold_entry_points;
    unfold PaymentCycleService.get_or_create_config;
    keeps_auto; try done;
    try (apply status_keys_issued_update; [|done];
         intros r; by case_decide).
  - (* a registration takes the next key *)
    match goal with
    | Hd : status_keys_issued _ |- _ => destruct Hd as [Hnodup Hissued]
    end. unfold status_keys_issued. simpl. split.
    + rewrite fmap_app. apply NoDup_app. split; [done|]. split.
      * intros k [r [-> Hr]]%list_elem_of_fmap Hk.
        apply list_elem_of_singleton in Hk.
        eapply Forall_forall in Hissued; [|exact Hr]. simpl in *. lia.
      * apply NoDup_singleton.
    + apply Forall_app. split.
      * eapply Forall_impl; [exact Hissued|]. intros r Hr. simpl in *. lia.
      * apply Forall_singleton. simpl. lia.
  - (* a deletion removes rows *)
    match goal with
    | Hd : status_keys_issued _ |- _ => destruct Hd as [Hnodup Hissued]
    end. unfold status_keys_issued. simpl. split.
    + eapply sublist_NoDup; [exact Hnodup|]. apply fmap_sublist, sublist_filter.
    + apply Forall_forall. intros r [_ Hr]%list_elem_of_filter.
      by eapply Forall_forall in Hissued.
Qed.

Lemma positions_are_kept
    (validate_registered : gmap string json -> res EmployeeRegistered)
    (validate_deleted : gmap string json -> res EmployeeDeleted)
    (validate_role_changed : gmap string json -> res EmployeeRoleChanged)
    (op : Operation) (w : World) :
  positions
    (data (perform validate_registered validate_deleted validate_role_changed op w))
  = positions (data w).
Proof.
  destruct op; simpl;
    (apply (keeps_run (fun d => positions d = positions (data w))); [|done]);
    unfold_entry_points; unfold PaymentCycleService.get_or_create_config;
    keeps_auto; done.
Qed.

(** ** Payment confirmation and the ledger *)

Lemma confirm_payment_keeps_expenses (rows : list Expense) (clk : Clock)
    (employee_id_ : string) (payment_data : PaymentConfirmation) :
  keeps (fun d => expenses d = rows)
    (confirm_payment clk employee_id_ payment_data).
Proof. unfold confirm_payment. keeps_auto. done. Qed.

Lemma unique_position_lookup (positions_ : list Position) (name : option string) :
  NoDup (map pos_name positions_) ->
  (length (filter (fun p => Some (pos_name p) = name) positions_) <= 1)%nat.
Proof.
  induction positions_ as [|p ps IH]; intros Hnodup; [simpl; lia|].
  simpl in Hnodup. apply NoDup_cons in Hnodup as [Hp Hps].
  destruct (decide (Some (pos_name p) = name)) as [Hname|Hname].
  - rewrite filter_cons_True by done.
    rewrite (filter_none _ ps); [simpl; lia|].
    intros q Hq Hqname. apply Hp.
    assert (pos_name p = pos_name q) as -> by congruence.
    apply list_elem_of_fmap. eauto.
  - rewrite filter_cons_False by done. auto.
Qed.

Lemma resolve_salary_run (name : option string) (s : Session) :
  NoDup (map pos_name (positions (pending s))) ->
  resolve_salary name s = (Ok (salary_of (positions (pending s)) name), s).
Proof.
  intros Hnodup. unfold resolve_salary, salary_of.
  destruct (truthy name); [|done].
  pose proof (unique_position_lookup _ name Hnodup) as Hone.
  unfold_M.
  destruct (filter _ (positions (pending s))) as [|p [|p' ps]]; simpl in *;
    [done|done|lia].
Qed.

(** What [confirm_payment] does for an employee with a row, position names
    being unique: the row is marked paid at the time of the call, and the
    three messages go out, the first with the resolved salary. *)
Lemma confirm_payment_marks_paid (clk : Clock) (employee_id_ : string)
    (payment_status : EmployeePaymentStatus) (w : World) :
  filter (fun r => employee_id r = employee_id_) (employee_payment_status (data w))
  = [payment_status] ->
  NoDup (map pos_name (positions (data w))) ->
  run (confirm_payment clk employee_id_ (mkPaymentConfirmation employee_id_)) w
  = (Ok (mark_paid (utcnow clk) payment_status),
     mkWorld
       (set_employee_payment_status
          (map (fun r => if decide (eps_id r = eps_id payment_status)
                         then mark_paid (utcnow clk) r else r)
               (employee_payment_status (data w)))
          (employee_payment_status_seq (data w)) (data w))
       (sent w
        ++ [("employee-paid-queue",
             EmployeePaid employee_id_
               (salary_of (positions (data w)) (position_name payment_status))
               (position_name payment_status)
               (month (dt_date (utcnow clk))) (year (dt_date (utcnow clk)))
               (utcnow clk));
            ("analytics-employee-status-changed-queue",
             EmployeeStatusChanged employee_id_ true);
            ("user-employee-status-changed-queue",
             EmployeeStatusChanged employee_id_ true)])).
Proof.
  intros Hrow Hnames.
  unfold confirm_payment. simpl. rewrite decide_False by (by intros []).
  unfold run, async_session, close. simpl.
  set (s := mkSession (data w) (data w) (sent w)).
  assert (Hfound : select_status employee_id_ s = (Ok (Some payment_status), s)).
  { unfold select_status. unfold_M. by rewrite Hrow. }
  rewrite (bind_ok _ _ _ _ _ Hfound).
  rewrite (bind_ok _ _ _ _ _ (resolve_salary_run _ s Hnames)).
  unfold update_status. unfold_M. by rewrite <- !app_assoc.
Qed.

(** The helper that would write the ledger entry of a payment is called by
    no route; were it called with the amount 0 of a missing position, the
    schema of the ledger (amount above zero) would make it raise. *)
Lemma create_employee_payment_entry_rejects_zero (clk : Clock)
    (employee_id_ : string) (position_name_ : option string)
    (payment_date : option date) (s : Session) :
  exists e,
    ExpenseService.create_employee_payment_entry clk employee_id_ 0%Q
      position_name_ payment_date s = (Raise e, s).
Proof.
  unfold ExpenseService.create_employee_payment_entry, select_status.
  unfold bind at 1. unfold bind at 1. unfold query, lift.
  destruct (scalar_one_or_none _) as [found|e]; [|eauto].
  unfold bind at 1, new_ExpenseCreate, valid_ExpenseCreate.
  cbn [ec_amount]. change (Qle_bool 0 0) with true.
  rewrite andb_false_r. simpl. eauto.
Qed.

(** C1, on the code: [confirm_payment] never writes to the ledger. For the
    trainer E1 of the example it answers the row marked paid with the
    payment time and publishes the salary of 3500, and the ledger holds no
    employee_payment entry afterwards. *)
Theorem confirm_payment_records_no_ledger_entry :
  (forall clk employee_id_ payment_data w,
     expenses (data (snd (run (confirm_payment clk employee_id_ payment_data) w)))
     = expenses (data w))
  /\ let result := run (confirm_payment example_clock "E1"
                          (mkPaymentConfirmation "E1")) example_world in
     (exists payment_status,
        fst result = Ok payment_status
        /\ paid payment_status = true
        /\ last_payment payment_status = Some (utcnow example_clock))
     /\ sent (snd result)
        = [("employee-paid-queue",
            EmployeePaid "E1" 3500%Q (Some "PERSONAL_TRAINER") 3 2025
              (utcnow example_clock));
           ("analytics-employee-status-changed-queue",
            EmployeeStatusChanged "E1" true);
           ("user-employee-status-changed-queue",
            EmployeeStatusChanged "E1" true)]
     /\ filter (fun e => expense_type e = "employee_payment")
               (expenses (data (snd result))) = [].
Proof.
  split.
  - intros clk employee_id_ payment_data w.
    apply (keeps_run (fun d => expenses d = expenses (data w)));
      [apply confirm_payment_keeps_expenses|done].
  - vm_compute. split; [|done]. eexists. done.
Qed.

(** ** Manual expenses and their ledger entries *)


Lemma create_manual_expense_entry_run (clk : Clock)
    (manual_expense : ManualExpense) (s : Session) :
  negb (Qle_bool (me_value manual_expense) 0) = true ->
  ExpenseService.create_manual_expense_entry clk manual_expense s
  = if str_len (manual_entry_description manual_expense) <=? 255 then
      let d := set_expenses
                 (expenses (pending s) ++ [ledger_row clk manual_expense (pending s)])
                 (expenses_seq (pending s) + 1) (pending s) in
      (Ok (ledger_row clk manual_expense (pending s)), mkSession d d (outbox s))
    else (Raise ValidationError, s).
Proof.
  intros Hpositive.
  unfold ExpenseService.create_manual_expense_entry,
    ExpenseService.create_expense, new_ExpenseCreate, valid_ExpenseCreate,
    ledger_row.
  cbn [ec_description ec_amount ec_expense_type].
  change (str_len "manual" <=? 50) with true.
  rewrite Hpositive, !andb_true_r.
  destruct (str_len (manual_entry_description manual_expense) <=? 255);
    unfold_M; done.
Qed.

Lemma create_manual_expense_run (clk : Clock) (expense_data : ManualExpenseCreate)
    (w : World) :
  valid_ManualExpenseCreate expense_data = true ->
  run (create_manual_expense clk expense_data) w
  = let new_expense := manual_row clk expense_data (data w) in
    let d := set_manual_expenses (manual_expenses (data w) ++ [new_expense])
               (manual_expenses_seq (data w) + 1) (data w) in
    if str_len (manual_entry_description new_expense) <=? 255 then
      (Ok new_expense,
       mkWorld
         (set_expenses (expenses d ++ [ledger_row clk new_expense d])
            (expenses_seq d + 1) d)
         (sent w
          ++ [("finance.expense.registered",
               ExpenseRegistered (mc_value expense_data) (mc_category expense_data)
                 (mc_description expense_data) (mc_date expense_data)
                 (mc_responsible expense_data))]))
    else (Raise ValidationError, mkWorld d (sent w)).
Proof.
  intros Hvalid. unfold create_manual_expense. rewrite Hvalid. simpl.
  assert (Hpositive : negb (Qle_bool (mc_value expense_data) 0) = true).
  { unfold valid_ManualExpenseCreate in Hvalid.
    by apply andb_true_iff in Hvalid as [[_ ?]%andb_true_iff _]. }
  unfold run, async_session, close. simpl.
  set (s := mkSession (data w) (data w) (sent w)).
  rewrite (bind_ok _ _ s s (manual_expenses_seq (data w))) by done.
  fold (manual_row clk expense_data (data w)).
  set (me := manual_row clk expense_data (data w)).
  set (d1 := set_manual_expenses (manual_expenses (data w) ++ [me])
               (manual_expenses_seq (data w) + 1) (data w)).
  rewrite (bind_ok _ _ s (mkSession (data w) d1 (sent w)) tt) by done.
  rewrite (bind_ok _ _ _ (mkSession d1 d1 (sent w)) tt) by done.
  unfold bind at 1.
  rewrite (create_manual_expense_entry_run clk me _ Hpositive).
  destruct (str_len (manual_entry_description me) <=? 255); unfold_M; done.
Qed.


Lemma delete_expense_by_reference_run (expense_type_ : string) (reference_id_ : Z)
    (s : Session) :
  ExpenseService.delete_expense_by_reference expense_type_ reference_id_ s
  = match filter (fun e => expense_type e = expense_type_
                           /\ reference_id e = Some reference_id_)
                 (expenses (pending s)) with
    | [] => (Ok false, s)
    | [expense] =>
        let d := set_expenses
                   (filter (fun e => exp_id e <> exp_id expense)
                           (expenses (pending s)))
                   (expenses_seq (pending s)) (pending s) in
        (Ok true, mkSession d d (outbox s))
    | _ => (Raise MultipleResultsFound, s)
    end.
Proof.
  unfold ExpenseService.delete_expense_by_reference. unfold_M.
  by destruct (filter _ (expenses (pending s))) as [|e [|e' rows]].
Qed.

Lemma create_manual_expense_keeps_refs_issued (clk : Clock)
    (expense_data : ManualExpenseCreate) (w : World) :
  manual_refs_issued (data w) ->
  manual_refs_issued (data (snd (run (create_manual_expense clk expense_data) w))).
Proof.
  intros Hw.
  destruct (valid_ManualExpenseCreate expense_data) eqn:Hvalid.
  - rewrite (create_manual_expense_run clk expense_data w Hvalid). cbv zeta.
    destruct (str_len _ <=? 255); simpl; intros e r He Htype Href; simpl in *.
    + apply elem_of_app in He as [He|He].
      * specialize (Hw e r He Htype Href). lia.
      * apply list_elem_of_singleton in He as ->. simpl in Href.
        injection Href as <-. lia.
    + specialize (Hw e r He Htype Href). lia.
  - unfold create_manual_expense. rewrite Hvalid. by unfold_M.
Qed.

(** That no manual ledger entry refers to a key not yet handed out is an
    invariant of the service: the empty database has it and every
    operation keeps it. *)
Lemma manual_refs_issued_empty : manual_refs_issued empty_db.
Proof. intros e r He. by apply elem_of_nil in He. Qed.

Lemma manual_refs_issued_is_kept
    (validate_registered : gmap string json -> res EmployeeRegistered)
    (validate_deleted : gmap string json -> res EmployeeDeleted)
    (validate_role_changed : gmap string json -> res EmployeeRoleChanged)
    (op : Operation) (w : World) :
  manual_refs_issued (data w) ->
  manual_refs_issued
    (data (perform validate_registered validate_deleted validate_role_changed op w)).
Proof.
  intros Hw.
  destruct op; simpl;
    lazymatch goal with
    | |- context [create_manual_expense] =>
        by apply create_manual_expense_keeps_refs_issued
    | _ => apply keeps_run; [|done]
    end;
    unfold_entry_points; unfold PaymentCycleService.get_or_create_config;
    keeps_auto; try done;
    intros entry r Hentry; simpl in *;
    try apply list_elem_of_filter in Hentry as [_ Hentry]; eauto.
Qed.

(** The ledger table stays in insertion order under every operation. *)
Lemma ledger_in_insertion_order_empty : ledger_in_insertion_order empty_db.
Proof. split; constructor. Qed.

Lemma create_manual_expense_keeps_insertion_order (clk : Clock)
    (expense_data : ManualExpenseCreate) (w : World) :
  ledger_in_insertion_order (data w) ->
  ledger_in_insertion_order
    (data (snd (run (create_manual_expense clk expense_data) w))).
Proof.
  intros [Hsorted Hissued].
  destruct (valid_ManualExpenseCreate expense_data) eqn:Hvalid.
  - rewrite (create_manual_expense_run clk expense_data w Hvalid). cbv zeta.
    destruct (str_len _ <=? 255); [|done]. split; simpl.
    + apply StronglySorted_app_2; [|done|repeat constructor].
      intros x y Hx Hy. apply list_elem_of_singleton in Hy as ->. simpl.
      by eapply Forall_forall in Hissued.
    + apply Forall_app. split.
      * eapply Forall_impl; [exact Hissued|]. intros e He. simpl in *. lia.
      * apply Forall_singleton. simpl. lia.
  - unfold create_manual_expense. rewrite Hvalid. by unfold_M.
Qed.

Lemma ledger_in_insertion_order_is_kept
    (validate_registered : gmap string json -> res EmployeeRegistered)
    (validate_deleted : gmap string json -> res EmployeeDeleted)
    (validate_role_changed : gmap string json -> res EmployeeRoleChanged)
    (op : Operation) (w : World) :
  ledger_in_insertion_order (data w) ->
  ledger_in_insertion_order
    (data (perform validate_registered validate_deleted validate_role_changed op w)).
Proof.
  intros Hw.
  destruct op; simpl;
    lazymatch goal with
    | |- context [create_manual_expense] =>
        by apply create_manual_expense_keeps_insertion_order
    | _ => apply keeps_run; [|done]
    end;
    unfold_entry_points; unfold PaymentCycleService.get_or_create_config;
    keeps_auto; try done.
  match goal with
  | Hd : ledger_in_insertion_order _ |- _ => destruct Hd as [Hsorted Hissued]
  end.
  split; simpl; [by apply StronglySorted_filter|].
  apply Forall_forall. intros entry [_ Hentry]%list_elem_of_filter.
  by eapply Forall_forall in Hissued.
Qed.

Lemma manual_keys_issued_is_kept
    (validate_registered : gmap string json -> res EmployeeRegistered)
    (validate_deleted : gmap string json -> res EmployeeDeleted)
    (validate_role_changed : gmap string json -> res EmployeeRoleChanged)
    (op : Operation) (w : World) :
  manual_keys_issued (data w) ->
  manual_keys_issued
    (data (perform validate_registered validate_deleted validate_role_changed op w)).
Proof.
  intros Hw. unfold manual_keys_issued in *.
  destruct op; simpl;
    lazymatch goal with
    | |- context [create_manual_expense] => idtac
    | _ => apply (keeps_run manual_keys_issued); [|done]
    end.
  10:{ destruct (valid_ManualExpenseCreate expense_data) eqn:Hvalid.
       - rewrite (create_manual_expense_run clk expense_data w Hvalid). cbv zeta.
         assert (Hnext : Forall (fun e => me_id e < manual_expenses_seq (data w) + 1)
                           (manual_expenses (data w)
                            ++ [manual_row clk expense_data (data w)])).
         { apply Forall_app. split.
           - eapply Forall_impl; [exact Hw|]. intros e He. simpl in *. lia.
           - apply Forall_singleton. simpl. lia. }
         by destruct (str_len _ <=? 255).
       - unfold create_manual_expense. rewrite Hvalid. by unfold_M. }
  all: unfold_entry_points; unfold PaymentCycleService.get_or_create_config;
    keeps_auto; unfold manual_keys_issued in *; simpl; try done.
  apply Forall_forall. intros entry [_ Hentry]%list_elem_of_filter.
  match goal with
  | Hd : Forall _ (manual_expenses _) |- _ => by eapply Forall_forall in Hd
  end.
Qed.

(** What the serial counters guarantee is an invariant of the service: the
    empty database has it and every operation keeps it. *)
Lemma ledger_keys_issued_empty : ledger_keys_issued empty_db.
Proof.
  split; [apply manual_refs_issued_empty|].
  split; [constructor|apply ledger_in_insertion_order_empty].
Qed.

Lemma ledger_keys_issued_is_kept
    (validate_registered : gmap string json -> res EmployeeRegistered)
    (validate_deleted : gmap string json -> res EmployeeDeleted)
    (validate_role_changed : gmap string json -> res EmployeeRoleChanged)
    (op : Operation) (w : World) :
  ledger_keys_issued (data w) ->
  ledger_keys_issued
    (data (perform validate_registered validate_deleted validate_role_changed op w)).
Proof.
  intros (Hrefs & Hkeys & Horder).
  split; [by apply manual_refs_issued_is_kept|].
  split; [by apply manual_keys_issued_is_kept|].
  by apply ledger_in_insertion_order_is_kept.
Qed.

Lemma insertion_order_keys_unique (d : DB) :
  ledger_in_insertion_order d -> NoDup (map exp_id (expenses d)).
Proof.
  intros [Hsorted _]. induction Hsorted as [|e rows Hrows IH He]; [constructor|].
  cbn [map]. apply NoDup_cons. split; [|done].
  intros [x [Hkey Hx]]%list_elem_of_fmap.
  eapply Forall_forall in He; [|exact Hx]. lia.
Qed.

(** What [delete_manual_expense] does, by the rows that hold the key and
    the ledger entries that refer to it. *)
Lemma delete_manual_expense_run (clk : Clock) (expense_id : Z) (w : World) :
  run (delete_manual_expense clk expense_id) w
  = match filter (fun e => me_id e = expense_id) (manual_expenses (data w)) with
    | [] =>
        if int32 expense_id
        then (Raise (HTTPException 404 "Manual expense not found"), w)
        else (Raise DBAPIError, w)
    | [expense] =>
        let remaining :=
          filter (fun e => me_id e <> me_id expense) (manual_expenses (data w)) in
        let published :=
          sent w ++ [("finance.expense.deleted",
                      ExpenseDeleted expense_id (utcnow clk))] in
        match manual_entries expense_id (data w) with
        | [] =>
            (Ok tt,
             mkWorld (set_manual_expenses remaining (manual_expenses_seq (data w))
                        (data w))
               published)
        | [entry] =>
            (Ok tt,
             mkWorld
               (set_manual_expenses remaining (manual_expenses_seq (data w))
                  (set_expenses
                     (filter (fun e => exp_id e <> exp_id entry) (expenses (data w)))
                     (expenses_seq (data w)) (data w)))
               published)
        | _ => (Raise MultipleResultsFound, w)
        end
    | _ => (Raise MultipleResultsFound, w)
    end.
Proof.
  unfold delete_manual_expense, run, async_session. simpl.
  unfold close at 1. simpl.
  unfold bind at 1, query at 1. cbn [pending]. unfold where_key.
  destruct (filter (fun e => me_id e = expense_id) (manual_expenses (data w)))
    as [|expense [|expense' rest]].
  - destruct (int32 expense_id); unfold_M; by rewrite world_eta.
  - unfold bind at 1, lift at 1. unfold bind at 1, lift at 1. simpl.
    unfold bind at 1. rewrite delete_expense_by_reference_run. simpl.
    fold (manual_entries expense_id (data w)).
    destruct (manual_entries expense_id (data w)) as [|entry [|entry' entries]];
      unfold_M; by rewrite ?world_eta.
  - unfold_M. by rewrite world_eta.
Qed.

Lemma filter_other_key {A} (key : A -> Z) (k k' : Z) (rows : list A) :
  k <> k' ->
  filter (fun r => key r = k) (filter (fun r => key r <> k') rows)
  = filter (fun r => key r = k) rows.
Proof.
  intros Hne. rewrite list_filter_filter. apply filter_ext_in.
  intros r _. split; [tauto|]. intros Hk. split; [done|congruence].
Qed.

Lemma filter_same_key {A} (key : A -> Z) (k : Z) (rows : list A) :
  filter (fun r => key r = k) (filter (fun r => key r <> k) rows) = [].
Proof.
  apply filter_none. intros r [Hne _]%list_elem_of_filter Hk. done.
Qed.

(** C4, as the specification states it, fails: a successful
    [create_manual_expense] does not restore the bijection. After the
    request with the long description has left its manual expense without
    a ledger entry, a request that succeeds gets its one entry, and the
    first expense is still live without any. *)
Lemma ledger_bijection_is_not_restored :
  let w1 := snd (run (create_manual_expense example_clock example_long_expense)
                   (mkWorld empty_db [])) in
  let result := run (create_manual_expense example_clock example_expense) w1 in
  ledger_keys_issued (data w1)
  /\ (exists new_expense,
        fst result = Ok new_expense
        /\ me_id new_expense = 2
        /\ length (manual_entries 2 (data (snd result))) = 1%nat)
  /\ length (filter (fun e => me_id e = 1) (manual_expenses (data (snd result))))
     = 1%nat
  /\ manual_entries 1 (data (snd result)) = []
  /\ ~ ledger_bijection (data (snd result)).
Proof.
  cbv zeta. split.
  { apply (ledger_keys_issued_is_kept (fun _ => Raise ValidationError)
             (fun _ => Raise ValidationError) (fun _ => Raise ValidationError)
             (CreateManualExpense example_clock example_long_expense)
             (mkWorld empty_db [])).
    apply ledger_keys_issued_empty. }
  split; [eexists; vm_compute; done|].
  split; [vm_compute; done|]. split; [vm_compute; done|].
  intros Hbijection. destruct (Hbijection 1) as [Hsame _].
  vm_compute in Hsame. done.
Qed.

(** C4, amended: on a database whose keys the serial counters handed out,
    a [create_manual_expense] that succeeds leaves exactly one ledger entry
    of type manual referring to the new expense, which is live, and a
    [delete_manual_expense] that succeeds leaves no entry referring to the
    deleted key and no expense holding it. Both keep the bijection between
    live manual expenses and their ledger rows where it held, and both
    leave the keys as the counters need them. *)
Theorem manual_expense_has_one_entry_until_deleted (clk : Clock) (w : World) :
  ledger_keys_issued (data w) ->
  (forall expense_data new_expense w',
     run (create_manual_expense clk expense_data) w = (Ok new_expense, w') ->
     length (manual_entries (me_id new_expense) (data w')) = 1%nat
     /\ filter (fun e => me_id e = me_id new_expense) (manual_expenses (data w'))
        = [new_expense]
     /\ (ledger_bijection (data w) -> ledger_bijection (data w'))
     /\ ledger_keys_issued (data w'))
  /\ (forall expense_id w',
        run (delete_manual_expense clk expense_id) w = (Ok tt, w') ->
        manual_entries expense_id (data w') = []
        /\ filter (fun e => me_id e = expense_id) (manual_expenses (data w')) = []
        /\ (ledger_bijection (data w) -> ledger_bijection (data w'))
        /\ ledger_keys_issued (data w')).
Proof.
  intros Hissued. pose proof Hissued as (Hrefs & Hkeys & Horder).
  split.
  - intros expense_data new_expense w' Hrun.
    assert (Hkept : ledger_keys_issued (data w')).
    { pose proof (ledger_keys_issued_is_kept (fun _ => Raise ValidationError)
                    (fun _ => Raise ValidationError) (fun _ => Raise ValidationError)
                    (CreateManualExpense clk expense_data) w Hissued) as Hkept.
      simpl in Hkept. by rewrite Hrun in Hkept. }
    destruct (valid_ManualExpenseCreate expense_data) eqn:Hvalid.
    2: { unfold create_manual_expense in Hrun. rewrite Hvalid in Hrun.
         by unfold_M. }
    rewrite (create_manual_expense_run clk expense_data w Hvalid) in Hrun.
    cbv zeta in Hrun.
    destruct (str_len _ <=? 255); [|done].
    injection Hrun as <- <-.
    assert (Hentries : forall expense_id,
              manual_entries expense_id
                (set_expenses
                   (expenses (data w)
                    ++ [ledger_row clk (manual_row clk expense_data (data w))
                          (set_manual_expenses
                             (manual_expenses (data w)
                              ++ [manual_row clk expense_data (data w)])
                             (manual_expenses_seq (data w) + 1) (data w))])
                   (expenses_seq (data w) + 1)
                   (set_manual_expenses
                      (manual_expenses (data w)
                       ++ [manual_row clk expense_data (data w)])
                      (manual_expenses_seq (data w) + 1) (data w)))
              = manual_entries expense_id (data w)
                ++ (if decide (expense_id = manual_expenses_seq (data w))
                    then [ledger_row clk (manual_row clk expense_data (data w))
                            (set_manual_expenses
                               (manual_expenses (data w)
                                ++ [manual_row clk expense_data (data w)])
                               (manual_expenses_seq (data w) + 1) (data w))]
                    else [])).
    { intros expense_id. unfold manual_entries. simpl. rewrite filter_app.
      f_equal. rewrite filter_cons, filter_nil. simpl.
      destruct (decide (expense_id = manual_expenses_seq (data w))) as [->|Hne].
      - by rewrite decide_True.
      - rewrite decide_False; [done|]. intros [_ [=]]. done. }
    assert (Hlive : forall expense_id,
              filter (fun e => me_id e = expense_id)
                (manual_expenses (data w) ++ [manual_row clk expense_data (data w)])
              = filter (fun e => me_id e = expense_id) (manual_expenses (data w))
                ++ (if decide (expense_id = manual_expenses_seq (data w))
                    then [manual_row clk expense_data (data w)] else [])).
    { intros expense_id. rewrite filter_app. f_equal.
      rewrite filter_cons, filter_nil. simpl.
      destruct (decide (expense_id = manual_expenses_seq (data w))) as [->|Hne].
      - by rewrite decide_True.
      - rewrite decide_False; [done|]. intros Heq. done. }
    assert (Hnone : manual_entries (manual_expenses_seq (data w)) (data w) = []).
    { apply filter_none. intros e He [Htype Href].
      specialize (Hrefs e _ He Htype Href). lia. }
    assert (Hfree : filter (fun e => me_id e = manual_expenses_seq (data w))
                      (manual_expenses (data w)) = []).
    { apply filter_none. intros e He Hkey.
      eapply Forall_forall in Hkeys; [|exact He]. simpl in Hkeys. lia. }
    cbn [data me_id manual_row]. cbn [data] in Hkept.
    split; [|split; [|split; [|exact Hkept]]].
    + rewrite Hentries, Hnone, decide_True by done. done.
    + simpl. rewrite Hlive, Hfree, decide_True by done. done.
    + intros Hbijection expense_id. rewrite Hentries. simpl. rewrite Hlive.
      destruct (Hbijection expense_id) as [Hsame Hone].
      destruct (decide (expense_id = manual_expenses_seq (data w))) as [->|Hne].
      * rewrite Hnone, Hfree. simpl. split; [done|lia].
      * rewrite !app_nil_r. done.
  - intros expense_id w' Hrun.
    assert (Hkept : ledger_keys_issued (data w')).
    { pose proof (ledger_keys_issued_is_kept (fun _ => Raise ValidationError)
                    (fun _ => Raise ValidationError) (fun _ => Raise ValidationError)
                    (DeleteManualExpense clk expense_id) w Hissued) as Hkept.
      simpl in Hkept. by rewrite Hrun in Hkept. }
    rewrite delete_manual_expense_run in Hrun.
    destruct (filter (fun e => me_id e = expense_id) (manual_expenses (data w)))
      as [|expense [|expense' rest]] eqn:Hrow;
      [by destruct (int32 expense_id)| |done].
    assert (Hid : me_id expense = expense_id).
    { assert (Hin : expense ∈ filter (fun e => me_id e = expense_id)
                                (manual_expenses (data w)))
        by (rewrite Hrow; left).
      by apply list_elem_of_filter in Hin as [? _]. }
    cbv zeta in Hrun. rewrite Hid in Hrun.
    destruct (manual_entries expense_id (data w)) as [|entry [|entry' entries]]
      eqn:Hentries; [| |done]; injection Hrun as <-; cbn [data] in *.
    + split; [exact Hentries|]. split; [apply filter_same_key|].
      split; [|exact Hkept].
      intros Hbijection other.
      destruct (Hbijection other) as [Hsame Hone].
      change (manual_entries other (set_manual_expenses _ _ (data w)))
        with (manual_entries other (data w)).
      simpl. split; [|done].
      destruct (decide (other = expense_id)) as [->|Hne].
      * rewrite filter_same_key, Hentries. done.
      * by rewrite filter_other_key.
    + assert (Hremoved : forall other,
                manual_entries other
                  (set_manual_expenses
                     (filter (fun e => me_id e <> expense_id)
                             (manual_expenses (data w)))
                     (manual_expenses_seq (data w))
                     (set_expenses
                        (filter (fun e => exp_id e <> exp_id entry)
                                (expenses (data w)))
                        (expenses_seq (data w)) (data w)))
                = if decide (other = expense_id) then []
                  else manual_entries other (data w)).
      { intros other. unfold manual_entries in *. simpl.
        destruct (decide (other = expense_id)) as [->|Hne].
        - rewrite filter_swap, Hentries.
          by rewrite filter_cons_False by (intros []; done).
        - rewrite list_filter_filter. apply filter_ext_in.
          intros e He. split; [tauto|]. intros [Htype Href].
          split; [done|]. intros Hkey.
          assert (e = entry) as ->.
          { apply (NoDup_fmap_eq exp_id (expenses (data w))); [|done| |done].
            - by apply insertion_order_keys_unique.
            - assert (Hin : entry ∈ filter (fun e => expense_type e = "manual"
                                                     /\ reference_id e
                                                        = Some expense_id)
                                      (expenses (data w)))
                by (rewrite Hentries; left).
              by apply list_elem_of_filter in Hin as [_ ?]. }
          assert (Hin : entry ∈ filter (fun e => expense_type e = "manual"
                                                 /\ reference_id e = Some expense_id)
                                  (expenses (data w)))
            by (rewrite Hentries; left).
          apply list_elem_of_filter in Hin as [[_ Href'] _].
          congruence. }
      split; [by rewrite Hremoved, decide_True|].
      split; [apply filter_same_key|]. split; [|exact Hkept].
      intros Hbijection other. rewrite Hremoved. simpl.
      destruct (Hbijection other) as [Hsame Hone].
      destruct (decide (other = expense_id)) as [->|Hne].
      * rewrite filter_same_key. simpl. split; [done|lia].
      * by rewrite filter_other_key.
Qed.

Lemma manual_expense_has_one_entry_until_deleted_witness :
  ledger_keys_issued empty_db
  /\ ledger_bijection empty_db
  /\ length (manual_entries 1
               (data (snd (run (create_manual_expense example_clock example_expense)
                             (mkWorld empty_db []))))) = 1%nat
  /\ ledger_bijection
       (data (snd (run (create_manual_expense example_clock example_expense)
                     (mkWorld empty_db []))))
  /\ manual_entries 1
       (data (snd (run (delete_manual_expense example_clock 1)
                     (snd (run (create_manual_expense example_clock example_expense)
                             (mkWorld empty_db [])))))) = [].
Proof.
  assert (Hempty : ledger_keys_issued (data (mkWorld empty_db [])))
    by apply ledger_keys_issued_empty.
  assert (Hbijection : ledger_bijection (data (mkWorld empty_db [])))
    by (intros expense_id; simpl; split; [done|lia]).
  split; [exact Hempty|]. split; [exact Hbijection|].
  destruct (manual_expense_has_one_entry_until_deleted example_clock
              (mkWorld empty_db []) Hempty) as [Hcreate _].
  destruct (run (create_manual_expense example_clock example_expense)
              (mkWorld empty_db [])) as [r w1] eqn:Hrun.
  pose proof Hrun as Hvalue. vm_compute in Hvalue.
  injection Hvalue as <- <-.
  destruct (Hcreate _ _ _ Hrun) as (Hone & _ & Hkept & Hissued).
  split; [exact Hone|]. split; [exact (Hkept Hbijection)|].
  match type of Hissued with ledger_keys_issued (data ?w) =>
    destruct (manual_expense_has_one_entry_until_deleted example_clock w Hissued)
      as [_ Hdelete]
  end.
  destruct (run (delete_manual_expense example_clock 1) _) as [r2 w2] eqn:Hrun2.
  pose proof Hrun2 as Hvalue. vm_compute in Hvalue.
  injection Hvalue as <- <-.
  destruct (Hdelete _ _ Hrun2) as [Hnone _].
  exact Hnone.
Defined.

(** ** Demo initialization *)

Lemma random_sample_submseteq {A} (rng : list nat) (population : list A) (k : nat) :
  random_sample rng population k ⊆+ population.
Proof.
  revert rng population.
  induction k as [|k IH]; intros rng population; simpl;
    [apply submseteq_nil_l|].
  destruct (population !! _) as [x|] eqn:Hx; [|apply submseteq_nil_l].
  etrans; [apply submseteq_skip, IH|].
  apply Permutation_submseteq. symmetry. by apply delete_Permutation.
Qed.

Lemma random_sample_length {A} (rng : list nat) (population : list A) (k : nat) :
  (k <= length population)%nat -> length (random_sample rng population k) = k.
Proof.
  revert rng population.
  induction k as [|k IH]; intros rng population Hk; simpl; [done|].
  assert (Hi : (hd 0%nat rng `mod` length population < length population)%nat)
    by (apply Nat.mod_upper_bound; lia).
  destruct (lookup_lt_is_Some_2 _ _ Hi) as [x Hx]. rewrite Hx. simpl.
  rewrite IH; [done|].
  rewrite length_delete by eauto. lia.
Qed.

Lemma pay_selected_nil (now : datetime) (rows : list EmployeePaymentStatus) :
  pay_selected now [] rows = rows.
Proof.
  unfold pay_selected. rewrite <- (list_fmap_id rows) at 2.
  apply list_fmap_ext. by intros _ r _.
Qed.

Lemma pay_selected_cons (now : datetime) (employee : EmployeePaymentStatus)
    (selected rows : list EmployeePaymentStatus) :
  pay_selected now selected
    (map (fun r => if decide (eps_id r = eps_id employee)
                   then mark_paid now r else r) rows)
  = pay_selected now (employee :: selected) rows.
Proof.
  unfold pay_selected. rewrite <- list_fmap_compose.
  apply list_fmap_ext. intros _ r _. simpl.
  destruct (decide (eps_id r = eps_id employee)) as [Heq|Hne].
  - rewrite (decide_True (P := eps_id r ∈ _ :: _)) by (rewrite Heq; left).
    by case_decide.
  - destruct (decide (eps_id r ∈ map eps_id selected)) as [Hin|Hout].
    + by rewrite decide_True by (by right).
    + rewrite decide_False; [done|].
      intros [?|?]%elem_of_cons; done.
Qed.

Lemma demo_payments_run (clk : Clock) (selected : list EmployeePaymentStatus)
    (paid_count : Z) (s : Session) :
  NoDup (map pos_name (positions (pending s))) ->
  fold_for selected paid_count (PaymentCycleService.demo_payment clk) s
  = (Ok (paid_count + Z.of_nat (length selected)),
     mkSession (committed s)
       (set_employee_payment_status
          (pay_selected (utcnow clk) selected (employee_payment_status (pending s)))
          (employee_payment_status_seq (pending s)) (pending s))
       (outbox s
        ++ map (demo_paid_message clk (positions (pending s))) selected)).
Proof.
  revert paid_count s.
  induction selected as [|employee selected IH]; intros paid_count s Hnodup.
  - simpl. rewrite pay_selected_nil, db_eta_status, app_nil_r, Z.add_0_r.
    by destruct s.
  - cbn [fold_for].
    set (s1 := mkSession (committed s)
                 (set_employee_payment_status
                    (map (fun r => if decide (eps_id r = eps_id employee)
                                   then mark_paid (utcnow clk) r else r)
                         (employee_payment_status (pending s)))
                    (employee_payment_status_seq (pending s)) (pending s))
                 (outbox s ++ [demo_paid_message clk (positions (pending s)) employee])).
    assert (Hstep : PaymentCycleService.demo_payment clk paid_count employee s
                    = (Ok (paid_count + 1), s1)).
    { unfold PaymentCycleService.demo_payment.
      rewrite (bind_ok _ _ _ _ _ (resolve_salary_run _ s Hnodup)).
      unfold update_status. by unfold_M. }
    rewrite (bind_ok _ _ _ _ _ Hstep).
    rewrite (IH (paid_count + 1) s1 Hnodup). subst s1. simpl.
    rewrite pay_selected_cons, <- app_assoc. simpl.
    f_equal. f_equal. lia.
Qed.

Lemma paid_after_pay_selected (now : datetime)
    (selected rows : list EmployeePaymentStatus) :
  length (filter (fun r => paid r = true) (pay_selected now selected rows))
  = (length (filter (fun r => paid r = true) rows)
     + length (filter (fun r => eps_id r ∈ map eps_id selected)
                      (filter (fun r => paid r = false) rows)))%nat.
Proof.
  unfold pay_selected.
  induction rows as [|r rows IH]; [done|].
  cbn [map]. rewrite !filter_cons.
  destruct (decide (eps_id r ∈ map eps_id selected)) as [Hin|Hout];
    destruct (paid r) eqn:Hpaid; simpl;
    repeat (case_decide; try done); simpl;
    rewrite ?filter_cons, ?decide_True, ?decide_False by done; simpl; lia.
Qed.

(** C8, as the specification states it, fails: of three unpaid employees
    the demo initialization pays one, where half rounded up is two. *)
Lemma demo_initialization_rounds_down :
  let result := run (PaymentCycleService.initialize_demo_payments example_clock [2%nat])
                  example_unpaid_world in
  length (filter (fun r => paid r = false)
                 (employee_payment_status (data example_unpaid_world))) = 3%nat
  /\ fst result = Ok 1
  /\ length (filter (fun r => paid r = true)
                    (employee_payment_status (data (snd result)))) = 1%nat
  /\ half_rounded_up 3 = 2.
Proof. vm_compute. done. Qed.

(** C8, amended: when some employee is unpaid, primary keys and position
    names being unique, the demo initialization pays
    max(1, floor(n / 2)) of the n unpaid employees, those that the random
    sample picks among them, whatever the draws: it answers that count, the
    paid rows grow by it, the picked rows and no others are marked paid,
    and one message per picked employee carries the salary that the
    position lookup resolves, 0 when the position is missing. *)
Theorem demo_initialization_pays_half_rounded_down
    (clk : Clock) (rng : list nat) (w : World) :
  let rows := employee_payment_status (data w) in
  let unpaid := filter (fun r => paid r = false) rows in
  let count := Nat.max 1 (length unpaid / 2) in
  let selected := random_sample rng unpaid count in
  let result := run (PaymentCycleService.initialize_demo_payments clk rng) w in
  NoDup (map eps_id rows) ->
  NoDup (map pos_name (positions (data w))) ->
  unpaid <> [] ->
  fst result = Ok (Z.of_nat count)
  /\ length selected = count
  /\ selected ⊆+ unpaid
  /\ employee_payment_status (data (snd result))
     = pay_selected (utcnow clk) selected rows
  /\ length (filter (fun r => paid r = true)
                    (employee_payment_status (data (snd result))))
     = (length (filter (fun r => paid r = true) rows) + count)%nat
  /\ sent (snd result)
     = sent w ++ map (demo_paid_message clk (positions (data w))) selected.
Proof.
  intros rows unpaid count selected result Hkeys Hnames Hsome.
  assert (Hcount : Z.to_nat (Z.max 1 (Z.of_nat (length unpaid) / 2)) = count).
  { subst count. rewrite <- (Nat2Z.inj_div _ 2). lia. }
  assert (Hle : (count <= length unpaid)%nat).
  { subst count. destruct unpaid as [|r rest]; [done|]. simpl length.
    pose proof (Nat.Div0.div_le_upper_bound (S (length rest)) 2 (S (length rest))).
    lia. }
  assert (Hlen : length selected = count) by by apply random_sample_length.
  assert (Hsub : selected ⊆+ unpaid) by apply random_sample_submseteq.
  assert (Hrun : result
                 = (Ok (Z.of_nat count),
                    mkWorld
                      (set_employee_payment_status
                         (pay_selected (utcnow clk) selected rows)
                         (employee_payment_status_seq (data w)) (data w))
                      (sent w ++ map (demo_paid_message clk (positions (data w)))
                                     selected))).
  { subst result. unfold run, async_session, close. simpl.
    unfold PaymentCycleService.initialize_demo_payments.
    set (s := mkSession (data w) (data w) (sent w)).
    rewrite (bind_ok _ _ s s unpaid) by done.
    destruct unpaid as [|r rest] eqn:Hunpaid; [done|].
    cbv zeta. rewrite Hcount. fold selected.
    rewrite (bind_ok _ _ _ _ _ (demo_payments_run clk selected 0 s Hnames)).
    unfold_M. by rewrite Hlen. }
  rewrite Hrun. simpl.
  split; [done|]. split; [done|]. split; [done|]. split; [done|].
  split; [|done].
  rewrite paid_after_pay_selected. f_equal.
  rewrite <- Hlen. apply selected_are_counted_once; [|done].
  eapply sublist_NoDup; [exact Hkeys|].
  apply fmap_sublist, sublist_filter.
Qed.

Lemma demo_initialization_pays_half_rounded_down_witness :
  fst (run (PaymentCycleService.initialize_demo_payments example_clock [2%nat])
         example_unpaid_world) = Ok 1
  /\ sent (snd (run (PaymentCycleService.initialize_demo_payments example_clock
                       [2%nat]) example_unpaid_world))
     = [("employee-paid-queue",
         EmployeePaid "E3" 0%Q None 3 2025 (utcnow example_clock))].
Proof.
  assert (Hkeys : NoDup (map eps_id (employee_payment_status
                                       (data example_unpaid_world))))
    by compute_done.
  assert (Hnames : NoDup (map pos_name (positions (data example_unpaid_world))))
    by compute_done.
  assert (Hsome : filter (fun r => paid r = false)
                    (employee_payment_status (data example_unpaid_world)) <> [])
    by (vm_compute; done).
  destruct (demo_initialization_pays_half_rounded_down example_clock [2%nat]
              example_unpaid_world Hkeys Hnames Hsome)
    as (Hcount & _ & _ & _ & _ & Hsent).
  split; [exact Hcount|].
  rewrite Hsent. vm_compute. reflexivity.
Defined.

(** ** Listing the ledger *)

Lemma date_leb_spec (a b : date) :
  date_leb a b = true <->
  year a < year b
  \/ (year a = year b
      /\ (month a < month b \/ (month a = month b /\ day a <= day b))).
Proof.
  unfold date_leb, date_ltb, date_eqb.
  destruct (Z.ltb_spec (year a) (year b)), (Z.eqb_spec (year a) (year b)),
    (Z.ltb_spec (month a) (month b)), (Z.eqb_spec (month a) (month b)),
    (Z.ltb_spec (day a) (day b)), (Z.eqb_spec (day a) (day b));
    simpl; split; intros; try done; try lia.
Qed.

#[global] Instance date_desc_trans : Transitive date_desc.
Proof.
  intros a b c. unfold date_desc. rewrite !date_leb_spec. lia.
Qed.

#[global] Instance date_desc_total : Total date_desc.
Proof.
  intros a b. unfold date_desc. rewrite !date_leb_spec. lia.
Qed.

Lemma example_order_by_contract : order_by_contract example_order_by.
Proof.
  intros rows. unfold example_order_by. split.
  - apply merge_sort_Permutation.
  - apply (StronglySorted_merge_sort date_desc).
Qed.

Lemma get_all_expenses_run (order_by : list Expense -> list Expense)
    (max_count : Z) (limit offset : option Z) (w : World) :
  run (ExpenseService.get_all_expenses order_by max_count limit offset) w
  = (limit_offset max_count
       (if truthy_int limit then limit else None)
       (if truthy_int offset then offset else None)
       (order_by (expenses (data w))),
     w).
Proof.
  unfold ExpenseService.get_all_expenses. unfold_M. by rewrite world_eta.
Qed.

(** C10: a limit of 0 is no limit and an offset of 0 is no offset, as when
    they are not given; the route called with both at 0 answers the whole
    ledger. *)
Theorem falsy_pagination_is_ignored
    (order_by : list Expense -> list Expense) (max_count : Z)
    (limit offset : option Z) (w : World) :
  order_by_contract order_by ->
  run (ExpenseService.get_all_expenses order_by max_count (Some 0) offset) w
  = run (ExpenseService.get_all_expenses order_by max_count None offset) w
  /\ run (ExpenseService.get_all_expenses order_by max_count limit (Some 0)) w
     = run (ExpenseService.get_all_expenses order_by max_count limit None) w
  /\ exists rows,
       run (get_all_expenses order_by max_count 0 0) w = (Ok rows, w)
       /\ rows ≡ₚ expenses (data w)
       /\ length rows = length (expenses (data w)).
Proof.
  intros Hsort. unfold get_all_expenses. rewrite !get_all_expenses_run. simpl.
  split; [done|]. split; [done|].
  exists (order_by (expenses (data w))).
  destruct (Hsort (expenses (data w))) as [Hperm _].
  split; [done|]. split; [done|]. by rewrite Hperm.
Qed.

Lemma falsy_pagination_is_ignored_witness :
  exists rows,
    run (get_all_expenses example_order_by (2 ^ 31 - 1) 0 0) example_ledger_world
    = (Ok rows, example_ledger_world)
    /\ length rows = 2%nat.
Proof.
  destruct (falsy_pagination_is_ignored example_order_by (2 ^ 31 - 1) (Some 0)
              (Some 0) example_ledger_world example_order_by_contract)
    as (_ & _ & rows & Hrun & _ & Hlen).
  exists rows. split; [exact Hrun|]. rewrite Hlen. reflexivity.
Defined.







(** * Further properties *)

(** ** Consumers *)

Lemma process_employee_deleted_cases
    (validate : gmap string json -> res EmployeeDeleted) (body : Body) (w : World) :
  run (process_employee_deleted validate body) w =
  match body with
  | Malformed => (Ok tt, w)
  | Object payload =>
      match validate (normalize_id payload) with
      | Raise _ => (Ok tt, w)
      | Ok ev =>
          (Ok tt,
           mkWorld
             (set_employee_payment_status
                (filter (fun r => employee_id r <> ed_id ev)
                        (employee_payment_status (data w)))
                (employee_payment_status_seq (data w)) (data w))
             (sent w))
      end
  end.
Proof.
  unfold process_employee_deleted, json_loads, delete_status.
  destruct body as [|payload]; unfold_M; [by rewrite world_eta|].
  destruct (validate (normalize_id payload)) as [ev|e]; simpl;
    by rewrite ?world_eta.
Qed.

Lemma process_employee_role_changed_cases
    (validate : gmap string json -> res EmployeeRoleChanged)
    (clk : Clock) (body : Body) (w : World) :
  run (process_employee_role_changed validate clk body) w =
  match body with
  | Malformed => (Ok tt, w)
  | Object payload =>
      match validate (normalize_id payload) with
      | Raise _ => (Ok tt, w)
      | Ok ev =>
          match filter (fun r => employee_id r = rc_id ev)
                       (employee_payment_status (data w)) with
          | [r] =>
              if varchar 100 (rc_role ev) then
                (Ok tt,
                 mkWorld
                   (set_employee_payment_status
                      (map (fun x => if decide (eps_id x = eps_id r)
                                     then set_position_name (rc_role ev)
                                            (utcnow clk) x
                                     else x)
                           (employee_payment_status (data w)))
                      (employee_payment_status_seq (data w)) (data w))
                   (sent w))
              else (Ok tt, w)
          | _ => (Ok tt, w)
          end
      end
  end.
Proof.
  unfold process_employee_role_changed, select_status, json_loads, update_status.
  destruct body as [|payload]; unfold_M; [by rewrite world_eta|].
  destruct (validate (normalize_id payload)) as [ev|e]; simpl;
    [|by rewrite world_eta].
  destruct (filter _ (employee_payment_status (data w))) as [|r [|r' rows]];
    simpl; rewrite ?world_eta; try done.
  destruct (varchar 100 (rc_role ev)); simpl; by rewrite ?world_eta.
Qed.

(** X1: a deletion event that validates removes every PaymentStatus row of
    its employee and no other row, publishes nothing and returns normally;
    delivered again it changes nothing, and for an employee without a row
    it changes nothing the first time. *)
Theorem employee_deleted_removes_the_row
    (validate : gmap string json -> res EmployeeDeleted)
    (payload : gmap string json) (ev : EmployeeDeleted) (w : World) :
  validate (normalize_id payload) = Ok ev ->
  let result := run (process_employee_deleted validate (Object payload)) w in
  let rows := employee_payment_status (data w) in
  let rows' := employee_payment_status (data (snd result)) in
  fst result = Ok tt
  /\ filter (fun r => employee_id r = ed_id ev) rows' = []
  /\ filter (fun r => employee_id r <> ed_id ev) rows'
     = filter (fun r => employee_id r <> ed_id ev) rows
  /\ sent (snd result) = sent w
  /\ run (process_employee_deleted validate (Object payload)) (snd result)
     = (Ok tt, snd result)
  /\ (filter (fun r => employee_id r = ed_id ev) rows = [] -> snd result = w).
Proof.
  intros Hev result rows rows'. subst result rows rows'.
  assert (Hidem : forall rows : list EmployeePaymentStatus,
            filter (fun r => employee_id r <> ed_id ev)
                   (filter (fun r => employee_id r <> ed_id ev) rows)
            = filter (fun r => employee_id r <> ed_id ev) rows).
  { intros rows. by apply list_filter_filter_l. }
  rewrite !process_employee_deleted_cases, Hev. simpl.
  split; [done|]. split.
  { apply filter_none. intros r [Hne _]%list_elem_of_filter. done. }
  split; [apply Hidem|]. split; [done|].
  rewrite ?Hev. simpl. rewrite Hidem. split; [done|].
  intros Hnone. rewrite filter_all.
  - by rewrite db_eta_status, world_eta.
  - intros r Hr Heq.
    eapply (filter_nil_not_elem_of _ _ r Hnone); done.
Qed.

Lemma employee_deleted_removes_the_row_witness :
  filter (fun r => employee_id r = "E1")
    (employee_payment_status
       (data (snd (run (process_employee_deleted example_validate_deleted
                          (Object (<["employeeId" := JStr "E1"]> ∅)))
                     example_world)))) = []
  /\ length (employee_payment_status
               (data (snd (run (process_employee_deleted example_validate_deleted
                                  (Object (<["employeeId" := JStr "E1"]> ∅)))
                             example_world)))) = 1%nat.
Proof.
  destruct (employee_deleted_removes_the_row example_validate_deleted
              (<["employeeId" := JStr "E1"]> ∅) (mkEmployeeDeleted "E1")
              example_world) as (_ & Hgone & _).
  - vm_compute. reflexivity.
  - split; [exact Hgone|]. vm_compute. reflexivity.
Defined.

(** X2: a message whose body does not decode or whose payload does not
    validate is dropped by each of the three consumers: the handler returns
    normally and neither the database nor the outbox changes. *)
Theorem consumers_drop_rejected_messages
    (validate_registered : gmap string json -> res EmployeeRegistered)
    (validate_deleted : gmap string json -> res EmployeeDeleted)
    (validate_role_changed : gmap string json -> res EmployeeRoleChanged)
    (clk : Clock) (body : Body) (w : World) :
  (rejected validate_registered body ->
   run (process_employee_registered validate_registered clk body) w = (Ok tt, w))
  /\ (rejected validate_deleted body ->
      run (process_employee_deleted validate_deleted body) w = (Ok tt, w))
  /\ (rejected validate_role_changed body ->
      run (process_employee_role_changed validate_role_changed clk body) w
      = (Ok tt, w)).
Proof.
  rewrite process_employee_registered_cases, process_employee_deleted_cases,
    process_employee_role_changed_cases.
  destruct body as [|payload]; simpl; [done|].
  repeat split; intros [e ->]; done.
Qed.

Lemma consumers_drop_rejected_messages_witness :
  run (process_employee_registered example_validate_registered example_clock
         (Object (<["id" := JNum 7]> ∅))) example_world = (Ok tt, example_world)
  /\ run (process_employee_deleted example_validate_deleted Malformed) example_world
     = (Ok tt, example_world).
Proof.
  destruct (consumers_drop_rejected_messages example_validate_registered
              example_validate_deleted example_validate_role_changed example_clock
              (Object (<["id" := JNum 7]> ∅)) example_world) as (Hreg & _ & _).
  destruct (consumers_drop_rejected_messages example_validate_registered
              example_validate_deleted example_validate_role_changed example_clock
              Malformed example_world) as (_ & Hdel & _).
  split.
  - apply Hreg. simpl. eexists. vm_compute. reflexivity.
  - apply Hdel. simpl. exact Logic.I.
Defined.

Lemma normalize_id_legacy (payload : gmap string json) (v : json) :
  payload !! "employeeId" = Some v -> payload !! "id" = None ->
  normalize_id payload = <["id" := v]> payload
  /\ normalize_id (<["id" := v]> payload) = <["id" := v]> payload.
Proof.
  intros Hlegacy Hid. unfold normalize_id.
  rewrite Hlegacy, Hid, lookup_insert_eq, lookup_insert_ne by done.
  by rewrite Hlegacy.
Qed.

(** X3: the legacy identity key is an alias. A payload that carries the
    identity under [employeeId] only is handled by each consumer exactly as
    the same payload with that identity also under [id]; and where [id] is
    present it is used as it is, whatever [employeeId] holds. *)
Theorem legacy_identity_key_is_an_alias
    (validate_registered : gmap string json -> res EmployeeRegistered)
    (validate_deleted : gmap string json -> res EmployeeDeleted)
    (validate_role_changed : gmap string json -> res EmployeeRoleChanged)
    (clk : Clock) (payload : gmap string json) (v : json) (w : World) :
  payload !! "employeeId" = Some v ->
  payload !! "id" = None ->
  run (process_employee_registered validate_registered clk (Object payload)) w
  = run (process_employee_registered validate_registered clk
           (Object (<["id" := v]> payload))) w
  /\ run (process_employee_deleted validate_deleted (Object payload)) w
     = run (process_employee_deleted validate_deleted
              (Object (<["id" := v]> payload))) w
  /\ run (process_employee_role_changed validate_role_changed clk (Object payload)) w
     = run (process_employee_role_changed validate_role_changed clk
              (Object (<["id" := v]> payload))) w
  /\ (forall other : gmap string json,
        is_Some (other !! "id") -> normalize_id other = other).
Proof.
  intros Hlegacy Hid.
  destruct (normalize_id_legacy payload v Hlegacy Hid) as [Hfill Hkeep].
  rewrite !process_employee_registered_cases, !process_employee_deleted_cases,
    !process_employee_role_changed_cases, Hfill, Hkeep.
  repeat split; try done.
  intros other [x Hx]. unfold normalize_id. rewrite Hx.
  by destruct (other !! "employeeId").
Qed.

Lemma legacy_identity_key_is_an_alias_witness :
  run (process_employee_registered example_validate_registered example_clock
         (Object example_registered_payload)) example_world
  = run (process_employee_registered example_validate_registered example_clock
           (Object (<["id" := JStr "E2"]> example_registered_payload)))
      example_world.
Proof.
  destruct (legacy_identity_key_is_an_alias example_validate_registered
              example_validate_deleted example_validate_role_changed
              example_clock example_registered_payload (JStr "E2") example_world)
    as (Hreg & _).
  - vm_compute. reflexivity.
  - vm_compute. reflexivity.
  - exact Hreg.
Defined.




(** ** Payment confirmation and dismissal *)

Lemma filter_fmap_stable {A} (P : A -> Prop) `{forall x, Decision (P x)}
    (g : A -> A) (l : list A) :
  (forall x, P (g x) <-> P x) -> filter P (map g l) = map g (filter P l).
Proof.
  intros Hg. induction l as [|x l IH]; [done|].
  cbn [map]. rewrite !filter_cons.
  destruct (decide (P x)) as [Hx|Hx].
  - rewrite decide_True by by apply Hg. cbn [map]. by rewrite IH.
  - rewrite decide_False by by rewrite Hg. done.
Qed.



(** X6: confirming a payment again is allowed and the last confirmation
    wins: after confirmations at two times the database is the one that
    the second confirmation alone would leave, the answer is the row
    stamped with the second time, and each confirmation has published its
    three messages. *)
Theorem confirm_payment_again_restamps (clk clk' : Clock) (employee_id_ : string)
    (payment_status : EmployeePaymentStatus) (w : World) :
  filter (fun r => employee_id r = employee_id_) (employee_payment_status (data w))
  = [payment_status] ->
  NoDup (map pos_name (positions (data w))) ->
  let once := run (confirm_payment clk employee_id_
                     (mkPaymentConfirmation employee_id_)) w in
  let twice := run (confirm_payment clk' employee_id_
                      (mkPaymentConfirmation employee_id_)) (snd once) in
  fst twice = Ok (mark_paid (utcnow clk') payment_status)
  /\ data (snd twice)
     = data (snd (run (confirm_payment clk' employee_id_
                         (mkPaymentConfirmation employee_id_)) w))
  /\ length (sent (snd twice)) = (length (sent w) + 6)%nat.
Proof.
  intros Hrow Hnames once twice. subst once twice.
  rewrite (confirm_payment_marks_paid clk employee_id_ payment_status w Hrow Hnames).
  cbn [snd].
  set (w1 := mkWorld _ _).
  assert (Hrow1 : filter (fun r => employee_id r = employee_id_)
                    (employee_payment_status (data w1))
                  = [mark_paid (utcnow clk) payment_status]).
  { subst w1. simpl. rewrite filter_fmap_stable.
    - rewrite Hrow. simpl. by rewrite decide_True.
    - intros x. by case_decide. }
  rewrite (confirm_payment_marks_paid clk' employee_id_ _ w1 Hrow1 Hnames).
  rewrite (confirm_payment_marks_paid clk' employee_id_ payment_status w Hrow Hnames).
  subst w1. simpl. split; [done|]. split.
  - unfold set_employee_payment_status. simpl. f_equal.
    rewrite <- list_fmap_compose. apply list_fmap_ext. intros i x _. simpl.
    destruct (decide (eps_id x = eps_id payment_status)); simpl;
      [by rewrite decide_True|by rewrite decide_False].
  - rewrite !length_app. simpl. lia.
Qed.

Lemma confirm_payment_again_restamps_witness :
  fst (run (confirm_payment example_clock "E3" (mkPaymentConfirmation "E3"))
         (snd (run (confirm_payment example_clock "E3" (mkPaymentConfirmation "E3"))
                 example_world)))
  = Ok (mkEmployeePaymentStatus 2 "E3" (Some "RECEPTIONIST") true
          (Some (utcnow example_clock)) (DateTime (Date 2025 2 1) 0)
          (utcnow example_clock)).
Proof.
  destruct (confirm_payment_again_restamps example_clock example_clock "E3"
              (mkEmployeePaymentStatus 2 "E3" (Some "RECEPTIONIST") true
                 (Some (DateTime (Date 2025 2 20) 0))
                 (DateTime (Date 2025 2 1) 0) (DateTime (Date 2025 2 20) 0))
              example_world) as (Hanswer & _).
  - vm_compute. reflexivity.
  - compute_done.
  - exact Hanswer.
Defined.





(** ** The payment cycle *)

Lemma reset_all_payment_status_session (clk : Clock) (s : Session) :
  config_singleton (pending s) ->
  PaymentCycleService.reset_all_payment_status clk s
  = (Ok (Z.of_nat (length (filter (fun r => paid r = true)
                                  (employee_payment_status (pending s))))),
     let d := reset_db clk (current_config clk (pending s))
                (pending (ensure_config clk s)) in
     mkSession d d (outbox s)).
Proof.
  intros Hone. unfold config_singleton in Hone.
  destruct (payment_cycle_config (pending s)) as [|c [|c' cs]] eqn:Hcfg;
    simpl in Hone; [| |lia].
  - unfold PaymentCycleService.reset_all_payment_status,
      PaymentCycleService.get_or_create_config, update_config_row, reset_db,
      current_config, ensure_config.
    unfold_M. rewrite !Hcfg. simpl. rewrite !Hcfg. simpl.
    by rewrite decide_True.
  - rewrite (reset_all_payment_status_run clk s c Hcfg).
    unfold current_config, ensure_config. by rewrite Hcfg.
Qed.

Lemma no_paid_row_after_reset (now : datetime) (rows : list EmployeePaymentStatus) :
  filter (fun r => paid r = true)
    (map (fun r => if decide (paid r = true) then mark_unpaid now r else r) rows)
  = [].
Proof.
  apply filter_none. intros r Hr Hpaid.
  pose proof (reset_leaves_no_row_paid now rows) as Hall.
  eapply Forall_forall in Hall; [|exact Hr]. simpl in Hall. congruence.
Qed.

(** X9: the manual reset runs whatever the date. With at most one
    configuration row it answers the number of paid rows, leaves no row
    paid and stamps the configuration with today; a second manual reset
    answers 0, and the dated check on any day of the same month then does
    nothing: a manual reset takes the place of that month's automatic
    one. *)
Theorem manual_reset_takes_the_place_of_the_dated_reset (clk : Clock) (w : World) :
  config_singleton (data w) ->
  let result := run (PaymentCycleService.reset_all_payment_status clk) w in
  fst result
  = Ok (Z.of_nat (length (filter (fun r => paid r = true)
                                 (employee_payment_status (data w)))))
  /\ employee_payment_status (data (snd result))
     = map (fun r => if decide (paid r = true) then mark_unpaid (utcnow clk) r else r)
           (employee_payment_status (data w))
  /\ payment_cycle_config (data (snd result))
     = [set_last_reset_date (today clk) (utcnow clk) (current_config clk (data w))]
  /\ (forall clk',
        fst (run (PaymentCycleService.reset_all_payment_status clk') (snd result))
        = Ok 0)
  /\ (forall clk',
        year (today clk') = year (today clk) ->
        month (today clk') = month (today clk) ->
        run (PaymentCycleService.check_and_auto_reset clk') (snd result)
        = (Ok None, snd result)).
Proof.
  intros Hone result. subst result.
  unfold run, async_session, close. simpl.
  set (s := mkSession (data w) (data w) (sent w)).
  rewrite (reset_all_payment_status_session clk s Hone). cbv zeta. simpl.
  assert (Hrows : employee_payment_status (pending (ensure_config clk s))
                  = employee_payment_status (data w)).
  { unfold ensure_config. simpl. by destruct (payment_cycle_config (data w)). }
  rewrite Hrows.
  split; [done|]. split; [done|]. split; [done|]. split.
  - intros clk'. unfold run, async_session, close. simpl.
    by rewrite no_paid_row_after_reset.
  - intros clk' Hy Hm. unfold run, async_session, close. simpl.
    unfold PaymentCycleService.check_and_auto_reset.
    set (s1 := mkSession _ _ _).
    assert (Hone1 : (length (payment_cycle_config (pending s1)) <= 1)%nat)
      by (simpl; lia).
    rewrite (bind_ok _ _ _ _ _ (should_reset_payments_run clk' s1 Hone1)).
    unfold should_reset_spec, current_config, ensure_config. simpl.
    rewrite Hy, Hm, !Z.eqb_refl, andb_false_r. done.
Qed.

Lemma manual_reset_takes_the_place_of_the_dated_reset_witness :
  fst (run (PaymentCycleService.reset_all_payment_status example_clock)
         example_world) = Ok 1
  /\ fst (run (PaymentCycleService.check_and_auto_reset example_clock)
            (snd (run (PaymentCycleService.reset_all_payment_status example_clock)
                    example_world))) = Ok None.
Proof.
  assert (Hone : config_singleton (data example_world))
    by (unfold config_singleton; simpl; lia).
  destruct (manual_reset_takes_the_place_of_the_dated_reset example_clock
              example_world Hone) as (Hcount & _ & _ & _ & Hcheck).
  split; [exact Hcount|].
  by rewrite (Hcheck example_clock eq_refl eq_refl).
Defined.

(** X10: a reset day past the end of the current month means no reset in
    that month. With at most one configuration row and a valid date, when
    the month of today has fewer days than the configured reset day, the
    dated check answers that nothing was done and no row changes, whenever
    the last reset was. *)
Theorem reset_day_past_month_end_skips_the_month (clk : Clock) (w : World) :
  config_singleton (data w) ->
  valid_date (today clk) = true ->
  days_in_month (year (today clk)) (month (today clk))
  < reset_day (current_config clk (data w)) ->
  fst (run (PaymentCycleService.check_and_auto_reset clk) w) = Ok None
  /\ employee_payment_status
       (data (snd (run (PaymentCycleService.check_and_auto_reset clk) w)))
     = employee_payment_status (data w).
Proof.
  intros Hone Hvalid Hshort.
  unfold run, async_session, close. simpl.
  unfold PaymentCycleService.check_and_auto_reset.
  set (s := mkSession (data w) (data w) (sent w)).
  rewrite (bind_ok _ _ _ _ _ (should_reset_payments_run clk s Hone)). simpl.
  assert (Hdue : should_reset_spec (current_config clk (data w)) (today clk) = false).
  { unfold should_reset_spec. apply andb_false_iff. left.
    apply Z.leb_gt. unfold valid_date in Hvalid.
    apply andb_true_iff in Hvalid as [_ Hday]. apply Z.leb_le in Hday. lia. }
  rewrite Hdue. unfold ret. simpl. split; [done|].
  unfold ensure_config. simpl. by destruct (payment_cycle_config (data w)).
Qed.

Lemma reset_day_past_month_end_skips_the_month_witness :
  fst (run (PaymentCycleService.check_and_auto_reset
              (mkClock (DateTime (Date 2025 4 30) 0) (Date 2025 4 30)))
         (snd (run (update_payment_cycle_config example_clock
                      (mkPaymentCycleConfigUpdate 31)) example_world)))
  = Ok None.
Proof.
  refine (proj1 (reset_day_past_month_end_skips_the_month _ _ _ _ _)).
  - unfold config_singleton. vm_compute. lia.
  - reflexivity.
  - vm_compute. reflexivity.
Defined.

Lemma get_next_reset_date_session (clk : Clock) (s : Session) :
  config_singleton (pending s) ->
  PaymentCycleService.get_next_reset_date clk s
  = (Ok (let config := current_config clk (pending s) in
         let today_ := today clk in
         if day today_ <? reset_day config then
           new_date (year today_) (month today_) (reset_day config)
         else if month today_ =? 12 then
           new_date (year today_ + 1) 1 (reset_day config)
         else new_date (year today_) (month today_ + 1) (reset_day config)),
     ensure_config clk s).
Proof.
  intros Hone. unfold PaymentCycleService.get_next_reset_date.
  rewrite (bind_ok _ _ _ _ _ (get_or_create_config_run clk s Hone)).
  cbv zeta.
  destruct (day (today clk) <? reset_day (current_config clk (pending s)));
    [done|].
  by destruct (month (today clk) =? 12).
Qed.

Lemma new_date_Some (y m d : Z) (r : date) :
  new_date y m d = Some r -> r = Date y m d /\ valid_date r = true.
Proof.
  unfold new_date. destruct (valid_date (Date y m d)) eqn:Hvalid; [|done].
  by intros [= <-].
Qed.

Lemma days_in_month_bounds (y m : Z) : 28 <= days_in_month y m <= 31.
Proof.
  unfold days_in_month.
  destruct (m =? 2); [destruct (is_leap y); lia|].
  destruct ((m =? 4) || (m =? 6) || (m =? 9) || (m =? 11)); lia.
Qed.

(** X11: the next reset date. With at most one configuration row and a
    valid date for today, [get_next_reset_date] raises nothing through the
    session; when it answers a date, that date is valid, falls on the
    configured reset day and lies strictly after today; it fails in the
    date constructor only for a reset day outside 1..28 or in the last
    year of the calendar; and it does fail on January 30 and 31 when the
    reset day is 30 or 31 and has come, the next month being February. *)
Theorem next_reset_date_is_later_or_fails (clk : Clock) (w : World) :
  config_singleton (data w) ->
  valid_date (today clk) = true ->
  let config := current_config clk (data w) in
  exists answer,
    fst (run (PaymentCycleService.get_next_reset_date clk) w) = Ok answer
    /\ match answer with
       | Some next =>
           valid_date next = true
           /\ day next = reset_day config
           /\ date_ltb (today clk) next = true
       | None =>
           reset_day config < 1 \/ 28 < reset_day config
           \/ year (today clk) = 9999
       end
    /\ (month (today clk) = 1 -> 30 <= reset_day config ->
        reset_day config <= day (today clk) -> answer = None).
Proof.
  intros Hone Hvalid config. subst config.
  unfold run, async_session, close. simpl.
  set (s := mkSession (data w) (data w) (sent w)).
  rewrite (get_next_reset_date_session clk s Hone). cbv zeta. simpl.
  set (config := current_config clk (data w)).
  eexists. split; [reflexivity|].
  unfold valid_date in Hvalid.
  repeat (apply andb_true_iff in Hvalid as [Hvalid ?]).
  repeat match goal with
         | H : (_ <=? _) = true |- _ => apply Z.leb_le in H
         end.
  pose proof (days_in_month_bounds (year (today clk)) (month (today clk))).
  split.
  - destruct (Z.ltb_spec (day (today clk)) (reset_day config)) as [Hlt|Hge];
      [|destruct (Z.eqb_spec (month (today clk)) 12) as [Hdec|Hdec]];
      match goal with
      | |- match new_date ?y ?m ?d with _ => _ end =>
          pose proof (days_in_month_bounds y m);
          destruct (new_date y m d) as [next|] eqn:Hnew
      end.
    + apply new_date_Some in Hnew as [-> Hnext].
      split; [done|]. split; [done|].
      unfold date_ltb. simpl. rewrite Z.ltb_irrefl, !Z.eqb_refl. simpl.
      apply orb_true_iff. right. by apply Z.ltb_lt.
    + unfold new_date, valid_date in Hnew. simpl in Hnew.
      destruct (Z.leb_spec (reset_day config)
                  (days_in_month (year (today clk)) (month (today clk))));
        [|lia].
      repeat match type of Hnew with
             | context [?a <=? ?b] =>
                 destruct (Z.leb_spec a b); simpl in Hnew; try lia
             end; done.
    + apply new_date_Some in Hnew as [-> Hnext].
      split; [done|]. split; [done|].
      unfold date_ltb. simpl. apply orb_true_iff. left. apply Z.ltb_lt. lia.
    + unfold new_date, valid_date in Hnew. simpl in Hnew.
      repeat match type of Hnew with
             | context [?a <=? ?b] =>
                 destruct (Z.leb_spec a b); simpl in Hnew; try lia
             end; done.
    + apply new_date_Some in Hnew as [-> Hnext].
      split; [done|]. split; [done|].
      unfold date_ltb. simpl. rewrite Z.ltb_irrefl, Z.eqb_refl. simpl.
      apply orb_true_iff. left. apply Z.ltb_lt. lia.
    + unfold new_date, valid_date in Hnew. simpl in Hnew.
      repeat match type of Hnew with
             | context [?a <=? ?b] =>
                 destruct (Z.leb_spec a b); simpl in Hnew; try lia
             end; done.
  - intros Hjan Hlate Hcome.
    destruct (Z.ltb_spec (day (today clk)) (reset_day config)); [lia|].
    rewrite Hjan. simpl.
    unfold new_date, valid_date. simpl.
    assert (Hfebruary : days_in_month (year (today clk)) (1 + 1) <= 29).
    { unfold days_in_month. simpl. destruct (is_leap (year (today clk))); lia. }
    destruct (Z.leb_spec (reset_day config)
                (days_in_month (year (today clk)) (1 + 1))) as [Hfeb|Hfeb];
      [lia|].
    by rewrite !andb_false_r.
Qed.

Lemma next_reset_date_is_later_or_fails_witness :
  fst (run (PaymentCycleService.get_next_reset_date example_clock) example_world)
  = Ok (Some (Date 2025 4 10)).
Proof.
  destruct (next_reset_date_is_later_or_fails example_clock example_world)
    as (answer & Hanswer & _).
  - unfold config_singleton. simpl. lia.
  - reflexivity.
  - rewrite Hanswer. vm_compute in Hanswer. congruence.
Defined.

Lemma update_config_session (clk : Clock) (reset_day_ : Z) (s : Session) :
  config_singleton (pending s) ->
  PaymentCycleService.update_config clk reset_day_ s
  = (let stored := set_reset_day reset_day_ (utcnow clk)
                     (current_config clk (pending s)) in
     let d := set_payment_cycle_config [stored]
                (payment_cycle_config_seq (pending (ensure_config clk s)))
                (pending (ensure_config clk s)) in
     (Ok stored, mkSession d d (outbox s))).
Proof.
  intros Hone. unfold PaymentCycleService.update_config.
  rewrite (bind_ok _ _ _ _ _ (get_or_create_config_run clk s Hone)).
  unfold update_config_row, current_config, ensure_config.
  unfold config_singleton in Hone.
  destruct (payment_cycle_config (pending s)) as [|c [|c' cs]] eqn:Hcfg;
    simpl in Hone; [| |lia]; unfold_M; rewrite ?Hcfg; simpl;
    by rewrite decide_True.
Qed.

(** X12: the configuration route. A reset day outside 1..31 is refused
    before the route runs and nothing changes; the route's own range check
    never answers. A reset day within 1..31 is stored in the one
    configuration row, created with the defaults if there was none: the
    date of the last reset and the payment rows are left as they were, and
    a later [get_or_create_config] answers the stored row without
    writing. *)
Theorem update_payment_cycle_config_round_trip (clk clk' : Clock)
    (config_data : PaymentCycleConfigUpdate) (w : World) :
  config_singleton (data w) ->
  let result := run (update_payment_cycle_config clk config_data) w in
  let stored := set_reset_day (pu_reset_day config_data) (utcnow clk)
                  (current_config clk (data w)) in
  (forall detail, fst result <> Raise (HTTPException 400 detail))
  /\ if valid_PaymentCycleConfigUpdate config_data then
       fst result = Ok stored
       /\ payment_cycle_config (data (snd result)) = [stored]
       /\ last_reset_date stored = last_reset_date (current_config clk (data w))
       /\ employee_payment_status (data (snd result))
          = employee_payment_status (data w)
       /\ run (PaymentCycleService.get_or_create_config clk') (snd result)
          = (Ok stored, snd result)
     else result = (Raise (HTTPException 422 "Unprocessable Entity"), w).
Proof.
  intros Hone result stored. subst result stored.
  unfold update_payment_cycle_config, valid_PaymentCycleConfigUpdate.
  destruct (Z.leb_spec 1 (pu_reset_day config_data)) as [Hlow|Hlow];
    destruct (Z.leb_spec (pu_reset_day config_data) 31) as [Hhigh|Hhigh]; simpl;
    try (split; [intros detail; by unfold_M|]; unfold_M; by rewrite world_eta).
  destruct (Z.ltb_spec (pu_reset_day config_data) 1); [lia|].
  destruct (Z.ltb_spec 31 (pu_reset_day config_data)); [lia|]. simpl.
  unfold run, async_session, close. simpl.
  set (s := mkSession (data w) (data w) (sent w)).
  rewrite (update_config_session clk _ s Hone). cbv zeta. simpl.
  split; [done|]. split; [done|]. split; [done|]. split; [done|].
  split; [unfold ensure_config; simpl; by destruct (payment_cycle_config (data w))|].
  unfold PaymentCycleService.get_or_create_config. by unfold_M.
Qed.

Lemma update_payment_cycle_config_round_trip_witness :
  fst (run (update_payment_cycle_config example_clock (mkPaymentCycleConfigUpdate 5))
         example_world)
  = Ok (mkPaymentCycleConfig 1 5 None (utcnow example_clock) (utcnow example_clock))
  /\ run (update_payment_cycle_config example_clock (mkPaymentCycleConfigUpdate 32))
       example_world
     = (Raise (HTTPException 422 "Unprocessable Entity"), example_world).
Proof.
  assert (Hone : config_singleton (data example_world))
    by (unfold config_singleton; simpl; lia).
  destruct (update_payment_cycle_config_round_trip example_clock example_clock
              (mkPaymentCycleConfigUpdate 5) example_world Hone)
    as (_ & Hstored & _).
  destruct (update_payment_cycle_config_round_trip example_clock example_clock
              (mkPaymentCycleConfigUpdate 32) example_world Hone)
    as (_ & Hrefused).
  split; [exact Hstored|exact Hrefused].
Defined.

(** ** Demo initialization and startup *)

Lemma demo_count (n : nat) :
  Z.to_nat (Z.max 1 (Z.of_nat n / 2)) = Nat.max 1 (n / 2).
Proof. rewrite <- (Nat2Z.inj_div _ 2). lia. Qed.

Lemma initialize_demo_payments_session (clk : Clock) (rng : list nat) (s : Session) :
  NoDup (map pos_name (positions (pending s))) ->
  PaymentCycleService.initialize_demo_payments clk rng s
  = let rows := employee_payment_status (pending s) in
    let unpaid := filter (fun r => paid r = false) rows in
    match unpaid with
    | [] => (Ok 0, s)
    | _ =>
        let selected := random_sample rng unpaid (Nat.max 1 (length unpaid / 2)) in
        let d := set_employee_payment_status
                   (pay_selected (utcnow clk) selected rows)
                   (employee_payment_status_seq (pending s)) (pending s) in
        (Ok (Z.of_nat (length selected)),
         mkSession d d
           (outbox s ++ map (demo_paid_message clk (positions (pending s))) selected))
    end.
Proof.
  intros Hnames. unfold PaymentCycleService.initialize_demo_payments.
  rewrite (bind_ok _ _ s s
             (filter (fun r => paid r = false) (employee_payment_status (pending s))))
    by done.
  cbv zeta.
  destruct (filter _ (employee_payment_status (pending s))) as [|r rest] eqn:Hunpaid;
    [done|].
  rewrite demo_count.
  rewrite (bind_ok _ _ _ _ _ (demo_payments_run clk _ 0 s Hnames)).
  by unfold_M.
Qed.

(** X13: the demo initialization touches unpaid rows only. Keys and
    position names being unique, every row that was paid is still there
    unchanged, payment date included, and no row is added or removed; with
    no unpaid employee it answers 0, writes nothing and publishes
    nothing. *)
Theorem demo_initialization_spares_paid_rows (clk : Clock) (rng : list nat)
    (w : World) :
  NoDup (map eps_id (employee_payment_status (data w))) ->
  NoDup (map pos_name (positions (data w))) ->
  let result := run (PaymentCycleService.initialize_demo_payments clk rng) w in
  (forall r, r ∈ employee_payment_status (data w) -> paid r = true ->
             r ∈ employee_payment_status (data (snd result)))
  /\ length (employee_payment_status (data (snd result)))
     = length (employee_payment_status (data w))
  /\ (filter (fun r => paid r = false) (employee_payment_status (data w)) = [] ->
      result = (Ok 0, w)).
Proof.
  intros Hkeys Hnames result. subst result.
  unfold run, async_session, close. simpl.
  set (s := mkSession (data w) (data w) (sent w)).
  rewrite (initialize_demo_payments_session clk rng s Hnames). cbv zeta. simpl.
  destruct (filter _ (employee_payment_status (data w))) as [|u rest] eqn:Hunpaid.
  { simpl. split; [done|]. split; [done|]. by rewrite world_eta. }
  simpl. split; [|split; [|done]].
  - intros r Hr Hpaid. unfold pay_selected.
    apply list_elem_of_fmap. exists r. split; [|done].
    rewrite decide_False; [done|].
    intros [x [Hkey Hx]]%list_elem_of_fmap.
    pose proof (elem_of_submseteq _ _ _ Hx (random_sample_submseteq _ _ _)) as Hxu.
    rewrite <- Hunpaid in Hxu. apply list_elem_of_filter in Hxu as [Hxpaid Hxrows].
    assert (r = x) as -> by (by apply (NoDup_fmap_eq eps_id _ _ _ Hkeys)).
    congruence.
  - unfold pay_selected. by rewrite length_map.
Qed.

Lemma demo_initialization_spares_paid_rows_witness :
  mkEmployeePaymentStatus 2 "E3" (Some "RECEPTIONIST") true
    (Some (DateTime (Date 2025 2 20) 0))
    (DateTime (Date 2025 2 1) 0) (DateTime (Date 2025 2 20) 0)
  ∈ employee_payment_status
      (data (snd (run (PaymentCycleService.initialize_demo_payments example_clock
                         [0%nat]) example_world))).
Proof.
  destruct (demo_initialization_spares_paid_rows example_clock [0%nat]
              example_world) as (Hkept & _).
  - compute_done.
  - compute_done.
  - apply Hkept; [|reflexivity]. simpl. right. left.
Defined.

(** ** Manual expenses and the ledger *)

(** X14: [delete_manual_expense]. A key that no manual expense holds is
    answered 404 when it is a 32-bit integer, and makes the lookup raise
    when it is not; nothing changes either way. For a manual expense with
    at most one ledger entry, the expense row is removed, the ledger loses
    the entries of type manual that refer to it and nothing else (ledger
    keys being unique), entries of employee payments included, and the
    deletion is published. When two ledger entries refer to the expense the
    call raises and deletes nothing: such an expense cannot be deleted. *)
Theorem delete_manual_expense_effect (clk : Clock) (expense_id : Z) (w : World) :
  (filter (fun e => me_id e = expense_id) (manual_expenses (data w)) = [] ->
   run (delete_manual_expense clk expense_id) w
   = (if int32 expense_id
      then Raise (HTTPException 404 "Manual expense not found")
      else Raise DBAPIError,
      w))
  /\ (forall expense,
        filter (fun e => me_id e = expense_id) (manual_expenses (data w))
        = [expense] ->
        (length (manual_entries expense_id (data w)) <= 1)%nat ->
        NoDup (map exp_id (expenses (data w))) ->
        let result := run (delete_manual_expense clk expense_id) w in
        fst result = Ok tt
        /\ manual_expenses (data (snd result))
           = filter (fun e => me_id e <> expense_id) (manual_expenses (data w))
        /\ expenses (data (snd result))
           = filter (fun e => ~ (expense_type e = "manual"
                                 /\ reference_id e = Some expense_id))
                    (expenses (data w))
        /\ sent (snd result)
           = sent w ++ [("finance.expense.deleted",
                         ExpenseDeleted expense_id (utcnow clk))])
  /\ (forall expense,
        filter (fun e => me_id e = expense_id) (manual_expenses (data w))
        = [expense] ->
        (2 <= length (manual_entries expense_id (data w)))%nat ->
        run (delete_manual_expense clk expense_id) w
        = (Raise MultipleResultsFound, w)).
Proof.
  split; [|split].
  - intros Hnone. rewrite delete_manual_expense_run, Hnone.
    by destruct (int32 expense_id).
  - intros expense Hrow Hone Hkeys.
    assert (Hid : me_id expense = expense_id).
    { assert (Hin : expense ∈ filter (fun e => me_id e = expense_id)
                                (manual_expenses (data w)))
        by (rewrite Hrow; left).
      by apply list_elem_of_filter in Hin as [? _]. }
    cbv zeta. rewrite delete_manual_expense_run, Hrow.
    cbv zeta. rewrite Hid.
    destruct (manual_entries expense_id (data w)) as [|entry [|entry' rest]]
      eqn:Hentries; simpl in Hone; [| |lia]; simpl.
    + split; [done|]. split; [done|]. split; [|done].
      symmetry. apply filter_all. intros e He Hmatch.
      unfold manual_entries in Hentries.
      by eapply (filter_nil_not_elem_of _ _ e Hentries).
    + split; [done|]. split; [done|]. split; [|done].
      apply filter_ext_in. intros e He.
      pose proof (key_matches exp_id _ _ entry Hkeys Hentries e He) as Hiff.
      tauto.
  - intros expense Hrow Htwo.
    rewrite delete_manual_expense_run, Hrow. cbv zeta.
    destruct (manual_entries expense_id (data w)) as [|entry [|entry' rest]];
      simpl in Htwo; [lia|lia|done].
Qed.

Lemma delete_manual_expense_effect_witness :
  expenses (data (snd (run (delete_manual_expense example_clock 1)
                         example_ledger_world)))
  = filter (fun e => ~ (expense_type e = "manual" /\ reference_id e = Some 1))
           (expenses (data example_ledger_world))
  /\ run (delete_manual_expense example_clock 7) example_ledger_world
     = (Raise (HTTPException 404 "Manual expense not found"), example_ledger_world)
  /\ run (delete_manual_expense example_clock (2 ^ 31)) example_ledger_world
     = (Raise DBAPIError, example_ledger_world).
Proof.
  destruct (delete_manual_expense_effect example_clock 1 example_ledger_world)
    as (_ & Hdeleted & _).
  destruct (delete_manual_expense_effect example_clock 7 example_ledger_world)
    as (Hunknown & _).
  destruct (delete_manual_expense_effect example_clock (2 ^ 31)
              example_ledger_world) as (Hrange & _).
  split; [|split].
  - eapply Hdeleted.
    + vm_compute. reflexivity.
    + vm_compute. lia.
    + compute_done.
  - apply Hunknown. vm_compute. reflexivity.
  - apply Hrange. vm_compute. reflexivity.
Defined.

(** ** Demo expenses *)

Lemma seed_loop_run (clk : Clock) (l : list ExpenseCreate) (n : Z) (s : Session) :
  fold_for l n (fun created_count expense_data =>
    do _ <- modify (fun d =>
              set_expenses
                (expenses d
                 ++ [mkExpense (expenses_seq d) (ec_description expense_data)
                       (ec_amount expense_data) (ec_expense_date expense_data)
                       (ec_expense_type expense_data)
                       (ec_reference_id expense_data) (utcnow clk)])
                (expenses_seq d + 1) d);
    ret (created_count + 1)) s
  = (Ok (n + Z.of_nat (length l)),
     mkSession (committed s)
       (set_expenses
          (expenses (pending s) ++ seeded_rows clk (expenses_seq (pending s)) l)
          (expenses_seq (pending s) + Z.of_nat (length l)) (pending s))
       (outbox s)).
Proof.
  revert n s. induction l as [|e l IH]; intros n s.
  - destruct s as [c [] o]. simpl. unfold ret, set_expenses. simpl.
    by rewrite app_nil_r, !Z.add_0_r.
  - cbn [fold_for]. unfold bind at 1. unfold bind at 1, modify at 1, ret at 1.
    rewrite IH. cbn [committed pending outbox seeded_rows length].
    unfold set_expenses. cbn [expenses expenses_seq positions manual_expenses
      employee_payment_status payment_cycle_config manual_expenses_seq
      employee_payment_status_seq payment_cycle_config_seq].
    rewrite <- app_assoc. cbn [app].
    rewrite Nat2Z.inj_succ.
    replace (n + 1 + Z.of_nat (length l)) with (n + Z.succ (Z.of_nat (length l)))
      by lia.
    replace (expenses_seq (pending s) + 1 + Z.of_nat (length l))
      with (expenses_seq (pending s) + Z.succ (Z.of_nat (length l))) by lia.
    done.
Qed.

Lemma seed_demo_expenses_run (clk : Clock) (w : World) :
  run (ExpenseService.seed_demo_expenses clk) w
  = if (10 <=? length (expenses (data w)))%nat then (Ok 0, w)
    else (Ok 12,
          mkWorld
            (set_expenses
               (expenses (data w)
                ++ seeded_rows clk (expenses_seq (data w)) demo_expenses)
               (expenses_seq (data w) + 12) (data w))
            (sent w)).
Proof.
  unfold ExpenseService.seed_demo_expenses, run, async_session, close.
  cbn [committed pending outbox].
  unfold bind at 1, query at 1. cbn [pending].
  destruct (10 <=? length (expenses (data w)))%nat.
  - unfold ret. simpl. by rewrite world_eta.
  - unfold bind at 1. rewrite seed_loop_run. cbn [committed pending outbox].
    unfold bind at 1, commit at 1, ret. cbn [committed pending outbox].
    change (0 + Z.of_nat (length demo_expenses)) with 12.
    change (Z.of_nat (length demo_expenses)) with 12.
    done.
Qed.

(** X15: [seed_demo_expenses]. A ledger of ten entries or more is left as
    it is and the answer is 0. A ledger of fewer than ten entries, empty or
    not, receives all twelve demo rows after the ones it holds, under the
    next twelve keys, and the answer is 12; nothing is published. Either
    way a second seeding changes nothing. *)
Theorem seed_demo_expenses_fills_once (clk : Clock) (w : World) :
  let result := run (ExpenseService.seed_demo_expenses clk) w in
  ((10 <= length (expenses (data w)))%nat -> result = (Ok 0, w))
  /\ ((length (expenses (data w)) < 10)%nat ->
      fst result = Ok 12
      /\ expenses (data (snd result))
         = expenses (data w) ++ seeded_rows clk (expenses_seq (data w)) demo_expenses
      /\ length (expenses (data (snd result)))
         = (length (expenses (data w)) + 12)%nat
      /\ expenses_seq (data (snd result)) = expenses_seq (data w) + 12
      /\ sent (snd result) = sent w)
  /\ (forall clk',
        run (ExpenseService.seed_demo_expenses clk') (snd result)
        = (Ok 0, snd result)).
Proof.
  cbv zeta. rewrite !seed_demo_expenses_run.
  assert (Hseeded : forall pk l, length (seeded_rows clk pk l) = length l).
  { intros pk l. revert pk. induction l as [|e l IH]; intros pk; [done|].
    simpl. by rewrite IH. }
  destruct (10 <=? length (expenses (data w)))%nat eqn:Hfull.
  - apply Nat.leb_le in Hfull.
    split; [done|]. split; [lia|].
    intros clk'. rewrite seed_demo_expenses_run. cbn [snd].
    apply Nat.leb_le in Hfull. by rewrite Hfull.
  - apply Nat.leb_gt in Hfull.
    split; [lia|]. split.
    + intros _. cbn [fst snd data sent]. unfold set_expenses.
      cbn [expenses expenses_seq].
      rewrite length_app, Hseeded. done.
    + intros clk'. rewrite seed_demo_expenses_run. cbn [snd data].
      unfold set_expenses at 1. cbn [expenses].
      rewrite length_app, Hseeded.
      change (length demo_expenses) with 12%nat.
      replace (10 <=? length (expenses (data w)) + 12)%nat with true; [done|].
      symmetry. apply Nat.leb_le. lia.
Qed.

Lemma seed_demo_expenses_fills_once_witness :
  fst (run (ExpenseService.seed_demo_expenses example_clock) example_ledger_world)
  = Ok 12
  /\ length (expenses (data (snd (run (ExpenseService.seed_demo_expenses
                                         example_clock) example_ledger_world))))
     = 14%nat.
Proof.
  destruct (seed_demo_expenses_fills_once example_clock example_ledger_world)
    as (_ & Hseeded & _).
  destruct Hseeded as (Hanswer & _ & Hlength & _); [vm_compute; lia|].
  split; [exact Hanswer|exact Hlength].
Defined.

(** ** Payments and the ledger *)

(** X16: payments and the ledger never meet. No consumer, payment route,
    reset, demo initialization or configuration update writes to the ledger
    or to the manual expenses, whatever it is given and whether it returns
    or raises: a payment reaches the ledger by no path. The manual-expense
    routes in turn leave the PaymentStatus rows, the configuration and the
    positions alone. *)
Theorem payments_and_ledger_are_separate
    (validate_registered : gmap string json -> res EmployeeRegistered)
    (validate_deleted : gmap string json -> res EmployeeDeleted)
    (validate_role_changed : gmap string json -> res EmployeeRoleChanged)
    (op : Operation) (w : World) :
  let w' := perform validate_registered validate_deleted validate_role_changed
              op w in
  match op with
  | CreateManualExpense _ _ | DeleteManualExpense _ _ =>
      employee_payment_status (data w') = employee_payment_status (data w)
      /\ payment_cycle_config (data w') = payment_cycle_config (data w)
      /\ positions (data w') = positions (data w)
  | _ =>
      expenses (data w') = expenses (data w)
      /\ manual_expenses (data w') = manual_expenses (data w)
  end.
Proof.
  destruct op; cbv zeta; cbn [perform];
    repeat split;
    lazymatch goal with
    | |- ?f (data (snd (run ?m w))) = ?f (data w) =>
        apply (keeps_run (fun d => f d = f (data w)) m w); [|done]
    end;
    unfold_entry_points; unfold PaymentCycleService.get_or_create_config;
    keeps_auto; done.
Qed.

(** ** Startup *)

Lemma paid_or_unpaid (rows : list EmployeePaymentStatus) :
  (length (filter (fun r => paid r = true) rows)
   + length (filter (fun r => paid r = false) rows))%nat = length rows.
Proof.
  induction rows as [|r rows IH]; [done|].
  rewrite !filter_cons. destruct (paid r); simpl; lia.
Qed.

Lemma check_and_auto_reset_step (clk : Clock) (s : Session) :
  committed s = pending s ->
  config_singleton (pending s) ->
  NoDup (map eps_id (employee_payment_status (pending s))) ->
  exists r s1,
    PaymentCycleService.check_and_auto_reset clk s = (Ok r, s1)
    /\ committed s1 = pending s1
    /\ positions (pending s1) = positions (pending s)
    /\ NoDup (map eps_id (employee_payment_status (pending s1)))
    /\ length (employee_payment_status (pending s1))
       = length (employee_payment_status (pending s))
    /\ if should_reset_spec (current_config clk (pending s)) (today clk)
       then filter (fun r => paid r = true) (employee_payment_status (pending s1))
            = []
       else employee_payment_status (pending s1)
            = employee_payment_status (pending s).
Proof.
  intros Hsync Hone Hkeys. unfold config_singleton in Hone.
  unfold PaymentCycleService.check_and_auto_reset.
  rewrite (bind_ok _ _ _ _ _ (should_reset_payments_run clk s Hone)).
  assert (Hcfg : payment_cycle_config (pending (ensure_config clk s))
                 = [current_config clk (pending s)]).
  { unfold ensure_config, current_config.
    destruct (payment_cycle_config (pending s)) as [|c [|c' cs]] eqn:E; simpl in *;
      [by rewrite ?E|by rewrite ?E|lia]. }
  assert (Hrows : employee_payment_status (pending (ensure_config clk s))
                  = employee_payment_status (pending s)).
  { unfold ensure_config. by destruct (payment_cycle_config (pending s)). }
  assert (Hpositions : positions (pending (ensure_config clk s))
                       = positions (pending s)).
  { unfold ensure_config. by destruct (payment_cycle_config (pending s)). }
  assert (Hcommitted : committed (ensure_config clk s) = pending (ensure_config clk s)).
  { unfold ensure_config. by destruct (payment_cycle_config (pending s)). }
  destruct (should_reset_spec (current_config clk (pending s)) (today clk)).
  - rewrite (bind_ok _ _ _ _ _ (reset_all_payment_status_run clk _ _ Hcfg)).
    unfold ret. eexists _, _. split; [reflexivity|].
    cbn [committed pending]. unfold reset_db. simpl. rewrite Hrows.
    split; [done|]. split; [done|]. split.
    { rewrite <- list_fmap_compose.
      rewrite (list_fmap_ext _ eps_id (employee_payment_status (pending s)));
        [done|].
      intros _ r _. simpl. by case_decide. }
    split; [by rewrite length_map|]. apply no_paid_row_after_reset.
  - unfold ret. eexists _, _. split; [reflexivity|].
    by rewrite Hrows.
Qed.

Lemma initialize_demo_payments_step (clk : Clock) (rng : list nat) (s : Session) :
  committed s = pending s ->
  NoDup (map eps_id (employee_payment_status (pending s))) ->
  NoDup (map pos_name (positions (pending s))) ->
  exists r s2,
    PaymentCycleService.initialize_demo_payments clk rng s = (Ok r, s2)
    /\ committed s2 = pending s2
    /\ length (employee_payment_status (pending s2))
       = length (employee_payment_status (pending s))
    /\ length (filter (fun r => paid r = true) (employee_payment_status (pending s2)))
       = (length (filter (fun r => paid r = true)
                         (employee_payment_status (pending s)))
          + match length (filter (fun r => paid r = false)
                                 (employee_payment_status (pending s))) with
            | O => 0
            | S n => Nat.max 1 (S n / 2)
            end)%nat.
Proof.
  intros Hsync Hkeys Hnames.
  rewrite (initialize_demo_payments_session clk rng s Hnames). cbv zeta.
  destruct (filter (fun r => paid r = false) (employee_payment_status (pending s)))
    as [|u rest] eqn:Hunpaid.
  - eexists _, _. split; [reflexivity|]. simpl. split; [done|]. split; [done|]. lia.
  - eexists _, _. split; [reflexivity|]. cbn [committed pending].
    split; [done|]. unfold set_employee_payment_status.
    cbn [employee_payment_status]. split.
    { unfold pay_selected. by rewrite length_map. }
    rewrite paid_after_pay_selected, Hunpaid. f_equal.
    rewrite selected_are_counted_once.
    + apply random_sample_length.
      pose proof (Nat.Div0.div_le_upper_bound (length (u :: rest)) 2
                    (length (u :: rest))).
      simpl length in *. cbv beta iota. lia.
    + rewrite <- Hunpaid. eapply sublist_NoDup; [exact Hkeys|].
      apply fmap_sublist, sublist_filter.
    + apply random_sample_submseteq.
Qed.

Lemma seed_demo_expenses_step (clk : Clock) (s : Session) :
  committed s = pending s ->
  exists r s3,
    ExpenseService.seed_demo_expenses clk s = (Ok r, s3)
    /\ committed s3 = pending s3
    /\ employee_payment_status (pending s3) = employee_payment_status (pending s).
Proof.
  intros Hsync. unfold ExpenseService.seed_demo_expenses.
  unfold bind at 1, query at 1.
  destruct (10 <=? length (expenses (pending s)))%nat.
  - unfold ret. by eexists _, _.
  - unfold bind at 1. rewrite seed_loop_run.
    unfold bind at 1, commit at 1, ret. by eexists _, _.
Qed.

(** X17: what a start of the service does to the payments (the payment
    steps of [lifespan]). With at most one configuration row and keys and
    position names unique, the startup never fails and keeps every row; on
    a day when the dated reset is due all rows are unpaid first, and in
    either case half of the rows then unpaid, rounded down and at least
    one, are marked paid for the demonstration. So each restart pays
    employees that nobody confirmed. *)
Theorem startup_pays_half_of_the_unpaid (clk : Clock) (rng : list nat) (w : World) :
  config_singleton (data w) ->
  NoDup (map eps_id (employee_payment_status (data w))) ->
  NoDup (map pos_name (positions (data w))) ->
  let rows := employee_payment_status (data w) in
  let unpaid :=
    if should_reset_spec (current_config clk (data w)) (today clk)
    then length rows
    else length (filter (fun r => paid r = false) rows) in
  let result := run (lifespan_startup clk rng) w in
  let rows' := employee_payment_status (data (snd result)) in
  fst result = Ok tt
  /\ length rows' = length rows
  /\ length (filter (fun r => paid r = true) rows')
     = (length rows - unpaid
        + match unpaid with
          | O => 0
          | S n => Nat.max 1 (S n / 2)
          end)%nat.
Proof.
  intros Hone Hkeys Hnames. cbv zeta.
  set (s := mkSession (data w) (data w) (sent w)).
  destruct (check_and_auto_reset_step clk s eq_refl Hone Hkeys)
    as (r1 & s1 & Hcheck & Hsync1 & Hpositions1 & Hkeys1 & Hlength1 & Hrows1).
  assert (Hnames1 : NoDup (map pos_name (positions (pending s1))))
    by (by rewrite Hpositions1).
  destruct (initialize_demo_payments_step clk rng s1 Hsync1 Hkeys1 Hnames1)
    as (r2 & s2 & Hdemo & Hsync2 & Hlength2 & Hpaid2).
  destruct (seed_demo_expenses_step clk s2 Hsync2)
    as (r3 & s3 & Hseed & Hsync3 & Hrows3).
  assert (Hrun : run (lifespan_startup clk rng) w
                 = (Ok tt, mkWorld (pending s3) (outbox s3))).
  { unfold run, lifespan_startup, try_except, async_session, close.
    cbn [committed pending outbox]. fold s.
    rewrite (bind_ok _ _ _ _ _ Hcheck), (bind_ok _ _ _ _ _ Hdemo),
      (bind_ok _ _ _ _ _ Hseed).
    unfold ret. cbn [committed pending outbox]. by rewrite Hsync3. }
  rewrite !Hrun. cbn [fst snd data]. rewrite Hrows3, Hlength2, Hpaid2, Hlength1.
  simpl in Hrows1, Hlength1. split; [done|]. split; [done|].
  pose proof (paid_or_unpaid (employee_payment_status (pending s1))) as Hsplit1.
  pose proof (paid_or_unpaid (employee_payment_status (data w))) as Hsplit.
  destruct (should_reset_spec (current_config clk (data w)) (today clk)).
  - rewrite Hrows1 in *. simpl in *.
    replace (length (filter (fun r => paid r = false)
                            (employee_payment_status (pending s1))))
      with (length (employee_payment_status (data w))) by lia.
    lia.
  - rewrite Hrows1 in *.
    replace (length (filter (fun r => paid r = true)
                            (employee_payment_status (data w))))
      with (length (employee_payment_status (data w))
            - length (filter (fun r => paid r = false)
                             (employee_payment_status (data w))))%nat by lia.
    done.
Qed.

Lemma startup_pays_half_of_the_unpaid_witness :
  length (filter (fun r => paid r = true)
            (employee_payment_status
               (data (snd (run (lifespan_startup example_clock [0%nat])
                             example_world)))))
  = 1%nat.
Proof.
  assert (Hone : config_singleton (data example_world))
    by (unfold config_singleton; simpl; lia).
  assert (Hkeys : NoDup (map eps_id (employee_payment_status (data example_world))))
    by compute_done.
  assert (Hnames : NoDup (map pos_name (positions (data example_world))))
    by compute_done.
  destruct (startup_pays_half_of_the_unpaid example_clock [0%nat] example_world
              Hone Hkeys Hnames) as (_ & _ & Hpaid).
  exact Hpaid.
Defined.

(** ** Positions *)

Lemma create_position_run (pk : Z) (position_data : PositionCreate) (w : World) :
  run (create_position pk position_data) w
  = if negb (valid_PositionCreate position_data) then
      (Raise (HTTPException 422 "Unprocessable Entity"), w)
    else
      match filter (fun p => pos_name p = pn_name position_data)
                   (positions (data w)) with
      | [] =>
          let new_position :=
            mkPosition pk (pn_name position_data) (pn_description position_data)
              (pn_base_salary position_data) in
          (Ok new_position,
           mkWorld (set_positions (positions (data w) ++ [new_position]) (data w))
             (sent w))
      | [_] =>
          (Raise (HTTPException 400 "Position with this name already exists"), w)
      | _ => (Raise MultipleResultsFound, w)
      end.
Proof.
  unfold create_position.
  destruct (negb (valid_PositionCreate position_data)).
  - unfold_M. by rewrite world_eta.
  - unfold_M.
    destruct (filter _ (positions (data w))) as [|p [|p' ps]]; simpl;
      by rewrite ?world_eta.
Qed.

Lemma update_position_run (position_id : Z) (position_data : PositionCreate)
    (w : World) :
  run (update_position position_id position_data) w
  = if negb (valid_PositionCreate position_data) then
      (Raise (HTTPException 422 "Unprocessable Entity"), w)
    else
      match filter (fun p => pos_id p = position_id) (positions (data w)) with
      | [] =>
          if int32 position_id
          then (Raise (HTTPException 404 "Position not found"), w)
          else (Raise DBAPIError, w)
      | [position] =>
          let row :=
            mkPosition (pos_id position) (pn_name position_data)
              (pn_description position_data) (pn_base_salary position_data) in
          let updated :=
            (Ok row,
             mkWorld
               (set_positions
                  (filter (fun p => pos_id p <> pos_id position)
                          (positions (data w)) ++ [row]) (data w))
               (sent w)) in
          if decide (pn_name position_data <> pos_name position) then
            match filter (fun p => pos_name p = pn_name position_data)
                         (positions (data w)) with
            | [] => updated
            | [_] =>
                (Raise (HTTPException 400 "Position with this name already exists"),
                 w)
            | _ => (Raise MultipleResultsFound, w)
            end
          else updated
      | _ => (Raise MultipleResultsFound, w)
      end.
Proof.
  unfold update_position.
  destruct (negb (valid_PositionCreate position_data)).
  { unfold_M. by rewrite world_eta. }
  unfold run, async_session, close. cbn [committed pending outbox].
  unfold bind at 1, query at 1. cbn [pending]. unfold where_key.
  destruct (filter (fun p => pos_id p = position_id) (positions (data w)))
    as [|position [|position' rest]].
  - destruct (int32 position_id); unfold_M; by rewrite world_eta.
  - unfold bind at 1, lift at 1. unfold bind at 1, lift at 1.
    cbn [scalar_one_or_none]. cbv zeta.
    destruct (decide (pn_name position_data <> pos_name position)).
    + unfold_M.
      destruct (filter (fun p => pos_name p = pn_name position_data)
                       (positions (data w))) as [|p [|p' ps]]; simpl;
        by rewrite ?world_eta.
    + by unfold_M.
  - unfold_M. by rewrite world_eta.
Qed.

Lemma delete_position_run (position_id : Z) (w : World) :
  run (delete_position position_id) w
  = match filter (fun p => pos_id p = position_id) (positions (data w)) with
    | [] =>
        if int32 position_id
        then (Raise (HTTPException 404 "Position not found"), w)
        else (Raise DBAPIError, w)
    | [position] =>
        (Ok tt,
         mkWorld
           (set_positions
              (filter (fun p => pos_id p <> pos_id position) (positions (data w)))
              (data w))
           (sent w))
    | _ => (Raise MultipleResultsFound, w)
    end.
Proof.
  unfold delete_position, where_key. unfold_M.
  destruct (filter _ (positions (data w))) as [|p [|p' ps]]; simpl;
    rewrite ?world_eta; try done.
  destruct (int32 position_id); simpl; by rewrite ?world_eta.
Qed.

Lemma filter_singleton_elem {A} (P : A -> Prop) `{forall x, Decision (P x)}
    (rows : list A) (r : A) :
  filter P rows = [r] -> P r /\ r ∈ rows.
Proof.
  intros Hrow. apply (list_elem_of_filter P rows r). rewrite Hrow. left.
Qed.

Lemma updated_names_unique (position_data : PositionCreate) (rows : list Position)
    (position : Position) :
  NoDup (map pos_name rows) ->
  filter (fun p => pos_id p = pos_id position) rows = [position] ->
  pn_name position_data = pos_name position
  \/ filter (fun p => pos_name p = pn_name position_data) rows = [] ->
  NoDup (map pos_name
           (filter (fun p => pos_id p <> pos_id position) rows
            ++ [mkPosition (pos_id position) (pn_name position_data)
                  (pn_description position_data)
                  (pn_base_salary position_data)])).
Proof.
  intros Hnames Hrow Hfree.
  destruct (filter_singleton_elem _ _ _ Hrow) as [_ Hin].
  rewrite fmap_app. apply NoDup_app. split; [|split; [|apply NoDup_singleton]].
  - eapply sublist_NoDup; [exact Hnames|]. apply fmap_sublist, sublist_filter.
  - intros name [p [-> Hp]]%list_elem_of_fmap Hnew.
    apply list_elem_of_singleton in Hnew. simpl in Hnew.
    apply list_elem_of_filter in Hp as [Hkey Hp].
    destruct Hfree as [Hsame|Hfree].
    + apply Hkey. f_equal.
      apply (NoDup_fmap_eq pos_name rows); [done..|]. congruence.
    + by destruct (filter_nil_not_elem_of _ _ p Hfree).
Qed.

(** X18: position names stay unique. On a table where no two positions
    share a name, [create_position], [update_position] and
    [delete_position] leave such a table, whatever the request and whether
    it is answered or refused. *)
Theorem position_names_stay_unique (pk position_id : Z)
    (position_data : PositionCreate) (w : World) :
  NoDup (map pos_name (positions (data w))) ->
  NoDup (map pos_name
           (positions (data (snd (run (create_position pk position_data) w)))))
  /\ NoDup (map pos_name
              (positions
                 (data (snd (run (update_position position_id position_data) w)))))
  /\ NoDup (map pos_name
              (positions (data (snd (run (delete_position position_id) w))))).
Proof.
  intros Hnames. split; [|split].
  - rewrite create_position_run.
    destruct (negb (valid_PositionCreate position_data)); [done|].
    destruct (filter _ (positions (data w))) as [|p [|p' ps]] eqn:Hfree;
      [|done|done].
    cbn [snd data]. unfold set_positions. cbn [positions].
    rewrite fmap_app. apply NoDup_app. split; [done|]. split;
      [|apply NoDup_singleton].
    intros name [p [-> Hp]]%list_elem_of_fmap Hnew.
    apply list_elem_of_singleton in Hnew. simpl in Hnew.
    by eapply (filter_nil_not_elem_of _ _ p Hfree).
  - rewrite update_position_run.
    destruct (negb (valid_PositionCreate position_data)); [done|].
    destruct (filter (fun p => pos_id p = position_id) (positions (data w)))
      as [|position [|position' rest]] eqn:Hrow;
      [by destruct (int32 position_id)| |done].
    destruct (filter_singleton_elem _ _ _ Hrow) as [Hid _].
    rewrite <- Hid in Hrow. cbv zeta.
    destruct (decide (pn_name position_data <> pos_name position)) as [Hne|Heq].
    + destruct (filter (fun p => pos_name p = pn_name position_data)
                       (positions (data w))) as [|p [|p' ps]] eqn:Hfree;
        [|done|done].
      apply updated_names_unique; [done|done|by right].
    + apply updated_names_unique; [done|done|left].
      destruct (decide (pn_name position_data = pos_name position)); [done|].
      by destruct Heq.
  - rewrite delete_position_run.
    destruct (filter _ (positions (data w))) as [|position [|position' rest]];
      [by destruct (int32 position_id)| |done].
    cbn [snd data]. unfold set_positions. cbn [positions].
    eapply sublist_NoDup; [exact Hnames|]. apply fmap_sublist, sublist_filter.
Qed.

Lemma position_names_stay_unique_witness :
  NoDup (map pos_name
           (positions
              (data (snd (run (update_position 2
                                 (mkPositionCreate "PERSONAL_TRAINER" None 2000%Q))
                            example_world))))).
Proof.
  destruct (position_names_stay_unique 3 2
              (mkPositionCreate "PERSONAL_TRAINER" None 2000%Q) example_world)
    as (_ & Hupdate & _); [compute_done|exact Hupdate].
Defined.

Lemma unique_match {A} (P : A -> Prop) `{forall x, Decision (P x)}
    (rows : list A) (r : A) :
  (length (filter P rows) <= 1)%nat -> r ∈ rows -> P r -> filter P rows = [r].
Proof.
  intros Hone Hr HPr.
  assert (Hin : r ∈ filter P rows) by by apply list_elem_of_filter.
  destruct (filter P rows) as [|x [|y rest]]; simpl in Hone; [| |lia].
  - by apply elem_of_nil in Hin.
  - by apply list_elem_of_singleton in Hin as ->.
Qed.

Lemma taken_name_has_one_row (name : string) (rows : list Position) :
  NoDup (map pos_name rows) ->
  name ∈ map pos_name rows ->
  exists p, filter (fun p => pos_name p = name) rows = [p].
Proof.
  intros Hrows [p [Hname Hp]]%list_elem_of_fmap. exists p.
  apply unique_match; [|done|done].
  pose proof (unique_position_lookup rows (Some name) Hrows) as Hone.
  rewrite (filter_ext_in _ (fun p => Some (pos_name p) = Some name)); [done|].
  intros x _. split; congruence.
Qed.







(** ** Seeding the positions *)

Lemma seed_positions_loop (keys : string -> Z) (l : list PositionCreate)
    (s : Session) :
  NoDup (map pn_name l) ->
  NoDup (map pos_name (positions (pending s))) ->
  fold_for l tt (fun _ position_data =>
    do rows <- query (fun d =>
                 filter (fun p => pos_name p = pn_name position_data)
                        (positions d));
    do existing_position <- lift (scalar_one_or_none rows);
    match existing_position with
    | None =>
        modify (fun d =>
          set_positions
            (positions d
             ++ [mkPosition (keys (pn_name position_data))
                   (pn_name position_data)
                   (pn_description position_data)
                   (pn_base_salary position_data)]) d)
    | Some _ => ret tt
    end) s
  = (Ok tt,
     mkSession (committed s)
       (set_positions
          (positions (pending s)
           ++ map (fun position_data =>
                     mkPosition (keys (pn_name position_data))
                       (pn_name position_data) (pn_description position_data)
                       (pn_base_salary position_data))
                  (filter (fun position_data =>
                             pn_name position_data
                             ∉ map pos_name (positions (pending s))) l))
          (pending s))
       (outbox s)).
Proof.
  revert s. induction l as [|pd l IH]; intros s Hl Hnames.
  - destruct s as [c [] o]. simpl. unfold ret, set_positions. simpl.
    by rewrite app_nil_r.
  - simpl in Hl. apply NoDup_cons in Hl as [Hpd Hl].
    cbn [fold_for]. unfold bind at 1. unfold bind at 1, query at 1.
    unfold bind at 1, lift at 1.
    destruct (decide (pn_name pd ∈ map pos_name (positions (pending s))))
      as [Hin|Hout].
    + destruct (taken_name_has_one_row _ _ Hnames Hin) as [p Hp].
      rewrite Hp. cbn [scalar_one_or_none]. unfold ret at 1.
      rewrite (IH s Hl Hnames).
      rewrite filter_cons_False; [done|]. by intros Hout.
    + rewrite (filter_none _ (positions (pending s))).
      2:{ intros p Hp Hname. apply Hout. apply list_elem_of_fmap. eauto. }
      cbn [scalar_one_or_none]. unfold modify at 1.
      rewrite IH; [|done|].
      2:{ cbn [pending]. unfold set_positions. cbn [positions].
          rewrite fmap_app. apply NoDup_app. split; [done|]. split;
            [|apply NoDup_singleton].
          intros name Hname Hnew. apply list_elem_of_singleton in Hnew.
          simpl in Hnew. by subst name. }
      cbn [committed pending outbox]. unfold set_positions.
      cbn [positions manual_expenses employee_payment_status payment_cycle_config
           expenses manual_expenses_seq employee_payment_status_seq
           payment_cycle_config_seq expenses_seq].
      rewrite filter_cons_True by done. cbn [map].
      rewrite <- app_assoc. cbn [app].
      rewrite (filter_ext_in
                 (fun position_data =>
                    pn_name position_data
                    ∉ map pos_name
                        (positions (pending s)
                         ++ [mkPosition (keys (pn_name pd)) (pn_name pd)
                               (pn_description pd) (pn_base_salary pd)]))
                 (fun position_data =>
                    pn_name position_data ∉ map pos_name (positions (pending s))));
        [done|].
      intros x Hx. rewrite fmap_app, elem_of_app. cbn [fmap list_fmap].
      rewrite list_elem_of_singleton. cbn [pos_name].
      split; [tauto|]. intros Hfree [Hold|Hnew]; [done|].
      apply Hpd. rewrite <- Hnew. apply list_elem_of_fmap. eauto.
Qed.

Lemma seed_initial_positions_run (keys : string -> Z) (w : World) :
  NoDup (map pos_name (positions (data w))) ->
  run (seed_initial_positions keys) w
  = (Ok tt,
     mkWorld
       (set_positions
          (positions (data w)
           ++ map (fun position_data =>
                     mkPosition (keys (pn_name position_data))
                       (pn_name position_data) (pn_description position_data)
                       (pn_base_salary position_data))
                  (filter (fun position_data =>
                             pn_name position_data
                             ∉ map pos_name (positions (data w)))
                          initial_positions))
          (data w))
       (sent w)).
Proof.
  intros Hnames.
  unfold seed_initial_positions, run, async_session, try_except, close.
  cbn [committed pending outbox].
  unfold bind at 1. rewrite seed_positions_loop; [|compute_done|done].
  by unfold commit.
Qed.

(** X22: [seed_initial_positions], on a table of unique names. It adds the
    positions of its list whose names the table lacks, after the rows that
    are there, and touches no existing row: a position whose salary was
    edited keeps the edit across restarts. Afterwards the four names are
    all present, names are still unique, and seeding again changes
    nothing. *)
Theorem seed_initial_positions_adds_the_missing (keys keys' : string -> Z)
    (w : World) :
  NoDup (map pos_name (positions (data w))) ->
  let result := run (seed_initial_positions keys) w in
  let missing :=
    filter (fun position_data =>
              pn_name position_data ∉ map pos_name (positions (data w)))
           initial_positions in
  fst result = Ok tt
  /\ positions (data (snd result))
     = positions (data w)
       ++ map (fun position_data =>
                 mkPosition (keys (pn_name position_data))
                   (pn_name position_data) (pn_description position_data)
                   (pn_base_salary position_data)) missing
  /\ (forall name, name ∈ ["MANAGER"; "PERSONAL_TRAINER"; "RECEPTIONIST"; "CLEANER"] ->
                   name ∈ map pos_name (positions (data (snd result))))
  /\ NoDup (map pos_name (positions (data (snd result))))
  /\ run (seed_initial_positions keys') (snd result) = (Ok tt, snd result).
Proof.
  intros Hnames. cbv zeta.
  rewrite (seed_initial_positions_run keys w Hnames). cbn [fst snd data].
  remember (filter (fun position_data =>
                      pn_name position_data ∉ map pos_name (positions (data w)))
                   initial_positions) as missing eqn:Hmissing.
  remember (map (fun position_data =>
                   mkPosition (keys (pn_name position_data))
                     (pn_name position_data) (pn_description position_data)
                     (pn_base_salary position_data)) missing) as added eqn:Hadd.
  unfold set_positions at 1 2 3. cbn [positions].
  assert (Hpresent : forall position_data,
            position_data ∈ initial_positions ->
            pn_name position_data ∈ map pos_name (positions (data w) ++ added)).
  { intros pd Hpd. rewrite fmap_app, elem_of_app.
    destruct (decide (pn_name pd ∈ map pos_name (positions (data w))))
      as [Hin|Hout]; [by left|right].
    apply list_elem_of_fmap.
    exists (mkPosition (keys (pn_name pd)) (pn_name pd) (pn_description pd)
              (pn_base_salary pd)).
    split; [done|]. subst added. apply list_elem_of_fmap. exists pd.
    split; [done|]. subst missing. by apply list_elem_of_filter. }
  assert (Hunique : NoDup (map pos_name (positions (data w) ++ added))).
  { assert (Hadded : pos_name <$> added = pn_name <$> missing).
    { subst added. rewrite <- list_fmap_compose. by apply list_fmap_ext. }
    rewrite fmap_app, Hadded. apply NoDup_app. split; [done|]. split.
    - intros name Hold Hnew.
      apply list_elem_of_fmap in Hnew as (pd & -> & Hpd).
      subst missing. by apply list_elem_of_filter in Hpd as [Hfree _].
    - eapply (sublist_NoDup _ (map pn_name initial_positions)); [compute_done|].
      subst missing. apply fmap_sublist, sublist_filter. }
  split; [done|]. split; [done|]. split; [|split; [done|]].
  - intros name Hname.
    change ["MANAGER"; "PERSONAL_TRAINER"; "RECEPTIONIST"; "CLEANER"]%string
      with (pn_name <$> initial_positions) in Hname.
    apply list_elem_of_fmap in Hname as (pd & -> & Hpd). by apply Hpresent.
  - rewrite seed_initial_positions_run by done.
    cbn [data sent]. unfold set_positions at 2 3. cbn [positions].
    rewrite (filter_none _ initial_positions).
    2:{ intros pd Hpd Hfree. apply Hfree. by apply Hpresent. }
    cbn [map]. rewrite app_nil_r. unfold set_positions. by cbn.
Qed.

Lemma seed_initial_positions_adds_the_missing_witness :
  positions (data (snd (run (seed_initial_positions
                               (fun name => if String.eqb name "MANAGER" then 3 else 4))
                         example_world)))
  = [mkPosition 1 "PERSONAL_TRAINER" None 3500%Q;
     mkPosition 2 "RECEPTIONIST" None 1800%Q;
     mkPosition 3 "MANAGER" (Some "Gerente/Proprietário da academia") 0%Q;
     mkPosition 4 "CLEANER" (Some "Funcionário de limpeza") 1400%Q].
Proof.
  destruct (seed_initial_positions_adds_the_missing
              (fun name => if String.eqb name "MANAGER" then 3 else 4)
              (fun _ => 5) example_world) as (_ & Hrows & _); [compute_done|].
  refine (eq_trans Hrows _). vm_compute. reflexivity.
Defined.

(** ** One row per employee *)

(** X23: employee ids stay unique. On a table where no two PaymentStatus
    rows share an employee id, every operation of the service leaves such a
    table: a registration inserts only for an id without a row, and no
    other operation inserts a row or changes an employee id. *)
Theorem employee_ids_stay_unique
    (validate_registered : gmap string json -> res EmployeeRegistered)
    (validate_deleted : gmap string json -> res EmployeeDeleted)
    (validate_role_changed : gmap string json -> res EmployeeRoleChanged)
    (op : Operation) (w : World) :
  NoDup (map employee_id (employee_payment_status (data w))) ->
  NoDup (map employee_id
           (employee_payment_status
              (data (perform validate_registered validate_deleted
                       validate_role_changed op w)))).
Proof.
  intros Hw.
  assert (Hupdate : forall (g : EmployeePaymentStatus -> EmployeePaymentStatus) rows,
            (forall r, employee_id (g r) = employee_id r) ->
            NoDup (map employee_id rows) -> NoDup (map employee_id (map g rows))).
  { intros g rows Hg Hrows. rewrite <- list_fmap_compose.
    by rewrite (list_fmap_ext (employee_id ∘ g) employee_id _ (fun _ r _ => Hg r)). }
  destruct op; cbn [perform].
  1:{ rewrite process_employee_registered_cases.
      destruct body as [|payload]; [done|].
      destruct (validate_registered (normalize_id payload)) as [ev|e]; [|done].
      destruct (filter _ (employee_payment_status (data w))) as [|r rest] eqn:Hnone;
        [|by destruct rest].
      destruct (varchar 50 (er_id ev) && varchar 100 (er_role ev)); [|done].
      cbn [snd data]. unfold set_employee_payment_status.
      cbn [employee_payment_status].
      rewrite fmap_app. apply NoDup_app. split; [done|]. split;
        [|apply NoDup_singleton].
      intros eid [r [-> Hr]]%list_elem_of_fmap Hnew.
      apply list_elem_of_singleton in Hnew. simpl in Hnew.
      by eapply (filter_nil_not_elem_of _ _ r Hnone). }
  all: apply (keeps_run
                (fun d => NoDup (map employee_id (employee_payment_status d))));
    [|done];
    unfold_entry_points; unfold PaymentCycleService.get_or_create_config;
    keeps_auto; simpl; try done;
    try (apply Hupdate; [|done]; intros r; by case_decide).
  eapply sublist_NoDup; [eassumption|]. apply fmap_sublist, sublist_filter.
Qed.

Lemma employee_ids_stay_unique_witness :
  NoDup (map employee_id
           (employee_payment_status
              (data (perform example_validate_registered example_validate_deleted
                       example_validate_role_changed
                       (OnEmployeeRegistered example_clock
                          (Object example_registered_payload))
                       example_world)))).
Proof.
  apply employee_ids_stay_unique. compute_done.
Defined.
